(** * Genome data validation: the annotation review engine

    A shallow embedding of [streamlit_app.py]: the sentence splitter, the
    session state and its handlers (navigation, evidence selection, save),
    the progress counts and the worksheet writer of [GoogleSheetHandler],
    followed by the properties of the review engine. *)

From Stdlib Require Import ZArith Ascii.
From stdpp Require Import base option list strings gmap sets pretty.

Local Open Scope Z_scope.

(** ** Text: whitespace, stripping, splitting into sentences *)

Module Text.

(** [str.isspace] and the pattern class [\s] on one character.  A character
    is a code point below 256; the whitespace code points in that range are
    9 to 13, 28 to 31, 32, 133 and 160. *)
Definition isspace (c : ascii) : bool :=
  let n := nat_of_ascii c in
  ((9 <=? n) && (n <=? 13))%nat || ((28 <=? n) && (n <=? 32))%nat
  || (n =? 133)%nat || (n =? 160)%nat.

(** The character class [[.!?]] of the lookbehind. *)
Definition is_terminal (c : ascii) : bool :=
  bool_decide (c = "."%char) || bool_decide (c = "!"%char)
  || bool_decide (c = "?"%char).

(** Pushes a character in front of the first piece of a split. *)
Definition cons_head (c : ascii) (ps : list string) : list string :=
  match ps with
  | [] => [String c ""]
  | p :: ps' => String c p :: ps'
  end.

(** [re.split(r'(?<=[.!?])\s+', s)], read left to right.  [in_sep] says that
    the scan is inside a match of [\s+]; [prev_term] that the character just
    before the current position is one of [.!?], which is what the
    lookbehind asks at the position where a match starts.  A match starts at
    a whitespace character that follows a terminal one, runs over the whole
    whitespace run and closes the current piece; all other characters go to
    the current piece.  The result always has one piece more than there are
    matches, so it is never empty. *)
Fixpoint split_scan (in_sep prev_term : bool) (s : string) : list string :=
  match s with
  | EmptyString => [""]
  | String c s' =>
      if isspace c then
        if in_sep then split_scan true false s'
        else if prev_term then "" :: split_scan true false s'
        else cons_head c (split_scan false false s')
      else cons_head c (split_scan false (is_terminal c) s')
  end.

Definition re_split_sentences (s : string) : list string :=
  split_scan false false s.

(** [str.lstrip()], [str.rstrip()] and [str.strip()] without argument. *)
Fixpoint lstrip (s : string) : string :=
  match s with
  | EmptyString => ""
  | String c s' => if isspace c then lstrip s' else s
  end.

Fixpoint rstrip (s : string) : string :=
  match s with
  | EmptyString => ""
  | String c s' =>
      match rstrip s' with
      | EmptyString => if isspace c then "" else String c ""
      | r => String c r
      end
  end.

Definition strip (s : string) : string := rstrip (lstrip s).

(** Lines 286-289 of [main]:
    [abstract_sentences = re.split(r'(?<=[.!?])\s+', abstract)], then
    [[s.strip() for s in abstract_sentences if s.strip()]]. *)
Definition abstract_sentences (abstract : string) : list string :=
  strip <$> filter (λ s, strip s ≠ "") (re_split_sentences abstract).

End Text.

(** ** Tables: the part of [pandas.DataFrame] the program uses *)

Module Frame.

(** A sheet as the service returns it: a list of rows of cells. *)
Abbreviation grid := (list (list string)).

(** A [DataFrame] whose cells are strings.  Rows are as long as [columns];
    the frames of the program are built from a header and its rows
    ([load_data]) or from one dict ([pd.DataFrame([response])]).  A frame
    with a missing cell, which pandas holds as [None], is outside this
    type: the statements about a dataset read from a sheet ask for
    [rectangular] values. *)
Record DataFrame := { columns : list string; values : grid }.

(** [list.index(x)]: position of the first occurrence, if any; it is
    defined exactly when [x in l]. *)
Definition index_of (x : string) (l : list string) : option nat :=
  fst <$> list_find (λ y, y = x) l.

(** The cell of a row at a column.  In a frame with rows as long as its
    columns every column has its cell; the default is met only outside
    such a frame. *)
Definition cell (row : list string) (i : nat) : string := default "" (row !! i).

(** [len(df)] and [df.empty] (an axis of length 0). *)
Definition len (df : DataFrame) : nat := length (values df).

Definition empty (df : DataFrame) : bool :=
  bool_decide (columns df = []) || bool_decide (values df = []).

(** [Series.get(key, default)] on the row [row] of a frame with [cols]. *)
Definition series_get (cols row : list string) (key dflt : string) : string :=
  match index_of key cols with
  | Some i => cell row i
  | None => dflt
  end.

(** A sheet whose rows are as long as its header row: the values of which
    [pd.DataFrame(values[1:], columns=values[0])] makes a frame of strings.
    On a row longer than the header pandas raises [ValueError], and a
    shorter row it fills with [None]. *)
Definition rectangular (data : grid) : Prop :=
  match data with
  | [] => True
  | header :: body => Forall (λ row, length row = length header) body
  end.

(** [pd.DataFrame(values[1:], columns=values[0])] on [rectangular] values,
    and [pd.DataFrame()] when there are no values. *)
Definition from_values (vals : grid) : DataFrame :=
  match vals with
  | [] => {| columns := []; values := [] |}
  | header :: body => {| columns := header; values := body |}
  end.

(** [pd.DataFrame([response])]: one row, the columns being the keys of the
    dict in insertion order. *)
Definition from_record (response : list (string * string)) : DataFrame :=
  {| columns := response.*1; values := [response.*2] |}.

(** [df[~df['PMID'].astype(str).isin(existing_pmids)]]; [None] stands for the
    [KeyError] of [df['PMID']] on a frame without that column. *)
Definition without_pmids (df : DataFrame) (existing_pmids : gset string)
  : option DataFrame :=
  i ← index_of "PMID" (columns df);
  Some {| columns := columns df;
          values := filter (λ row, cell row i ∉ existing_pmids) (values df) |}.

(** [set(row[idx] for row in rows if len(row) > idx)], as a list first. *)
Definition cells_at (idx : nat) (rows : grid) : list string :=
  omap (λ row : list string, row !! idx) rows.

Definition pmid_set (idx : nat) (rows : grid) : gset string :=
  list_to_set (cells_at idx rows).

End Frame.

Import Frame.

(** ** The session state, the remote spreadsheet and the page *)

(** [st.session_state], one field per key the program uses; [None] is a key
    that is absent.  [navigate_to_pmid] also reads [None] when the key holds
    Python's [None] (the program tells neither apart after line 469), and it
    holds the target as [str(...)] gives it. *)
Record SessionState := {
  user : option string;
  current_record_index : option Z;
  hnh_reason_text : option string;
  hnh_used_sentences : option (gset string);
  type_reason_text : option string;
  type_used_sentences : option (gset string);
  non_human_subcategories : option (list string);
  navigate_to_pmid : option string;
}.

Definition set_current_record_index (v : option Z) (s : SessionState) :=
  {| user := user s; current_record_index := v;
     hnh_reason_text := hnh_reason_text s;
     hnh_used_sentences := hnh_used_sentences s;
     type_reason_text := type_reason_text s;
     type_used_sentences := type_used_sentences s;
     non_human_subcategories := non_human_subcategories s;
     navigate_to_pmid := navigate_to_pmid s |}.

Definition set_hnh_reason_text (v : option string) (s : SessionState) :=
  {| user := user s; current_record_index := current_record_index s;
     hnh_reason_text := v;
     hnh_used_sentences := hnh_used_sentences s;
     type_reason_text := type_reason_text s;
     type_used_sentences := type_used_sentences s;
     non_human_subcategories := non_human_subcategories s;
     navigate_to_pmid := navigate_to_pmid s |}.

Definition set_hnh_used_sentences (v : option (gset string)) (s : SessionState) :=
  {| user := user s; current_record_index := current_record_index s;
     hnh_reason_text := hnh_reason_text s;
     hnh_used_sentences := v;
     type_reason_text := type_reason_text s;
     type_used_sentences := type_used_sentences s;
     non_human_subcategories := non_human_subcategories s;
     navigate_to_pmid := navigate_to_pmid s |}.

Definition set_type_reason_text (v : option string) (s : SessionState) :=
  {| user := user s; current_record_index := current_record_index s;
     hnh_reason_text := hnh_reason_text s;
     hnh_used_sentences := hnh_used_sentences s;
     type_reason_text := v;
     type_used_sentences := type_used_sentences s;
     non_human_subcategories := non_human_subcategories s;
     navigate_to_pmid := navigate_to_pmid s |}.

Definition set_type_used_sentences (v : option (gset string)) (s : SessionState) :=
  {| user := user s; current_record_index := current_record_index s;
     hnh_reason_text := hnh_reason_text s;
     hnh_used_sentences := hnh_used_sentences s;
     type_reason_text := type_reason_text s;
     type_used_sentences := v;
     non_human_subcategories := non_human_subcategories s;
     navigate_to_pmid := navigate_to_pmid s |}.

Definition set_non_human_subcategories (v : option (list string)) (s : SessionState) :=
  {| user := user s; current_record_index := current_record_index s;
     hnh_reason_text := hnh_reason_text s;
     hnh_used_sentences := hnh_used_sentences s;
     type_reason_text := type_reason_text s;
     type_used_sentences := type_used_sentences s;
     non_human_subcategories := v;
     navigate_to_pmid := navigate_to_pmid s |}.

Definition set_navigate_to_pmid (v : option string) (s : SessionState) :=
  {| user := user s; current_record_index := current_record_index s;
     hnh_reason_text := hnh_reason_text s;
     hnh_used_sentences := hnh_used_sentences s;
     type_reason_text := type_reason_text s;
     type_used_sentences := type_used_sentences s;
     non_human_subcategories := non_human_subcategories s;
     navigate_to_pmid := v |}.

(** What a run puts on the page: the notices [st.info], [st.success],
    [st.warning], [st.error], and the three [metric] tiles.  Plain display
    ([st.write], [st.markdown], headers) is not recorded. *)
Inductive level := info | success | warning | error.

Inductive output :=
  | Notice (l : level) (msg : string)
  | Metric (label : string) (value : Z).

(** Exceptions.  [RerunException] is what [st.rerun()] raises to stop the
    run; it is no subclass of [Exception], so no [except Exception] of the
    program catches it. *)
Inductive exn :=
  | HttpError
  | KeyError (key : string)
  | IndexError
  | AttributeError (name : string)
  | RerunException.

Definition is_Exception (e : exn) : bool :=
  match e with
  | RerunException => false
  | _ => true
  end.

(** The text of [{e}] in the messages. *)
Definition exn_text (e : exn) : string :=
  match e with
  | HttpError => "HttpError"
  | KeyError key => "'" +:+ key +:+ "'"
  | IndexError => "IndexError"
  | AttributeError name => name
  | RerunException => "RerunException"
  end.

(** Everything a run reads and writes: the session state, the worksheets of
    the spreadsheet by title, and the page. *)
Record World := {
  session : SessionState;
  sheets : gmap string grid;
  ui : list output;
}.

Inductive res (A : Type) :=
  | Ret (a : A)
  | Raise (e : exn).
Arguments Ret {A} a.
Arguments Raise {A} e.

(** Computations over the world that return or raise; the effects made
    before an exception stay. *)
Definition M (A : Type) : Type := World → res A * World.

#[global] Instance M_ret : MRet M := λ A a w, (Ret a, w).

#[global] Instance M_bind : MBind M := λ A B k m w,
  match m w with
  | (Ret a, w') => k a w'
  | (Raise e, w') => (Raise e, w')
  end.

Definition raise {A} (e : exn) : M A := λ w, (Raise e, w).

(** [try: m / except Exception as e: ...], with the exception handed to the
    continuation as [inr e]. *)
Definition attempt {A} (m : M A) : M (A + exn) := λ w,
  match m w with
  | (Ret a, w') => (Ret (inl a), w')
  | (Raise e, w') =>
      if is_Exception e then (Ret (inr e), w') else (Raise e, w')
  end.

Definition get_session : M SessionState := λ w, (Ret (session w), w).

Definition modify_session (f : SessionState → SessionState) : M unit := λ w,
  (Ret tt, {| session := f (session w); sheets := sheets w; ui := ui w |}).

Definition emit (o : output) : M unit := λ w,
  (Ret tt, {| session := session w; sheets := sheets w; ui := ui w ++ [o] |}).

Definition st_info (msg : string) : M unit := emit (Notice info msg).
Definition st_success (msg : string) : M unit := emit (Notice success msg).
Definition st_warning (msg : string) : M unit := emit (Notice warning msg).
Definition st_error (msg : string) : M unit := emit (Notice error msg).
Definition st_rerun {A} : M A := raise RerunException.

Definition when (b : bool) (m : M unit) : M unit := if b then m else mret tt.

(** ** The spreadsheet service

    The service is outside the repository; its four calls are taken at their
    interface.  [fails] stands for a transport, permission or quota failure
    of the call, which raises and changes nothing.  A range names a sheet
    and raises when there is no sheet of that title; [addSheet] raises when
    the title is taken. *)

Module Sheets.

(** [A1:Z] keeps the first 26 columns; a bare sheet name keeps all. *)
Definition crop (width : option nat) (g : grid) : grid :=
  match width with
  | Some n => take n <$> g
  | None => g
  end.

(** [values().get(range=...).execute().get('values', [])]. *)
Definition values_get (fails : bool) (title : string) (width : option nat)
  : M grid := λ w,
  if fails then (Raise HttpError, w)
  else match sheets w !! title with
       | Some g => (Ret (crop width g), w)
       | None => (Raise HttpError, w)
       end.

(** [values().append(range=title, insertDataOption='INSERT_ROWS', ...)]: the
    rows go below the rows of the sheet. *)
Definition values_append (fails : bool) (title : string) (new : grid)
  : M unit := λ w,
  if fails then (Raise HttpError, w)
  else match sheets w !! title with
       | Some g =>
           (Ret tt, {| session := session w;
                       sheets := <[title := g ++ new]> (sheets w);
                       ui := ui w |})
       | None => (Raise HttpError, w)
       end.

(** [batchUpdate] with one [addSheet] request; the grid sizes are part of
    the request and do not show in the contents. *)
Definition add_sheet (fails : bool) (title : string)
    (rowCount columnCount : nat) : M unit := λ w,
  if fails then (Raise HttpError, w)
  else match sheets w !! title with
       | Some _ => (Raise HttpError, w)
       | None =>
           (Ret tt, {| session := session w;
                       sheets := <[title := []]> (sheets w);
                       ui := ui w |})
       end.

(** Writing [new] over [old] from the top-left cell. *)
Definition overwrite_row (new old : list string) : list string :=
  new ++ drop (length new) old.

Fixpoint overwrite (new old : grid) : grid :=
  match new, old with
  | [], _ => old
  | _, [] => new
  | n :: new', o :: old' => overwrite_row n o :: overwrite new' old'
  end.

(** [values().update(range=title!A1, ...)]. *)
Definition values_update (fails : bool) (title : string) (new : grid)
  : M unit := λ w,
  if fails then (Raise HttpError, w)
  else match sheets w !! title with
       | Some g =>
           (Ret tt, {| session := session w;
                       sheets := <[title := overwrite new g]> (sheets w);
                       ui := ui w |})
       | None => (Raise HttpError, w)
       end.

End Sheets.

(** ** [GoogleSheetHandler] *)

Definition SHEET_NAME : string :=
  "Sample_Human_NH_Original_used_Mixed_Classificaton".

(** Which calls of one save fail in transport. *)
Record Faults := {
  read_fails : bool;
  append_fails : bool;
  add_sheet_fails : bool;
  update_fails : bool;
}.

Definition no_faults : Faults :=
  {| read_fails := false; append_fails := false;
     add_sheet_fails := false; update_fails := false |}.

Module GoogleSheetHandler.

(** [load_data], lines 26-35. *)
Definition load_data (fails : bool) : M DataFrame :=
  values ← Sheets.values_get fails SHEET_NAME None;
  mret (from_values values).

(** Lines 49-65: the worksheet has a header with [PMID] at [idx]; the rows
    of [df] whose PMID is not yet there are appended. *)
Definition append_new_rows (f : Faults) (df : DataFrame)
    (worksheet_name : string) (idx : nat) (existing_rows : grid) : M unit :=
  let existing_pmids := pmid_set idx existing_rows in
  match without_pmids df existing_pmids with
  | None => raise (KeyError "PMID")
  | Some new_rows =>
      if Frame.empty new_rows then
        st_info ("No new responses to add to worksheet: " +:+ worksheet_name)
      else
        let append_values := values new_rows in
        Sheets.values_append (append_fails f) worksheet_name append_values;;
        st_success ("Appended " +:+ pretty (length append_values)
                    +:+ " new rows to worksheet: " +:+ worksheet_name)
  end.

(** Lines 69-101: the sheet is created, then header and rows are written
    from [A1].  A failure of the creation is reported and ends the call; the
    write of line 95 is outside any [try]. *)
Definition create_and_write (f : Faults) (df : DataFrame)
    (worksheet_name : string) : M unit :=
  r ← attempt (Sheets.add_sheet (add_sheet_fails f) worksheet_name
                 (1000 `max` (len df + 10))%nat
                 (10 `max` (length (columns df) + 2))%nat);
  match r with
  | inr e => st_error ("Sheet creation error: " +:+ exn_text e)
  | inl _ =>
      st_success ("Created new worksheet: " +:+ worksheet_name);;
      Sheets.values_update (update_fails f) worksheet_name
        (columns df :: values df);;
      st_success ("Wrote all data to worksheet: " +:+ worksheet_name)
  end.

(** [add_new_worksheet_and_write], lines 37-101.  [worksheet_exists] is
    [False] until line 48 and [True] from there on: an exception of the read
    is reported and leads to the creation path, as does a sheet without
    values or without [PMID] in its first row; an exception raised after
    line 48 is reported by the same [except] and ends the call, the creation
    path being skipped. *)
Definition add_new_worksheet_and_write (f : Faults) (df : DataFrame)
    (worksheet_name : string) : M unit :=
  r ← attempt (Sheets.values_get (read_fails f) worksheet_name (Some 26%nat));
  match r with
  | inr e =>
      st_warning ("Could not read worksheet " +:+ worksheet_name
                  +:+ " (may not exist): " +:+ exn_text e);;
      create_and_write f df worksheet_name
  | inl [] => create_and_write f df worksheet_name
  | inl (header :: existing_rows) =>
      match index_of "PMID" header with
      | None => create_and_write f df worksheet_name
      | Some idx =>
          r' ← attempt (append_new_rows f df worksheet_name idx existing_rows);
          match r' with
          | inr e =>
              st_warning ("Could not read worksheet " +:+ worksheet_name
                          +:+ " (may not exist): " +:+ exn_text e)
          | inl _ => mret tt
          end
      end
  end.

(** [get_validated_pmids], lines 103-116. *)
Definition get_validated_pmids (fails : bool) (worksheet_name : string)
  : M (gset string) :=
  r ← attempt (
    values ← Sheets.values_get fails worksheet_name (Some 26%nat);
    match values with
    | [] => mret ∅
    | header :: body =>
        match index_of "PMID" header with
        | None => mret ∅
        | Some pmid_idx => mret (pmid_set pmid_idx body)
        end
    end);
  match r with
  | inl pmids => mret pmids
  | inr e =>
      st_warning ("Could not read worksheet " +:+ worksheet_name +:+ ": "
                  +:+ exn_text e);;
      mret ∅
  end.

End GoogleSheetHandler.

Import GoogleSheetHandler.

(** ** The page: one run of [main] *)

(** The two options of the [Action] radios, the options of the two
    select boxes and the buttons of the page. *)
Inductive action := KeepOriginal | ChangeClassification.

Definition action_label (a : action) : string :=
  match a with
  | KeepOriginal => "Keep Original"
  | ChangeClassification => "Change Classification"
  end.

Inductive hnh_option := Human | NonHuman | Unclear.

Definition hnh_label (o : hnh_option) : string :=
  match o with
  | Human => "Human"
  | NonHuman => "Non-Human"
  | Unclear => "Unclear"
  end.

Inductive type_option := Original | Used | Mixed.

Definition type_label (o : type_option) : string :=
  match o with
  | Original => "Original"
  | Used => "Used"
  | Mixed => "Mixed"
  end.

Inductive click :=
  | NoClick
  | Previous
  | Next
  | AddHnhSentence
  | AddTypeSentence
  | SaveAndNext.

#[global] Instance click_eq_dec : EqDecision click.
Proof. solve_decision. Defined.

(** What the reviewer and the environment give to one run: the button that
    triggered it (at most one), the values of the widgets, the clock, and
    which calls to the service fail. *)
Record Inputs := {
  clicked : click;
  hnh_action_radio : action;
  hnh_new_class : hnh_option;
  hnh_sentence_select : option string;
  type_action_radio : action;
  type_new_class : type_option;
  type_sentence_select : option string;
  now : string;
  load_fails : bool;
  progress_fails : bool;
  save_faults : Faults;
}.

(** The current record as lines 263-286 read it from its row. *)
Record Current := {
  PMID : string;
  Title : string;
  Abstract : string;
  original_hnh_class : string;
  original_hnh_reason : string;
  original_type : string;
  original_type_reason : string;
}.

Definition newline : string := String (ascii_of_nat 10) "".

Module App.

(** Lines 209-211. *)
Definition progress_counts (full_df : DataFrame) (validated_pmids : gset string)
  : Z * Z * Z :=
  let total_records := Z.of_nat (len full_df) in
  let completed_count := Z.of_nat (size validated_pmids) in
  let remaining_count := total_records - completed_count in
  (total_records, completed_count, remaining_count).

(** Lines 220-227. *)
Definition clamp_index (total_records : Z) (s : SessionState) : SessionState :=
  let i0 := default 0 (current_record_index s) in
  let i1 :=
    if total_records <=? i0 then (if 0 <? total_records then total_records - 1 else 0)
    else i0 in
  let i2 := if i1 <? 0 then 0 else i1 in
  set_current_record_index (Some i2) s.

(** The five deletions of lines 235-244, 250-259 and 454-463. *)
Definition clear_record_state (s : SessionState) : SessionState :=
  set_non_human_subcategories None
    (set_type_used_sentences None
       (set_type_reason_text None
          (set_hnh_used_sentences None
             (set_hnh_reason_text None s)))).

(** Reading [st.session_state.current_record_index]. *)
Definition the_index : M Z :=
  s ← get_session;
  match current_record_index s with
  | Some i => mret i
  | None => raise (AttributeError "current_record_index")
  end.

(** Lines 231-245; a disabled button is never clicked. *)
Definition nav_previous (inp : Inputs) : M unit :=
  index ← the_index;
  when (bool_decide (clicked inp = Previous) && negb (index =? 0)) (
    modify_session (set_current_record_index (Some (index - 1)));;
    modify_session clear_record_state;;
    st_rerun).

(** Lines 246-260. *)
Definition nav_next (inp : Inputs) (total_records : Z) : M unit :=
  index ← the_index;
  when (bool_decide (clicked inp = Next) && negb (total_records - 1 <=? index)) (
    modify_session (set_current_record_index (Some (index + 1)));;
    modify_session clear_record_state;;
    st_rerun).

(** [full_df.iloc[i]]. *)
Definition iloc (df : DataFrame) (i : Z) : option (list string) :=
  let n := Z.of_nat (len df) in
  if 0 <=? i then values df !! Z.to_nat i
  else if 0 <=? n + i then values df !! Z.to_nat (n + i)
  else None.

(** Lines 263-286. *)
Definition current_record (full_df : DataFrame) (index : Z) : option Current :=
  row ← iloc full_df index;
  let get := series_get (columns full_df) row in
  Some {| PMID := get "PMID" "";
          Title := get "Title" "";
          Abstract := get "Abstract" "";
          original_hnh_class := get "Human_NonHuman_Classification" "Unclear";
          original_hnh_reason := get "Human_NonHuman_Reason" "";
          original_type := get "Dataset_Type" "Unclear";
          original_type_reason := get "Dataset_Type_Reason" "" |}.

(** Lines 292-295. *)
Definition init_used_sentences (s : SessionState) : SessionState :=
  let s := match hnh_used_sentences s with
           | None => set_hnh_used_sentences (Some ∅) s
           | Some _ => s
           end in
  match type_used_sentences s with
  | None => set_type_used_sentences (Some ∅) s
  | Some _ => s
  end.

(** Lines 354-355 and 393-394. *)
Definition init_hnh_reason_text (s : SessionState) : SessionState :=
  match hnh_reason_text s with
  | None => set_hnh_reason_text (Some "") s
  | Some _ => s
  end.

Definition init_type_reason_text (s : SessionState) : SessionState :=
  match type_reason_text s with
  | None => set_type_reason_text (Some "") s
  | Some _ => s
  end.

(** The multiselect of lines 339-343: a widget with a key holds its value
    under that key, the empty selection when the key was absent. *)
Definition multiselect_non_human (s : SessionState) : SessionState :=
  match non_human_subcategories s with
  | None => set_non_human_subcategories (Some []) s
  | Some _ => s
  end.

(** Lines 357-364: the button [add_hnh_sentence]. *)
Definition add_hnh_sentence (selected_hnh_sentence : option string) : M unit :=
  s ← get_session;
  match selected_hnh_sentence with
  | None => mret tt
  | Some sentence =>
      if bool_decide (sentence = "") then mret tt
      else match hnh_used_sentences s with
           | None => raise (AttributeError "hnh_used_sentences")
           | Some used =>
               if bool_decide (sentence ∈ used) then mret tt
               else
                 modify_session
                   (set_hnh_used_sentences (Some ({[sentence]} ∪ used)));;
                 match hnh_reason_text s with
                 | None => raise (AttributeError "hnh_reason_text")
                 | Some text =>
                     modify_session (set_hnh_reason_text (Some (
                       if bool_decide (text = "") then sentence
                       else text +:+ newline +:+ sentence)));;
                     st_rerun
                 end
           end
  end.

(** Lines 396-403: the button [add_type_sentence]. *)
Definition add_type_sentence (selected_type_sentence : option string) : M unit :=
  s ← get_session;
  match selected_type_sentence with
  | None => mret tt
  | Some sentence =>
      if bool_decide (sentence = "") then mret tt
      else match type_used_sentences s with
           | None => raise (AttributeError "type_used_sentences")
           | Some used =>
               if bool_decide (sentence ∈ used) then mret tt
               else
                 modify_session
                   (set_type_used_sentences (Some ({[sentence]} ∪ used)));;
                 match type_reason_text s with
                 | None => raise (AttributeError "type_reason_text")
                 | Some text =>
                     modify_session (set_type_reason_text (Some (
                       if bool_decide (text = "") then sentence
                       else text +:+ newline +:+ sentence)));;
                     st_rerun
                 end
           end
  end.

(** Lines 331-374; the result is [hnh_new]. *)
Definition render_hnh (inp : Inputs) (c : Current) : M string :=
  match hnh_action_radio inp with
  | ChangeClassification =>
      let hnh_new := hnh_label (hnh_new_class inp) in
      when (bool_decide (hnh_new = "Non-Human"))
        (modify_session multiselect_non_human);;
      modify_session init_hnh_reason_text;;
      when (bool_decide (clicked inp = AddHnhSentence))
        (add_hnh_sentence (hnh_sentence_select inp));;
      mret hnh_new
  | KeepOriginal =>
      modify_session (set_hnh_reason_text None);;
      modify_session (set_hnh_used_sentences None);;
      mret (original_hnh_class c)
  end.

(** Lines 379-413; the result is [type_new]. *)
Definition render_type (inp : Inputs) (c : Current) : M string :=
  match type_action_radio inp with
  | ChangeClassification =>
      let type_new := type_label (type_new_class inp) in
      modify_session init_type_reason_text;;
      when (bool_decide (clicked inp = AddTypeSentence))
        (add_type_sentence (type_sentence_select inp));;
      mret type_new
  | KeepOriginal =>
      modify_session (set_type_reason_text None);;
      modify_session (set_type_used_sentences None);;
      mret (original_type c)
  end.

(** Lines 418-441: the dict [response], keys in insertion order. *)
Definition build_response (u timestamp : string) (c : Current)
    (hnh_action type_action : action) (hnh_new type_new : string)
    (s : SessionState) : list (string * string) :=
  let hnh_reason_to_save :=
    match hnh_action with
    | ChangeClassification => default (original_hnh_reason c) (hnh_reason_text s)
    | KeepOriginal => original_hnh_reason c
    end in
  let type_reason_to_save :=
    match type_action with
    | ChangeClassification => default (original_type_reason c) (type_reason_text s)
    | KeepOriginal => original_type_reason c
    end in
  [ ("user", u);
    ("timestamp", timestamp);
    ("PMID", PMID c);
    ("Title", Title c);
    ("Abstract", Abstract c);
    ("original_Human_NonHuman_Classification", original_hnh_class c);
    ("original_Human_NonHuman_Reason", original_hnh_reason c);
    ("original_Dataset_Type", original_type c);
    ("original_Dataset_Type_Reason", original_type_reason c);
    ("hnh_action", action_label hnh_action);
    ("hnh_new_classification", hnh_new);
    ("hnh_new_reason", hnh_reason_to_save);
    ("type_action", action_label type_action);
    ("type_new_classification", type_new);
    ("type_new_reason", type_reason_to_save) ]
  ++ match non_human_subcategories s with
     | Some subcategories =>
         if bool_decide (hnh_new = "Non-Human")
         then [("non_human_subcategories", String.concat ", " subcategories)]
         else []
     | None => []
     end.

(** Lines 416-465: the button [Save and Next]. *)
Definition on_save (inp : Inputs) (u : string) (c : Current)
    (hnh_new type_new worksheet_name : string) (total_records : Z) : M unit :=
  s ← get_session;
  let response :=
    build_response u (now inp) c (hnh_action_radio inp) (type_action_radio inp)
      hnh_new type_new s in
  let resp_df := from_record response in
  add_new_worksheet_and_write (save_faults inp) resp_df worksheet_name;;
  index ← the_index;
  modify_session (set_current_record_index (Some (index + 1)));;
  when (total_records <=? index + 1) (
    modify_session (set_current_record_index
      (Some (if 0 <? total_records then total_records - 1 else 0)));;
    st_info "You have reached the end of the records.");;
  modify_session clear_record_state;;
  st_rerun.

(** Lines 468-482: [navigate_to_pmid].  [matching_indices[0]] is the
    position of the first row whose PMID is the target. *)
Definition navigate (full_df : DataFrame) : M unit :=
  s ← get_session;
  match navigate_to_pmid s with
  | None => mret tt
  | Some target_pmid =>
      match index_of "PMID" (columns full_df) with
      | None => raise (KeyError "PMID")
      | Some j =>
          match list_find (λ row, cell row j = target_pmid) (values full_df) with
          | Some (i, _) =>
              modify_session (set_current_record_index (Some (Z.of_nat i)));;
              modify_session (set_navigate_to_pmid None);;
              st_rerun
          | None =>
              st_warning ("Could not find PMID " +:+ target_pmid
                          +:+ " in the dataset");;
              modify_session (set_navigate_to_pmid None)
          end
      end
  end.

(** Lines 208-217: the three counts and their tiles; the result is
    [total_records]. *)
Definition show_counts (full_df : DataFrame) (validated_pmids : gset string)
  : M Z :=
  let '(total_records, completed_count, remaining_count) :=
    progress_counts full_df validated_pmids in
  emit (Metric "Total Records" total_records);;
  emit (Metric "Completed" completed_count);;
  emit (Metric "Remaining" remaining_count);;
  mret total_records.

(** Lines 219-482: the cursor, the navigation buttons, the current record
    with its two axes, the save and the jump. *)
Definition review_record (inp : Inputs) (u : string) (full_df : DataFrame)
    (worksheet_name : string) (total_records : Z) : M unit :=
  modify_session (clamp_index total_records);;
  nav_previous inp;;
  nav_next inp total_records;;
  index ← the_index;
  match current_record full_df index with
  | None => raise IndexError
  | Some c =>
      modify_session init_used_sentences;;
      hnh_new ← render_hnh inp c;
      type_new ← render_type inp c;
      when (bool_decide (clicked inp = SaveAndNext))
        (on_save inp u c hnh_new type_new worksheet_name total_records);;
      navigate full_df
  end.

(** [main], lines 187-482, after [login()]; the progress view of lines
    484-523 only displays. *)
Definition main (inp : Inputs) : M unit :=
  s ← get_session;
  match user s with
  | None => mret tt
  | Some u =>
      full_df ← load_data (load_fails inp);
      if Frame.empty full_df then st_error "No data found in the spreadsheet"
      else
        let worksheet_name := "Validation_" +:+ u in
        validated_pmids ← get_validated_pmids (progress_fails inp) worksheet_name;
        total_records ← show_counts full_df validated_pmids;
        review_record inp u full_df worksheet_name total_records
  end.

End App.

Import App.

(** ** Vocabulary of the statements *)

Module TextSpec.
Import Text.

(** A terminal character directly followed by whitespace, somewhere in the
    text: a place where the pattern matches. *)
Fixpoint has_boundary (s : string) : bool :=
  match s with
  | EmptyString => false
  | String c s' =>
      match s' with
      | EmptyString => false
      | String d _ => (is_terminal c && isspace d) || has_boundary s'
      end
  end.

Fixpoint last_char (s : string) : option ascii :=
  match s with
  | EmptyString => None
  | String c s' =>
      match last_char s' with
      | None => Some c
      | Some d => Some d
      end
  end.

Definition ends_terminal (s : string) : bool :=
  match last_char s with
  | Some c => is_terminal c
  | None => false
  end.

Definition starts_space (s : string) : bool :=
  match s with
  | EmptyString => false
  | String c _ => isspace c
  end.

Definition ends_space (s : string) : bool :=
  match last_char s with
  | Some c => isspace c
  | None => false
  end.

Fixpoint all_space (s : string) : bool :=
  match s with
  | EmptyString => true
  | String c s' => isspace c && all_space s'
  end.

(** The split in the words of the specification: the text is cut at every
    terminal character followed by whitespace.  [cut_at_boundaries s ps]
    says that [s] is the pieces [ps] in their order with, between two
    neighbours, the whitespace that was cut out: a piece that is not the
    last ends in a terminal character and is followed by a non-empty run of
    whitespace that goes up to the next character that is no whitespace,
    and no piece has a place for a cut inside. *)
Inductive cut_at_boundaries : string → list string → Prop :=
  | cut_last a :
      has_boundary a = false → cut_at_boundaries a [a]
  | cut_more a ws b ps :
      has_boundary a = false → ends_terminal a = true →
      ws ≠ "" → all_space ws = true → starts_space b = false →
      cut_at_boundaries b ps →
      cut_at_boundaries (a +:+ ws +:+ b) (a :: ps).

(** Each fragment is trimmed and the empty ones are discarded. *)
Definition trimmed_fragments (pieces : list string) : list string :=
  filter (λ s, s ≠ "") (strip <$> pieces).

End TextSpec.

Module Vocabulary.

Definition with_session (s : SessionState) (w : World) : World :=
  {| session := s; sheets := sheets w; ui := ui w |}.

Definition with_sheet (title : string) (g : grid) (w : World) : World :=
  {| session := session w; sheets := <[title := g]> (sheets w); ui := ui w |}.

Definition say (o : list output) (w : World) : World :=
  {| session := session w; sheets := sheets w; ui := ui w ++ o |}.

(** The notices of the writer. *)
Definition could_not_read (name : string) (e : exn) : output :=
  Notice warning ("Could not read worksheet " +:+ name
                  +:+ " (may not exist): " +:+ exn_text e).

Definition creation_error (e : exn) : output :=
  Notice error ("Sheet creation error: " +:+ exn_text e).

Definition nothing_to_add (name : string) : output :=
  Notice info ("No new responses to add to worksheet: " +:+ name).

Definition appended (n : nat) (name : string) : output :=
  Notice success ("Appended " +:+ pretty n +:+ " new rows to worksheet: "
                  +:+ name).

Definition created (name : string) : output :=
  Notice success ("Created new worksheet: " +:+ name).

Definition wrote_all (name : string) : output :=
  Notice success ("Wrote all data to worksheet: " +:+ name).

(** The two classification axes and their part of the session state. *)
Inductive axis := AxisHNH | AxisType.

Definition used_sentences (ax : axis) (s : SessionState) : option (gset string) :=
  match ax with
  | AxisHNH => hnh_used_sentences s
  | AxisType => type_used_sentences s
  end.

Definition reason_text (ax : axis) (s : SessionState) : option string :=
  match ax with
  | AxisHNH => hnh_reason_text s
  | AxisType => type_reason_text s
  end.

Definition set_used_sentences (ax : axis) :=
  match ax with
  | AxisHNH => set_hnh_used_sentences
  | AxisType => set_type_used_sentences
  end.

Definition set_reason_text (ax : axis) :=
  match ax with
  | AxisHNH => set_hnh_reason_text
  | AxisType => set_type_reason_text
  end.

Definition init_reason_text (ax : axis) :=
  match ax with
  | AxisHNH => init_hnh_reason_text
  | AxisType => init_type_reason_text
  end.

Definition add_sentence (ax : axis) :=
  match ax with
  | AxisHNH => add_hnh_sentence
  | AxisType => add_type_sentence
  end.

(** The drafts of a record are cleared: the five keys are absent. *)
Definition cleared (s : SessionState) : Prop :=
  hnh_reason_text s = None ∧ hnh_used_sentences s = None
  ∧ type_reason_text s = None ∧ type_used_sentences s = None
  ∧ non_human_subcategories s = None.

(** [d.get(key)] on a dict kept as a list of items. *)
Fixpoint dict_get (key : string) (d : list (string * string)) : option string :=
  match d with
  | [] => None
  | (k, v) :: d' => if bool_decide (k = key) then Some v else dict_get key d'
  end.

(** The cursor after a save at [index] over [total_records] records. *)
Definition advance (total_records index : Z) : Z :=
  if total_records <=? index + 1
  then (if 0 <? total_records then total_records - 1 else 0)
  else index + 1.

(** A ledger as the writer reads it, and the record ids of its rows. *)
Definition view (g : grid) : grid := Sheets.crop (Some 26%nat) g.

(** The position of the identity column, when the first row read has one. *)
Definition pmid_column (g : grid) : option nat :=
  match view g with
  | [] => None
  | header :: _ => index_of "PMID" header
  end.

Definition ledger_pmids (g : grid) : list string :=
  match pmid_column g with
  | Some idx => cells_at idx (tail (view g))
  | None => []
  end.

Definition count_pmid (x : string) (g : grid) : nat :=
  length (filter (λ y, y = x) (ledger_pmids g)).

(** The record ids of a pending batch. *)
Definition pending_pmids (df : DataFrame) : list string :=
  match index_of "PMID" (columns df) with
  | Some j => (λ row, cell row j) <$> values df
  | None => []
  end.

(** The ledger keeps its record ids in the column where the batch has
    them. *)
Definition schema_agrees (df : DataFrame) (g : grid) : Prop :=
  ∀ idx, pmid_column g = Some idx → index_of "PMID" (columns df) = Some idx.

Definition ledger_agrees (df : DataFrame) (name : string) (w : World) : Prop :=
  ∀ g, sheets w !! name = Some g → schema_agrees df g.

Definition at_most_one (name : string) (w : World) : Prop :=
  ∀ g, sheets w !! name = Some g → NoDup (ledger_pmids g).

(** What a save does to the worksheet of the reviewer: the rows of the batch
    whose PMID the ledger does not have yet, and the worksheet after the
    save ([None] is a worksheet that does not exist). *)
Definition new_rows_for (df : DataFrame) (g : grid) : grid :=
  match pmid_column g, index_of "PMID" (columns df) with
  | Some _, Some j =>
      filter (λ row, cell row j ∉ (list_to_set (ledger_pmids g) : gset string))
        (values df)
  | _, _ => []
  end.

Definition ledger_after (f : Faults) (df : DataFrame) (ledger : option grid)
  : option grid :=
  match ledger with
  | None =>
      if add_sheet_fails f then None
      else if update_fails f then Some []
      else Some (columns df :: values df)
  | Some g =>
      if read_fails f || append_fails f then Some g
      else Some (g ++ new_rows_for df g)
  end.

(** The same save tried again and again, each try with its own failures. *)
Fixpoint retry_saves (fs : list Faults) (df : DataFrame) (name : string)
    (w : World) : World :=
  match fs with
  | [] => w
  | f :: fs' =>
      retry_saves fs' df name (add_new_worksheet_and_write f df name w).2
  end.

(** Any saves one after the other, each with its batch and its failures. *)
Fixpoint run_saves (saves : list (Faults * DataFrame)) (name : string)
    (w : World) : World :=
  match saves with
  | [] => w
  | (f, df) :: saves' =>
      run_saves saves' name (add_new_worksheet_and_write f df name w).2
  end.

(** A batch as the save handler builds it. *)
Definition is_judgment (df : DataFrame) : Prop :=
  ∃ u ts c ha ta hnh_new type_new s,
    df = from_record (build_response u ts c ha ta hnh_new type_new s).

(** The record ids of the dataset. *)
Definition dataset_pmids (full_df : DataFrame) : gset string :=
  list_to_set (pending_pmids full_df).

(** A computation only adds to the page. *)
Definition grows {A} (m : M A) : Prop :=
  ∀ w r w', m w = (r, w') → ∃ tail, ui w' = ui w ++ tail.

End Vocabulary.

(** ** Example data *)

Module Examples.

Definition dataset : grid :=
  [ ["PMID"; "Title"; "Abstract"; "Human_NonHuman_Classification";
     "Human_NonHuman_Reason"; "Dataset_Type"; "Dataset_Type_Reason"];
    ["101"; "Soil microbes"; "Soil was sampled. Microbes were sequenced.";
     "Non-Human"; "Soil was sampled."; "Original"; "Microbes were sequenced."];
    ["102"; "Patient cohort"; "Patients were enrolled. Data were reused.";
     "Human"; "Patients were enrolled."; "Used"; "Data were reused."] ].

(** A reviewer at the first record with nothing drafted. *)
Definition fresh_session : SessionState :=
  {| user := Some "ann"; current_record_index := Some 0;
     hnh_reason_text := None; hnh_used_sentences := None;
     type_reason_text := None; type_used_sentences := None;
     non_human_subcategories := None; navigate_to_pmid := None |}.

(** The same reviewer with drafts on both axes and a subcategory chosen. *)
Definition drafting_session : SessionState :=
  {| user := Some "ann"; current_record_index := Some 0;
     hnh_reason_text := Some "Soil was sampled.";
     hnh_used_sentences := Some {["Soil was sampled."]};
     type_reason_text := Some "Microbes were sequenced.";
     type_used_sentences := Some {["Microbes were sequenced."]};
     non_human_subcategories := Some ["Microbial"];
     navigate_to_pmid := None |}.

Definition inputs (b : click) (hnh type : action) (f : Faults) : Inputs :=
  {| clicked := b;
     hnh_action_radio := hnh; hnh_new_class := NonHuman;
     hnh_sentence_select := Some "Soil was sampled.";
     type_action_radio := type; type_new_class := Used;
     type_sentence_select := Some "Microbes were sequenced.";
     now := "2024-05-01 10:00:00";
     load_fails := false; progress_fails := false; save_faults := f |}.

(** The header of a ledger as the writer creates it. *)
Definition ledger_header : list string :=
  ["user"; "timestamp"; "PMID"; "Title"; "Abstract";
   "original_Human_NonHuman_Classification"; "original_Human_NonHuman_Reason";
   "original_Dataset_Type"; "original_Dataset_Type_Reason"; "hnh_action";
   "hnh_new_classification"; "hnh_new_reason"; "type_action";
   "type_new_classification"; "type_new_reason"].

(** The row of a judgment that keeps both originals, for a given PMID. *)
Definition judgment_row (pmid : string) : list string :=
  ["ann"; "2024-04-30 09:00:00"; pmid; "Patient cohort";
   "Patients were enrolled. Data were reused."; "Human";
   "Patients were enrolled."; "Used"; "Data were reused."; "Keep Original";
   "Human"; "Patients were enrolled."; "Keep Original"; "Used";
   "Data were reused."].

Definition judgment_102 : list string := judgment_row "102".

(** The first record of the dataset as the run reads it. *)
Definition record_101 : Current :=
  {| PMID := "101"; Title := "Soil microbes";
     Abstract := "Soil was sampled. Microbes were sequenced.";
     original_hnh_class := "Non-Human";
     original_hnh_reason := "Soil was sampled.";
     original_type := "Original";
     original_type_reason := "Microbes were sequenced." |}.

(** The second record of the dataset as the run reads it. *)
Definition record_102 : Current :=
  {| PMID := "102"; Title := "Patient cohort";
     Abstract := "Patients were enrolled. Data were reused.";
     original_hnh_class := "Human";
     original_hnh_reason := "Patients were enrolled.";
     original_type := "Used";
     original_type_reason := "Data were reused." |}.

(** A worksheet of the reviewer that is no ledger of judgments. *)
Definition notes_sheet : grid := [["reviewer"; "note"]; ["ann"; "check later"]].

Definition world (s : SessionState) (ledger : option grid) : World :=
  {| session := s;
     sheets := match ledger with
               | Some g => <["Validation_ann" := g]> {[ SHEET_NAME := dataset ]}
               | None => {[ SHEET_NAME := dataset ]}
               end;
     ui := [] |}.

End Examples.

(** ** The rest of the program: accounts, links, highlighting, the view *)

Definition set_user (v : option string) (s : SessionState) :=
  {| user := v; current_record_index := current_record_index s;
     hnh_reason_text := hnh_reason_text s;
     hnh_used_sentences := hnh_used_sentences s;
     type_reason_text := type_reason_text s;
     type_used_sentences := type_used_sentences s;
     non_human_subcategories := non_human_subcategories s;
     navigate_to_pmid := navigate_to_pmid s |}.

(** [users.json]: the accounts, a hash per user name; [None] is a file that
    does not exist.  The file holds what [json.dump] wrote, a dict of
    strings, and [json.load] gives that dict back. *)
Module Users.

(** [load_users], lines 118-122 of [streamlit_app.py], and the same read at
    lines 9-13 of [manage_users.py]. *)
Definition load_users (file : option (gmap string string)) : gmap string string :=
  match file with
  | Some users => users
  | None => ∅
  end.

(** [add_user] of [manage_users.py], lines 8-18; [hashed] is what
    [bcrypt.hashpw(password.encode(), bcrypt.gensalt()).decode()] gave.  The
    result is the file after the call and the line printed. *)
Definition add_user (hashpw : string → string → string) (salt : string)
    (username password : string) (file : option (gmap string string))
  : option (gmap string string) * string :=
  let users := load_users file in
  let hashed := hashpw password salt in
  (Some (<[username := hashed]> users),
   "User '" +:+ username +:+ "' added/updated.").

Inductive login_click := NoLoginClick | LoginButton | LogoutButton.

#[global] Instance login_click_eq_dec : EqDecision login_click.
Proof. solve_decision. Defined.

(** The two text inputs of the login form and the button clicked. *)
Record LoginInputs := {
  username_input : string;
  password_input : string;
  login_clicked : login_click;
}.

(** [login], lines 128-150.  [checkpw] is [bcrypt.checkpw] on the password
    and the stored hash; it is asked only for a user name that is in the
    file.  Each button exists on one side of the test of line 136 only. *)
Definition login (checkpw : string → string → bool)
    (file : option (gmap string string)) (lin : LoginInputs) : M unit :=
  let users := load_users file in
  s ← get_session;
  match user s with
  | None =>
      when (bool_decide (login_clicked lin = LoginButton)) (
        match users !! username_input lin with
        | Some hashed =>
            if checkpw (password_input lin) hashed then
              modify_session (set_user (Some (username_input lin)));;
              st_rerun
            else st_error "Invalid username or password"
        | None => st_error "Invalid username or password"
        end)
  | Some _ =>
      when (bool_decide (login_clicked lin = LogoutButton)) (
        modify_session (set_user None);;
        st_rerun)
  end.

(** [main] from its first line: [login()], then the page. *)
Definition main_with_login (checkpw : string → string → bool)
    (file : option (gmap string string)) (lin : LoginInputs) (inp : Inputs)
  : M unit :=
  login checkpw file lin;;
  main inp.

End Users.

(** The links of the progress view, lines 152-164. *)
Module Links.

Definition dq : string := String (ascii_of_nat 34) "".

(** [s.replace(old, new)] for a non-empty [old]: the occurrences of [old]
    are found from the left and do not overlap.  [skip] counts the
    characters of an occurrence still to pass. *)
Fixpoint replace_scan (old new : string) (skip : nat) (s : string) : string :=
  match s with
  | EmptyString => ""
  | String c s' =>
      match skip with
      | S k => replace_scan old new k s'
      | O =>
          if String.prefix old s
          then new +:+ replace_scan old new (String.length old - 1) s'
          else String c (replace_scan old new 0 s')
      end
  end.

Definition str_replace (old new s : string) : string :=
  replace_scan old new 0 s.

(** [create_clickable_pmid], lines 152-155. *)
Definition create_clickable_pmid (pmid : string) : string :=
  "<button onclick=" +:+ dq
  +:+ "window.parent.postMessage({type: 'streamlit:componentCommunication', value: "
  +:+ pmid +:+ "}, '*')" +:+ dq +:+ " style=" +:+ dq
  +:+ "background: none; border: none; color: blue; text-decoration: underline; cursor: pointer;"
  +:+ dq +:+ ">" +:+ pmid +:+ "</button>".

(** [create_clickable_pmcid], lines 157-164, on a cell that is a string. *)
Definition create_clickable_pmcid (pmcid : string) : string :=
  if bool_decide (pmcid = "") then ""
  else
    let pmid :=
      if String.prefix "PMC" pmcid then str_replace "PMC" "" pmcid else pmcid in
    let url := "https://pubmed.ncbi.nlm.nih.gov/" +:+ pmid +:+ "/" in
    "<a href=" +:+ dq +:+ url +:+ dq +:+ " target=" +:+ dq +:+ "_blank"
    +:+ dq +:+ ">" +:+ pmcid +:+ "</a>".

End Links.

(** The abstract with its sentences marked, lines 297-325. *)
Module Highlight.
Import Links.

(** [str.lower()] on one character with a code point below 256: the capital
    letters A to Z and those of 192 to 222 other than 215 move up by 32. *)
Definition lower_char (c : ascii) : ascii :=
  let n := nat_of_ascii c in
  if ((65 <=? n) && (n <=? 90))%nat
     || ((192 <=? n) && (n <=? 222) && negb (n =? 215))%nat
  then ascii_of_nat (n + 32) else c.

Fixpoint lower (s : string) : string :=
  match s with
  | EmptyString => ""
  | String c s' => String (lower_char c) (lower s')
  end.

(** The four branches of lines 316-323 for one sentence. *)
Definition highlight_sentence (hnh_used type_used : gset string)
    (original_hnh_reason original_type_reason sentence : string) : string :=
  let sentence_lower := lower sentence in
  let is_used_for_new_reason :=
    bool_decide (sentence ∈ hnh_used) || bool_decide (sentence ∈ type_used) in
  let is_part_of_hnh_original_reason :=
    bool_decide (sentence_lower = lower original_hnh_reason) in
  let is_part_of_type_original_reason :=
    bool_decide (sentence_lower = lower original_type_reason) in
  if is_used_for_new_reason then "**" +:+ sentence +:+ ".** "
  else if is_part_of_hnh_original_reason then
    "<span style=" +:+ dq +:+ "color:blue;" +:+ dq +:+ ">" +:+ sentence
    +:+ ".</span> "
  else if is_part_of_type_original_reason then
    "<span style=" +:+ dq +:+ "color:green;" +:+ dq +:+ ">" +:+ sentence
    +:+ ".</span> "
  else sentence +:+ ". ".

(** The loop of lines 302-323 and the [strip()] of line 325. *)
Definition highlighted_abstract_text (hnh_used type_used : gset string)
    (original_hnh_reason original_type_reason : string)
    (abstract_sentences : list string) : string :=
  Text.strip
    (foldl (λ text sentence,
              text +:+ highlight_sentence hnh_used type_used
                         original_hnh_reason original_type_reason sentence)
       "" abstract_sentences).

End Highlight.

(** The list of the records left in the progress view, line 503. *)
Module ProgressView.

(** [full_df[~full_df['PMID'].astype(str).isin(validated_pmids)]], line 503;
    [None] is the [KeyError] of a dataset without a PMID column. *)
Definition remaining_records (full_df : DataFrame) (validated_pmids : gset string)
  : option DataFrame :=
  without_pmids full_df validated_pmids.

End ProgressView.

(** ** Vocabulary of the further statements *)

Module Laws.
Import Vocabulary.

(** The cursor is on a record of a dataset of [total] records. *)
Definition cursor_ok (total : Z) (s : SessionState) : Prop :=
  ∃ i, current_record_index s = Some i ∧ 0 ≤ i < total.

(** A computation keeps the cursor on a record. *)
Definition keeps_cursor (total : Z) {A} (m : M A) : Prop :=
  ∀ w r w', cursor_ok total (session w) → m w = (r, w') →
            cursor_ok total (session w').

(** When the session satisfies [P] before a computation, it satisfies [Q]
    after it, whether the computation returned or raised. *)
Definition hoare (P : SessionState → Prop) {A} (m : M A)
    (Q : SessionState → Prop) : Prop :=
  ∀ w r w', P (session w) → m w = (r, w') → Q (session w').

Definition preserves (P : SessionState → Prop) {A} (m : M A) : Prop :=
  hoare P m P.

(** What [review_record] does once the current record is read, lines
    291-482: the used sets, the two axes, the save and the jump. *)
Definition record_page (inp : Inputs) (u : string) (full_df : DataFrame)
    (worksheet_name : string) (total_records : Z) (c : Current) : M unit :=
  modify_session init_used_sentences;;
  hnh_new ← render_hnh inp c;
  type_new ← render_type inp c;
  when (bool_decide (clicked inp = SaveAndNext))
    (on_save inp u c hnh_new type_new worksheet_name total_records);;
  navigate full_df.

(** The new value of an axis as the run takes it: the original one of the
    record under Keep Original, the option of the select box otherwise. *)
Definition hnh_new_value (inp : Inputs) (c : Current) : string :=
  match hnh_action_radio inp with
  | KeepOriginal => original_hnh_class c
  | ChangeClassification => hnh_label (hnh_new_class inp)
  end.

Definition type_new_value (inp : Inputs) (c : Current) : string :=
  match type_action_radio inp with
  | KeepOriginal => original_type c
  | ChangeClassification => type_label (type_new_class inp)
  end.

(** The cursor is at [index] and no jump to a PMID is asked for. *)
Definition at_record (index : Z) (s : SessionState) : Prop :=
  current_record_index s = Some index ∧ navigate_to_pmid s = None.

(** No jump is asked for, and the cursor is at [index] or the drafts are
    cleared. *)
Definition at_record_or_cleared (index : Z) (s : SessionState) : Prop :=
  navigate_to_pmid s = None
  ∧ (current_record_index s = Some index ∨ cleared s).

(** An axis without a draft and a used set, and one with the empty draft
    and the empty used set. *)
Definition no_draft (ax : axis) (s : SessionState) : Prop :=
  reason_text ax s = None ∧ used_sentences ax s = None.

Definition empty_draft (ax : axis) (s : SessionState) : Prop :=
  reason_text ax s = Some "" ∧ used_sentences ax s = Some ∅.

(** Every step of a computation is within a relation on worlds. *)
Definition respects (R : World → World → Prop) {A} (m : M A) : Prop :=
  ∀ w r w', m w = (r, w') → R w w'.

(** Between two worlds the worksheet [name] only got rows at its end, or
    was created, and every other worksheet is as it was. *)
Definition only_appends (name : string) (w w' : World) : Prop :=
  (∀ other, other ≠ name → sheets w' !! other = sheets w !! other)
  ∧ (∀ g, sheets w !! name = Some g →
          ∃ rows, sheets w' !! name = Some (g ++ rows)).

(** Adding the sentences of a list, one click after the other. *)
Definition add_all (ax : axis) (sentences : list string) (w : World) : World :=
  foldl (λ w sentence, (add_sentence ax (Some sentence) w).2) w sentences.

(** Two session states differ at most in the draft and the used set of one
    axis. *)
Definition same_but_axis (ax : axis) (s s' : SessionState) : Prop :=
  user s' = user s
  ∧ current_record_index s' = current_record_index s
  ∧ non_human_subcategories s' = non_human_subcategories s
  ∧ navigate_to_pmid s' = navigate_to_pmid s
  ∧ match ax with
    | AxisHNH =>
        type_reason_text s' = type_reason_text s
        ∧ type_used_sentences s' = type_used_sentences s
    | AxisType =>
        hnh_reason_text s' = hnh_reason_text s
        ∧ hnh_used_sentences s' = hnh_used_sentences s
    end.

(** A text in which [old] does not start anywhere: here, a text without the
    first character of [old]. *)
Fixpoint has_char (c : ascii) (s : string) : bool :=
  match s with
  | EmptyString => false
  | String d s' => bool_decide (d = c) || has_char c s'
  end.

(** A link to the PubMed page [id] with the text [text]. *)
Definition pubmed_link (id text : string) : string :=
  "<a href=" +:+ Links.dq
  +:+ ("https://pubmed.ncbi.nlm.nih.gov/" +:+ id +:+ "/")
  +:+ Links.dq +:+ " target=" +:+ Links.dq +:+ "_blank" +:+ Links.dq
  +:+ ">" +:+ text +:+ "</a>".

(** A toy hash for the examples: the salt, a dollar, the password. *)
Definition toy_hashpw (password salt : string) : string :=
  salt +:+ "$" +:+ password.

Definition toy_checkpw (password hashed : string) : bool :=
  bool_decide (hashed = "s1$" +:+ password).

End Laws.

(** * Properties *)

(** ** The sentence splitter *)

Module TextFacts.
Import Text TextSpec.

Lemma terminal_not_space c : is_terminal c = true → isspace c = false.
Proof.
  unfold is_terminal. intros H.
  repeat (apply orb_prop in H as [H|H]);
    apply bool_decide_eq_true in H; subst c; reflexivity.
Qed.

Lemma split_scan_nonempty i p s : split_scan i p s ≠ [].
Proof.
  revert i p. induction s as [|c s IH]; intros i p; simpl; [done|].
  destruct (isspace c), i, p; simpl; try done; try apply IH;
    match goal with |- cons_head _ ?l ≠ _ => destruct l; done end.
Qed.

Lemma cons_head_app c l k : l ≠ [] → cons_head c (l ++ k) = cons_head c l ++ k.
Proof. destruct l; [done|reflexivity]. Qed.

(** A text in which the pattern matches nowhere is one piece. *)
Lemma split_scan_no_boundary s p :
  has_boundary s = false → (p = true → starts_space s = false) →
  split_scan false p s = [s].
Proof.
  revert p. induction s as [|c s IH]; intros p Hb Hp; [reflexivity|].
  assert (Hs : has_boundary s = false ∧
               (is_terminal c = true → starts_space s = false)).
  { simpl in Hb. destruct s as [|d s']; [done|].
    apply orb_false_elim in Hb as [Hcd Hb]. split; [exact Hb|].
    intros Hc. rewrite Hc in Hcd. exact Hcd. }
  destruct Hs as [Hs Hc]. simpl.
  destruct (isspace c) eqn:Ec.
  - destruct p; [specialize (Hp eq_refl); simpl in Hp; congruence|].
    rewrite IH; [reflexivity|exact Hs|done].
  - rewrite IH; [reflexivity|exact Hs|exact Hc].
Qed.

(** Inside a match, leading whitespace is consumed. *)
Lemma split_scan_skip ws b :
  all_space ws = true → starts_space b = false →
  split_scan true false (ws +:+ b) = split_scan false false b.
Proof.
  intros Hws Hb. induction ws as [|w ws IH]; simpl.
  - destruct b as [|c b]; [reflexivity|]. simpl in *. rewrite Hb. reflexivity.
  - simpl in Hws. apply andb_prop in Hws as [Hw Hws]. rewrite Hw. auto.
Qed.

Lemma ends_terminal_cons c s :
  ends_terminal (String c s) = true →
  (s = "" ∧ is_terminal c = true) ∨ (s ≠ "" ∧ ends_terminal s = true).
Proof.
  unfold ends_terminal. simpl. destruct s as [|d s]; [auto|].
  right. split; [done|]. destruct (last_char (String d s)) eqn:E; [done|].
  simpl in E. destruct (last_char s); done.
Qed.

(** A match splits the scan in two independent scans. *)
Lemma split_scan_app a ws b i p :
  ends_terminal a = true → ws ≠ "" → all_space ws = true →
  starts_space b = false →
  split_scan i p (a +:+ ws +:+ b) = split_scan i p a ++ split_scan false false b.
Proof.
  intros Ha Hne Hws Hb. revert i p.
  induction a as [|c a IH]; intros i p; [done|].
  apply ends_terminal_cons in Ha as [[-> Hc]|[Hane Ha]].
  - pose proof (terminal_not_space _ Hc) as Hsp. simpl. rewrite Hsp, Hc.
    destruct ws as [|w ws]; [done|]. simpl in *.
    apply andb_prop in Hws as [Hw Hws]. rewrite Hw.
    rewrite split_scan_skip by done. reflexivity.
  - specialize (IH Ha). simpl.
    destruct (isspace c), i, p; simpl; rewrite ?IH; try reflexivity;
      apply cons_head_app, split_scan_nonempty.
Qed.

(** No piece of the split has a place left where the pattern matches. *)
Lemma split_scan_head_no_space s :
  match split_scan false true s with
  | piece :: _ => starts_space piece = false
  | [] => False
  end.
Proof.
  destruct s as [|c s]; simpl; [done|].
  destruct (isspace c) eqn:E; [done|].
  pose proof (split_scan_nonempty false (is_terminal c) s).
  destruct (split_scan false (is_terminal c) s); [done|]. exact E.
Qed.

Lemma split_scan_pieces s i p piece :
  piece ∈ split_scan i p s → has_boundary piece = false.
Proof.
  revert i p piece. induction s as [|c s IH]; intros i p piece; simpl.
  - intros ->%list_elem_of_singleton. reflexivity.
  - assert (Hcons : ∀ q, (is_terminal c = true → q = true) →
              piece ∈ cons_head c (split_scan false q s) →
              has_boundary piece = false).
    { intros q Hq. pose proof (split_scan_nonempty false q s) as Hn.
      pose proof (split_scan_head_no_space s) as Hh.
      destruct (split_scan false q s) as [|h t] eqn:E; [done|]. simpl.
      intros [->|Hin]%elem_of_cons.
      - assert (Hhb : has_boundary h = false).
        { apply (IH false q). rewrite E. left. }
        simpl. destruct h as [|d h']; [reflexivity|].
        rewrite Hhb, orb_false_r.
        destruct (is_terminal c) eqn:Ec; [|reflexivity].
        rewrite (Hq eq_refl) in E. rewrite E in Hh. simpl in Hh.
        rewrite Hh. reflexivity.
      - apply (IH false q). rewrite E. by right. }
    destruct (isspace c) eqn:Esp.
    + destruct i; [apply IH|]. destruct p.
      * intros [->|Hin]%elem_of_cons; [reflexivity|]. by eapply IH.
      * apply Hcons. intros Hc. apply terminal_not_space in Hc. congruence.
    + apply Hcons. done.
Qed.

(** [strip] gives a text without whitespace at either end. *)
Lemma lstrip_starts s : starts_space (lstrip s) = false.
Proof.
  induction s as [|c s IH]; [reflexivity|]. simpl.
  destruct (isspace c) eqn:E; [exact IH|]. simpl. exact E.
Qed.

Lemma rstrip_ends s : ends_space (rstrip s) = false.
Proof.
  unfold ends_space. induction s as [|c s IH]; [reflexivity|]. simpl.
  destruct (rstrip s) as [|d r] eqn:E.
  - destruct (isspace c) eqn:Ec; simpl; [done|]. exact Ec.
  - simpl in *. destruct (last_char r); exact IH.
Qed.

Lemma rstrip_starts s : starts_space s = false → starts_space (rstrip s) = false.
Proof.
  destruct s as [|c s]; [done|]. simpl. intros E.
  destruct (rstrip s); rewrite ?E; simpl; by rewrite ?E.
Qed.

Lemma strip_trimmed s :
  starts_space (strip s) = false ∧ ends_space (strip s) = false.
Proof.
  unfold strip. split; [apply rstrip_starts, lstrip_starts|apply rstrip_ends].
Qed.

Lemma abstract_sentences_spec a s :
  s ∈ abstract_sentences a ↔
  ∃ piece, piece ∈ re_split_sentences a ∧ strip piece ≠ "" ∧ s = strip piece.
Proof.
  unfold abstract_sentences. rewrite list_elem_of_fmap. split.
  - intros (piece & -> & [Hne Hin]%list_elem_of_filter). eauto.
  - intros (piece & Hin & Hne & ->). exists piece. split; [done|].
    apply list_elem_of_filter. done.
Qed.

End TextFacts.

Module SplitterClaims.
Import Text TextSpec TextFacts.

Lemma has_boundary_tail c s : has_boundary (String c s) = false → has_boundary s = false.
Proof.
  simpl. destruct s as [|d s']; [done|]. intros H.
  by apply orb_false_elim in H as [_ H].
Qed.

Lemma has_boundary_lstrip s : has_boundary s = false → has_boundary (lstrip s) = false.
Proof.
  induction s as [|c s IH]; [done|]. intros H. simpl lstrip.
  destruct (isspace c); [|exact H]. by apply has_boundary_tail, IH in H.
Qed.

Lemma rstrip_head d s :
  rstrip (String d s) = "" ∨ ∃ r, rstrip (String d s) = String d r.
Proof.
  simpl. destruct (rstrip s); [destruct (isspace d)|]; eauto.
Qed.

Lemma has_boundary_rstrip s : has_boundary s = false → has_boundary (rstrip s) = false.
Proof.
  induction s as [|c s IH]; [done|]. intros H.
  pose proof (has_boundary_tail _ _ H) as Ht. specialize (IH Ht).
  destruct s as [|d s']; [simpl; by destruct (isspace c)|].
  change (rstrip (String c (String d s')))
    with (match rstrip (String d s') with
          | EmptyString => if isspace c then "" else String c ""
          | r => String c r
          end).
  destruct (rstrip_head d s') as [E|[r E]]; rewrite E in *.
  - by destruct (isspace c).
  - simpl in H. apply orb_false_elim in H as [H _].
    change (has_boundary (String c (String d r)))
      with ((is_terminal c && isspace d) || has_boundary (String d r)).
    by rewrite H, IH.
Qed.

Lemma has_boundary_strip s : has_boundary s = false → has_boundary (strip s) = false.
Proof. intros H. by apply has_boundary_rstrip, has_boundary_lstrip. Qed.

Lemma lstrip_split s :
  ∃ ws, s = ws +:+ lstrip s ∧ all_space ws = true
        ∧ (String.length (lstrip s) ≤ String.length s)%nat.
Proof.
  induction s as [|c s (ws & E & Hws & Hlen)]; [by exists ""|]. simpl lstrip.
  destruct (isspace c) eqn:Ec.
  - exists (String c ws). split; [|split].
    + change (String c ws +:+ lstrip s) with (String c (ws +:+ lstrip s)).
      by rewrite <- E.
    + simpl. by rewrite Ec.
    + simpl. lia.
  - exists "". repeat split. lia.
Qed.

Lemma ends_terminal_nonempty a : ends_terminal a = true → a ≠ "".
Proof. by destruct a. Qed.

Lemma ends_terminal_push c a :
  a ≠ "" → ends_terminal (String c a) = ends_terminal a.
Proof.
  intros Ha. unfold ends_terminal. simpl.
  destruct (last_char a) eqn:E; [reflexivity|]. by destruct a as [|d a'];
    [|simpl in E; destruct (last_char a')].
Qed.

(** Every text has a cut. *)
Lemma cut_exists s : ∃ ps, cut_at_boundaries s ps.
Proof.
  assert (H : ∀ n s, (String.length s ≤ n)%nat → ∃ ps, cut_at_boundaries s ps);
    [|by apply (H (String.length s))].
  clear s. induction n as [|n IH]; intros s Hn.
  { destruct s; [|simpl in Hn; lia]. exists [""]. by constructor. }
  destruct s as [|c s]; [exists [""]; by constructor|]. simpl in Hn.
  destruct (is_terminal c && starts_space s) eqn:Ecut.
  - apply andb_prop in Ecut as [Hc Hs].
    destruct (lstrip_split s) as (ws & E & Hws & Hlen).
    destruct (IH (lstrip s)) as [ps Hps]; [lia|].
    exists (String c "" :: ps).
    assert (Hne : ws ≠ "").
    { intros ->. change ("" +:+ lstrip s) with (lstrip s) in E.
      rewrite E, lstrip_starts in Hs. done. }
    replace (String c s) with (String c "" +:+ ws +:+ lstrip s)
      by (change (String c (ws +:+ lstrip s) = String c s); by rewrite <- E).
    constructor; try done. apply lstrip_starts.
  - destruct (IH s) as [ps Hps]; [lia|].
    inversion Hps as [a Ha|a ws b ps' Ha Hterm Hne Hws Hb Hrest]; subst.
    + exists [String c s]. constructor.
      destruct s as [|d s']; [reflexivity|].
      change (has_boundary (String c (String d s')))
        with ((is_terminal c && isspace d) || has_boundary (String d s')).
      simpl in Ecut. by rewrite Ecut, Ha.
    + exists (String c a :: ps').
      change (String c (a +:+ ws +:+ b)) with (String c a +:+ ws +:+ b).
      pose proof (ends_terminal_nonempty _ Hterm) as Hane.
      constructor; try done.
      * destruct a as [|d a']; [done|].
        change (has_boundary (String c (String d a')))
          with ((is_terminal c && isspace d) || has_boundary (String d a')).
        simpl in Ecut. by rewrite Ecut, Ha.
      * by rewrite ends_terminal_push.
Qed.

(** The pieces of a cut are what the split returns. *)
Lemma cut_is_split s ps :
  cut_at_boundaries s ps → re_split_sentences s = ps.
Proof.
  induction 1 as [a Ha|a ws b ps Ha Hterm Hne Hws Hb _ IH].
  - by apply split_scan_no_boundary.
  - unfold re_split_sentences in *. rewrite split_scan_app by done.
    rewrite IH. by rewrite (split_scan_no_boundary a false).
Qed.

Lemma abstract_sentences_trimmed a :
  abstract_sentences a = trimmed_fragments (re_split_sentences a).
Proof.
  unfold abstract_sentences, trimmed_fragments.
  induction (re_split_sentences a) as [|p l IH]; [reflexivity|].
  rewrite fmap_cons, !filter_cons.
  destruct (decide (strip p ≠ "")); by rewrite ?fmap_cons, IH.
Qed.

(** C7.  The splitter is a function of the abstract alone.  On the text
    "Cats are mammals. Do fish sleep? Yes they do!" it returns the three
    sentences with their terminal punctuation.  On every abstract each
    fragment it returns is a stripped piece of the split, is not empty, has
    no whitespace at either end and no terminal character followed by
    whitespace inside.  The split itself cuts exactly at the terminal
    characters followed by whitespace: a text without such a place is one
    piece, and a text [a ws b], where [a] ends in a terminal character, [ws]
    is a non-empty run of whitespace and [b] does not start with whitespace,
    splits into the pieces of [a] followed by the pieces of [b].  Every
    abstract has a cut at its terminal characters followed by whitespace,
    and for every such cut the split returns its pieces and the splitter
    returns all of them that are not empty once trimmed, trimmed and in
    their order. *)
Theorem sentence_splitter_spec :
  abstract_sentences "Cats are mammals. Do fish sleep? Yes they do!"
    = ["Cats are mammals."; "Do fish sleep?"; "Yes they do!"]
  ∧ (∀ a s, s ∈ abstract_sentences a →
       s ≠ "" ∧ starts_space s = false ∧ ends_space s = false
       ∧ has_boundary s = false
       ∧ ∃ piece, piece ∈ re_split_sentences a ∧ s = strip piece)
  ∧ (∀ a, has_boundary a = false → re_split_sentences a = [a])
  ∧ (∀ a ws b,
       ends_terminal a = true → ws ≠ "" → all_space ws = true →
       starts_space b = false →
       re_split_sentences (a +:+ ws +:+ b)
       = re_split_sentences a ++ re_split_sentences b)
  ∧ (∀ a, ∃ pieces, cut_at_boundaries a pieces)
  ∧ (∀ a pieces,
       cut_at_boundaries a pieces →
       re_split_sentences a = pieces
       ∧ abstract_sentences a = trimmed_fragments pieces).
Proof.
  split; [vm_compute; reflexivity|]. split; [|split; [|split; [|split]]].
  - intros a s (piece & Hin & Hne & ->)%abstract_sentences_spec.
    destruct (strip_trimmed piece) as [Hl Hr].
    repeat split; try done.
    + eapply has_boundary_strip, split_scan_pieces, Hin.
    + eauto.
  - intros a Ha. by apply split_scan_no_boundary.
  - intros a ws b Ha Hne Hws Hb. by apply split_scan_app.
  - apply cut_exists.
  - intros a pieces Hcut. apply cut_is_split in Hcut as <-.
    split; [reflexivity|apply abstract_sentences_trimmed].
Qed.

Lemma sentence_splitter_spec_witness :
  abstract_sentences "Is it so? It is." = ["Is it so?"; "It is."]
  ∧ ("It is." ≠ "" ∧ starts_space "It is." = false ∧ ends_space "It is." = false
     ∧ has_boundary "It is." = false)
  ∧ re_split_sentences "3.5 mg" = ["3.5 mg"]
  ∧ re_split_sentences ("Is it so?" +:+ "  " +:+ "It is.")
    = re_split_sentences "Is it so?" ++ re_split_sentences "It is."
  ∧ cut_at_boundaries ("Is it so?" +:+ "  " +:+ "It is." +:+ " " +:+ "")
      ["Is it so?"; "It is."; ""]
  ∧ abstract_sentences "Is it so?  It is. " = ["Is it so?"; "It is."].
Proof.
  destruct sentence_splitter_spec as (_ & Hfrag & Hone & Happ & _ & Hcut).
  assert (Hc : cut_at_boundaries
                 ("Is it so?" +:+ "  " +:+ "It is." +:+ " " +:+ "")
                 ["Is it so?"; "It is."; ""]).
  { constructor; try done. constructor; try done. by constructor. }
  split; [vm_compute; reflexivity|]. split; [|split; [|split; [|split]]];
    [| | |exact Hc|exact (proj2 (Hcut _ _ Hc))].
  - destruct (Hfrag "Is it so? It is." "It is.") as (H1 & H2 & H3 & H4 & _).
    + vm_compute. right. left.
    + done.
  - apply Hone. reflexivity.
  - apply Happ; [reflexivity|discriminate|reflexivity|reflexivity].
Defined.

End SplitterClaims.

(** ** Running the computations *)

Ltac run :=
  unfold when, st_info, st_success, st_warning, st_error, st_rerun in *;
  unfold emit, raise, modify_session, get_session, attempt in *;
  unfold mbind, M_bind, mret, M_ret in *;
  simpl in *.

Ltac conjuncts := repeat match goal with |- _ ∧ _ => split end.

(** ** Evidence selection *)

Module SelectionClaims.
Import Vocabulary.

Lemma init_ready ax s :
  let s' := init_reason_text ax (init_used_sentences s) in
  used_sentences ax s' = Some (default ∅ (used_sentences ax s))
  ∧ reason_text ax s' = Some (default "" (reason_text ax s)).
Proof.
  destruct s as [u i hr hu tr tu nh nv].
  destruct ax, hr, hu, tr, tu; done.
Qed.

Lemma add_sentence_known ax sentence used w :
  sentence ≠ "" → used_sentences ax (session w) = Some used →
  sentence ∈ used → add_sentence ax (Some sentence) w = (Ret tt, w).
Proof.
  intros Hne Hu Hin.
  destruct ax; simpl in *; unfold add_hnh_sentence, add_type_sentence; run;
    rewrite Hu, (bool_decide_eq_false_2 _ Hne), (bool_decide_eq_true_2 _ Hin);
    reflexivity.
Qed.

Lemma add_sentence_new ax sentence used text w :
  sentence ≠ "" → used_sentences ax (session w) = Some used →
  reason_text ax (session w) = Some text → sentence ∉ used →
  add_sentence ax (Some sentence) w
  = (Raise RerunException,
     with_session
       (set_reason_text ax
          (Some (if bool_decide (text = "") then sentence
                 else text +:+ newline +:+ sentence))
          (set_used_sentences ax (Some ({[sentence]} ∪ used)) (session w)))
       w).
Proof.
  intros Hne Hu Ht Hin.
  destruct ax; simpl in *; unfold add_hnh_sentence, add_type_sentence; run;
    rewrite Hu, Ht, (bool_decide_eq_false_2 _ Hne),
      (bool_decide_eq_false_2 _ Hin);
    reflexivity.
Qed.

(** C9.  For each axis, every session state (as the run has initialised it
    when it shows the button) and every non-empty sentence, which is what the
    sentences of an abstract are: adding a sentence that is in the used set
    of the axis changes nothing; adding another one puts it in the used set
    and makes the draft reason the sentence when the draft is empty, and the
    draft, a newline and the sentence otherwise, then asks for a rerun.
    Adding the same sentence a second time leaves the state of the first
    addition. *)
Theorem add_sentence_spec (ax : axis) (w0 : World) (sentence : string) :
  sentence ≠ "" →
  let s := init_reason_text ax (init_used_sentences (session w0)) in
  let w := with_session s w0 in
  let used := default ∅ (used_sentences ax (session w0)) in
  let text := default "" (reason_text ax (session w0)) in
  used_sentences ax s = Some used ∧ reason_text ax s = Some text
  ∧ (sentence ∈ used → add_sentence ax (Some sentence) w = (Ret tt, w))
  ∧ (sentence ∉ used →
       add_sentence ax (Some sentence) w
       = (Raise RerunException,
          with_session
            (set_reason_text ax
               (Some (if bool_decide (text = "") then sentence
                      else text +:+ newline +:+ sentence))
               (set_used_sentences ax (Some ({[sentence]} ∪ used)) s))
            w))
  ∧ (add_sentence ax (Some sentence) (add_sentence ax (Some sentence) w).2).2
    = (add_sentence ax (Some sentence) w).2.
Proof.
  intros Hne s w used text.
  destruct (init_ready ax (session w0)) as [Hu Ht].
  fold s in Hu, Ht. fold used in Hu. fold text in Ht.
  split; [exact Hu|]. split; [exact Ht|].
  split; [|split].
  - intros Hin. by apply (add_sentence_known ax sentence used w).
  - intros Hin. by apply (add_sentence_new ax sentence used text w).
  - destruct (decide (sentence ∈ used)) as [Hin|Hin].
    + rewrite (add_sentence_known ax sentence used w) by done. simpl.
      by rewrite (add_sentence_known ax sentence used w).
    + rewrite (add_sentence_new ax sentence used text w) by done. simpl.
      erewrite add_sentence_known; [done|done| |].
      * destruct ax; reflexivity.
      * set_solver.
Qed.

Lemma add_sentence_spec_witness :
  let s0 := {| user := Some "ann"; current_record_index := Some 0;
               hnh_reason_text := Some "Cats are mammals.";
               hnh_used_sentences := Some {["Cats are mammals."]};
               type_reason_text := None; type_used_sentences := Some ∅;
               non_human_subcategories := None; navigate_to_pmid := None |} in
  let w := {| session := s0; sheets := ∅; ui := [] |} in
  "Do fish sleep?" ≠ ""
  ∧ hnh_reason_text (session (add_hnh_sentence (Some "Do fish sleep?") w).2)
    = Some ("Cats are mammals." +:+ newline +:+ "Do fish sleep?")
  ∧ add_hnh_sentence (Some "Cats are mammals.") w = (Ret tt, w).
Proof.
  intros s0 w. split; [discriminate|].
  destruct (add_sentence_spec AxisHNH w "Do fish sleep?") as (_ & _ & _ & Hnew & _);
    [discriminate|].
  destruct (add_sentence_spec AxisHNH w "Cats are mammals.") as (_ & _ & Hold & _);
    [discriminate|].
  split.
  - change (add_hnh_sentence (Some "Do fish sleep?") w)
      with (add_sentence AxisHNH (Some "Do fish sleep?")
              (with_session
                 (init_reason_text AxisHNH (init_used_sentences (session w))) w)).
    rewrite Hnew; [reflexivity|]. simpl.
    intros H%elem_of_singleton. discriminate H.
  - apply Hold. simpl. apply elem_of_singleton. reflexivity.
Defined.

(** Every sentence offered for selection is non-empty. *)
Lemma selectable_sentence_nonempty a sentence :
  sentence ∈ Text.abstract_sentences a → sentence ≠ "".
Proof.
  intros (piece & _ & Hne & ->)%TextFacts.abstract_sentences_spec. exact Hne.
Qed.

End SelectionClaims.

(** ** The classification workflow and the judgment row *)

Module WorkflowClaims.
Import Vocabulary.

Lemma render_hnh_keep inp c w :
  hnh_action_radio inp = KeepOriginal →
  render_hnh inp c w
  = (Ret (original_hnh_class c),
     with_session
       (set_hnh_used_sentences None (set_hnh_reason_text None (session w))) w).
Proof. intros H. unfold render_hnh. rewrite H. reflexivity. Qed.

Lemma render_type_keep inp c w :
  type_action_radio inp = KeepOriginal →
  render_type inp c w
  = (Ret (original_type c),
     with_session
       (set_type_used_sentences None (set_type_reason_text None (session w))) w).
Proof. intros H. unfold render_type. rewrite H. reflexivity. Qed.

Lemma dict_get_app key d d' :
  dict_get key (d ++ d')
  = match dict_get key d with Some v => Some v | None => dict_get key d' end.
Proof.
  induction d as [|[k v] d IH]; [reflexivity|]. simpl.
  by destruct (bool_decide (k = key)).
Qed.

Lemma response_subcategories u ts c ha ta hnh_new type_new s :
  dict_get "non_human_subcategories"
    (build_response u ts c ha ta hnh_new type_new s)
  = match non_human_subcategories s with
    | Some subcategories =>
        if bool_decide (hnh_new = "Non-Human")
        then Some (String.concat ", " subcategories) else None
    | None => None
    end.
Proof.
  unfold build_response. rewrite dict_get_app. simpl.
  destruct (non_human_subcategories s); [|reflexivity].
  by destruct (bool_decide (hnh_new = "Non-Human")).
Qed.

Lemma render_type_subcategories inp c w r w' :
  render_type inp c w = (r, w') →
  non_human_subcategories (session w') = non_human_subcategories (session w).
Proof.
  unfold render_type, add_type_sentence. run.
  destruct w as [[u i hr hu [tr|] [tu|] nh nv] sh o]; simpl;
    intros H; repeat case_match; simplify_eq; reflexivity.
Qed.

(** C5, as the code has it.  The row built by a save has the field
    [non_human_subcategories] exactly when the new value of the first axis is
    "Non-Human" and the session holds a selection under that key; the field
    is then the selection joined by ", ".  For every other new value the
    field is absent, whatever selection the session still holds.  After the
    reviewer chose Change Classification with Non-Human, the session holds a
    selection (the empty one at least), so the field is there. *)
Theorem subcategories_field (u ts : string) (c : Current) (ha ta : action)
    (hnh_new type_new : string) (s : SessionState) :
  let field := dict_get "non_human_subcategories" in
  (is_Some (field (build_response u ts c ha ta hnh_new type_new s))
   ↔ hnh_new = "Non-Human" ∧ is_Some (non_human_subcategories s))
  ∧ (∀ subcategories,
       hnh_new = "Non-Human" → non_human_subcategories s = Some subcategories →
       field (build_response u ts c ha ta hnh_new type_new s)
       = Some (String.concat ", " subcategories))
  ∧ (hnh_new ≠ "Non-Human" →
     field (build_response u ts c ha ta hnh_new type_new s) = None)
  ∧ (∀ inp w h w1 t w2,
       hnh_action_radio inp = ChangeClassification →
       hnh_new_class inp = NonHuman →
       render_hnh inp c w = (Ret h, w1) → render_type inp c w1 = (Ret t, w2) →
       h = "Non-Human"
       ∧ is_Some (field (build_response u ts c (hnh_action_radio inp)
                           (type_action_radio inp) h t (session w2)))).
Proof.
  intros field. unfold field. rewrite response_subcategories.
  split; [|split; [|split]].
  - destruct (non_human_subcategories s) as [subs|].
    + destruct (bool_decide_reflect (hnh_new = "Non-Human")).
      * split; eauto.
      * split; [by intros [? [=]]|]. intros [? _]. done.
    + split; [by intros [? [=]]|]. by intros [_ [? [=]]].
  - intros subs Hn ->. by rewrite bool_decide_eq_true_2.
  - intros Hn. destruct (non_human_subcategories s); [|done].
    by rewrite bool_decide_eq_false_2.
  - intros inp w h w1 t w2 Hact Hcls Hr Ht.
    rewrite response_subcategories.
    rewrite (render_type_subcategories _ _ _ _ _ Ht).
    assert (h = "Non-Human" ∧ is_Some (non_human_subcategories (session w1)))
      as [-> [subs ->]]; [|split; [done|]; by eauto].
    unfold render_hnh in Hr. rewrite Hact, Hcls in Hr.
    unfold add_hnh_sentence in Hr. run.
    destruct w as [[u0 i [hr|] hu tr tu [nh|] nv] sh o]; simpl in *;
      repeat case_match; simplify_eq; simpl; eauto.
Qed.

End WorkflowClaims.

(** ** The writer, path by path *)

Module WriterFacts.
Import Vocabulary.

Lemma say_nil w : say [] w = w.
Proof. destruct w. unfold say. simpl. by rewrite app_nil_r. Qed.

Lemma say_say o o' w : say o' (say o w) = say (o ++ o') w.
Proof. unfold say. simpl. by rewrite app_assoc. Qed.

(** The worksheet is not there: it is created and written. *)
Lemma writer_absent f df name w :
  sheets w !! name = None →
  add_new_worksheet_and_write f df name w
  = if add_sheet_fails f then
      (Ret tt, say [could_not_read name HttpError; creation_error HttpError] w)
    else if update_fails f then
      (Raise HttpError,
       with_sheet name [] (say [could_not_read name HttpError; created name] w))
    else
      (Ret tt,
       with_sheet name (columns df :: values df)
         (say [could_not_read name HttpError; created name; wrote_all name] w)).
Proof.
  intros Hno.
  unfold add_new_worksheet_and_write, create_and_write, Sheets.values_get,
    Sheets.add_sheet, Sheets.values_update.
  run. rewrite Hno. destruct f as [rf af sf uf]; simpl.
  destruct rf, sf, uf; simpl; rewrite ?Hno; simpl; rewrite ?lookup_insert_eq;
    unfold say, with_sheet; simpl; rewrite <- ?app_assoc; simpl;
    rewrite ?insert_insert_eq; try reflexivity.
  all: destruct (values df); reflexivity.
Qed.

(** The worksheet is there but was not read, or has no [PMID] in its first
    row: the creation is refused and nothing is written. *)
Lemma writer_unrecognised f df name w g :
  sheets w !! name = Some g →
  read_fails f = true ∨ pmid_column g = None →
  add_new_worksheet_and_write f df name w
  = (Ret tt,
     say ((if read_fails f then [could_not_read name HttpError] else [])
          ++ [creation_error HttpError]) w).
Proof.
  intros Hg Hcase.
  unfold add_new_worksheet_and_write, create_and_write, Sheets.values_get,
    Sheets.add_sheet.
  run. destruct (read_fails f) eqn:Hrf; simpl.
  - rewrite Hg. destruct (add_sheet_fails f); simpl; unfold say; simpl;
      by rewrite <- app_assoc.
  - destruct Hcase as [|Hcol]; [done|]. rewrite Hg. simpl.
    unfold pmid_column, view in Hcol. simpl in Hcol.
    destruct (take 26 <$> g) as [|header body]; simpl.
    + rewrite Hg. by destruct (add_sheet_fails f).
    + rewrite Hcol. simpl. rewrite Hg. by destruct (add_sheet_fails f).
Qed.

(** The worksheet was read and has [PMID] in its first row: the rows of
    the batch with a new PMID are appended. *)
Lemma writer_recognised f df name w g idx :
  sheets w !! name = Some g → read_fails f = false →
  pmid_column g = Some idx →
  add_new_worksheet_and_write f df name w
  = match without_pmids df (list_to_set (ledger_pmids g)) with
    | None => (Ret tt, say [could_not_read name (KeyError "PMID")] w)
    | Some new_rows =>
        if Frame.empty new_rows then (Ret tt, say [nothing_to_add name] w)
        else if append_fails f then
          (Ret tt, say [could_not_read name HttpError] w)
        else
          (Ret tt,
           with_sheet name (g ++ values new_rows)
             (say [appended (length (values new_rows)) name] w))
    end.
Proof.
  intros Hg Hrf Hcol.
  unfold ledger_pmids. rewrite Hcol.
  unfold add_new_worksheet_and_write, append_new_rows, Sheets.values_get,
    Sheets.values_append.
  run. rewrite Hrf. rewrite !Hg. simpl.
  unfold pmid_column, view in Hcol. simpl in Hcol. unfold view. simpl.
  destruct (take 26 <$> g) as [|header body]; [done|]. simpl.
  rewrite Hcol. simpl. unfold pmid_set.
  destruct (without_pmids df (list_to_set (cells_at idx body))) as [new_rows|];
    simpl; [|reflexivity].
  destruct (Frame.empty new_rows); simpl; [reflexivity|].
  destruct (append_fails f); [reflexivity|]. simpl. by rewrite Hg.
Qed.

(** The writer leaves the session state alone, and it raises only when the
    write of header and rows fails after the sheet was created. *)
Lemma writer_session f df name w :
  session (add_new_worksheet_and_write f df name w).2 = session w.
Proof.
  destruct (sheets w !! name) as [g|] eqn:Hg.
  - destruct (read_fails f) eqn:Hrf.
    + rewrite (writer_unrecognised f df name w g); auto.
    + destruct (pmid_column g) as [idx|] eqn:Hcol.
      * rewrite (writer_recognised f df name w g idx) by done.
        repeat case_match; reflexivity.
      * rewrite (writer_unrecognised f df name w g); auto.
  - rewrite writer_absent by done. repeat case_match; reflexivity.
Qed.

Lemma writer_outcome f df name w :
  let r := (add_new_worksheet_and_write f df name w).1 in
  (r = Raise HttpError ∧ sheets w !! name = None
   ∧ add_sheet_fails f = false ∧ update_fails f = true)
  ∨ (r = Ret tt
     ∧ ¬ (sheets w !! name = None ∧ add_sheet_fails f = false
          ∧ update_fails f = true)).
Proof.
  destruct (sheets w !! name) as [g|] eqn:Hg.
  - right. split; [|by intros [[=] _]].
    destruct (read_fails f) eqn:Hrf.
    + rewrite (writer_unrecognised f df name w g); auto.
    + destruct (pmid_column g) as [idx|] eqn:Hcol.
      * rewrite (writer_recognised f df name w g idx) by done.
        repeat case_match; reflexivity.
      * rewrite (writer_unrecognised f df name w g); auto.
  - rewrite writer_absent by done.
    destruct (add_sheet_fails f), (update_fails f); simpl;
      [right|right|left|right]; repeat split; try done;
      by intros (_ & ? & ?).
Qed.

End WriterFacts.

(** ** Navigation and the save handler *)

Module NavigationClaims.
Import Vocabulary WriterFacts Examples.

Lemma clear_record_state_cleared s : cleared (clear_record_state s).
Proof. repeat split. Qed.

(** Previous and Next, when they act, move the cursor by one and clear the
    drafts. *)
Lemma nav_previous_clears inp w index :
  clicked inp = Previous → current_record_index (session w) = Some index →
  index ≠ 0 →
  nav_previous inp w
  = (Raise RerunException,
     with_session
       (clear_record_state
          (set_current_record_index (Some (index - 1)) (session w))) w).
Proof.
  intros Hc Hi Hne. unfold nav_previous, the_index. run.
  rewrite Hi, Hc. simpl.
  destruct (Z.eqb_spec index 0); [done|]. reflexivity.
Qed.

Lemma nav_next_clears inp w index total_records :
  clicked inp = Next → current_record_index (session w) = Some index →
  index < total_records - 1 →
  nav_next inp total_records w
  = (Raise RerunException,
     with_session
       (clear_record_state
          (set_current_record_index (Some (index + 1)) (session w))) w).
Proof.
  intros Hc Hi Hlt. unfold nav_next, the_index. run.
  rewrite Hi, Hc. simpl.
  destruct (Z.leb_spec (total_records - 1) index); [lia|]. reflexivity.
Qed.

(** The jump to a PMID touches the cursor and its own key only. *)
Lemma navigate_keeps_drafts full_df w r w' :
  navigate full_df w = (r, w') →
  hnh_reason_text (session w') = hnh_reason_text (session w)
  ∧ hnh_used_sentences (session w') = hnh_used_sentences (session w)
  ∧ type_reason_text (session w') = type_reason_text (session w)
  ∧ type_used_sentences (session w') = type_used_sentences (session w)
  ∧ non_human_subcategories (session w') = non_human_subcategories (session w).
Proof.
  unfold navigate. run. intros H.
  repeat case_match; simplify_eq; done.
Qed.

(** The save handler in terms of the writer. *)
Lemma on_save_eq inp u c hnh_new type_new name total_records w :
  let df := from_record
              (build_response u (now inp) c (hnh_action_radio inp)
                 (type_action_radio inp) hnh_new type_new (session w)) in
  let written := add_new_worksheet_and_write (save_faults inp) df name w in
  on_save inp u c hnh_new type_new name total_records w
  = match written.1 with
    | Raise e => (Raise e, written.2)
    | Ret _ =>
        match current_record_index (session w) with
        | None => (Raise (AttributeError "current_record_index"), written.2)
        | Some index =>
            (Raise RerunException,
             with_session
               (clear_record_state
                  (set_current_record_index
                     (Some (advance total_records index)) (session w)))
               (say (if total_records <=? index + 1
                     then [Notice info "You have reached the end of the records."]
                     else []) written.2))
        end
    end.
Proof.
  intros df written.
  pose proof (writer_session (save_faults inp) df name w) as Hs.
  fold written in Hs. unfold on_save, the_index. run. fold df. fold written.
  destruct written as [[[]|e] w1]; simpl in *; [|reflexivity].
  rewrite Hs. destruct (current_record_index (session w)) as [index|];
    [|reflexivity].
  simpl. unfold advance.
  destruct (total_records <=? index + 1); simpl.
  - unfold with_session, say. simpl. rewrite Hs. reflexivity.
  - unfold with_session, say. simpl. rewrite Hs, app_nil_r. reflexivity.
Qed.

(** C3, as the code has it.  The writer never touches the session state.
    Whenever it returns, be it after an append, after finding nothing to
    add, or after reporting a failed read, a failed append or a refused
    creation, the handler advances the cursor (capped at the last record),
    clears the drafts, the used sets and the subcategory selection, and
    asks for a rerun.  The session state is left as it was only when the
    writer raises, which it does exactly when the worksheet did not exist,
    its creation succeeded and the write of header and rows failed. *)
Theorem save_clears_unless_raised (inp : Inputs) (u : string) (c : Current)
    (hnh_new type_new name : string) (total_records index : Z) (w : World) :
  current_record_index (session w) = Some index →
  let df := from_record
              (build_response u (now inp) c (hnh_action_radio inp)
                 (type_action_radio inp) hnh_new type_new (session w)) in
  let written := add_new_worksheet_and_write (save_faults inp) df name w in
  let saved := on_save inp u c hnh_new type_new name total_records w in
  session written.2 = session w
  ∧ ((written.1 = Ret tt
      ∧ ¬ (sheets w !! name = None ∧ add_sheet_fails (save_faults inp) = false
           ∧ update_fails (save_faults inp) = true)
      ∧ saved.1 = Raise RerunException
      ∧ sheets saved.2 = sheets written.2
      ∧ session saved.2
        = clear_record_state
            (set_current_record_index (Some (advance total_records index))
               (session w))
      ∧ cleared (session saved.2))
     ∨ (written.1 = Raise HttpError
        ∧ sheets w !! name = None ∧ add_sheet_fails (save_faults inp) = false
        ∧ update_fails (save_faults inp) = true
        ∧ saved = (Raise HttpError, written.2)
        ∧ session saved.2 = session w)).
Proof.
  intros Hi df written saved.
  pose proof (writer_session (save_faults inp) df name w) as Hs.
  pose proof (writer_outcome (save_faults inp) df name w) as Ho.
  fold written in Hs, Ho. simpl in Ho.
  split; [exact Hs|].
  unfold saved. rewrite on_save_eq. fold df. fold written. rewrite Hi.
  destruct Ho as [(Hr & Hno & Ha & Hu)|(Hr & Hnot)]; rewrite Hr; simpl.
  - right. done.
  - left. repeat split; done.
Qed.

Lemma save_clears_unless_raised_witness :
  let f := {| read_fails := false; append_fails := true;
              add_sheet_fails := false; update_fails := false |} in
  let inp := inputs SaveAndNext ChangeClassification ChangeClassification f in
  let w := world drafting_session (Some [ledger_header; judgment_102]) in
  current_record_index (session w) = Some 0
  ∧ cleared (session (on_save inp "ann" record_101 "Non-Human" "Used"
                        "Validation_ann" 2 w).2).
Proof.
  intros f inp w. split; [reflexivity|].
  destruct (save_clears_unless_raised inp "ann" record_101 "Non-Human" "Used"
              "Validation_ann" 2 0 w eq_refl) as [_ [H|H]].
  - apply H.
  - destruct H as (_ & Hno & _). vm_compute in Hno. discriminate Hno.
Defined.

(** C3 as stated fails: a save whose append fails is reported as a warning
    and writes nothing, and still the cursor moves from the first to the
    second record and the drafts are gone. *)
Lemma failed_save_clears_drafts :
  let f := {| read_fails := false; append_fails := true;
              add_sheet_fails := false; update_fails := false |} in
  let w := world drafting_session (Some [ledger_header; judgment_102]) in
  let out :=
    main (inputs SaveAndNext ChangeClassification ChangeClassification f) w in
  could_not_read "Validation_ann" HttpError ∈ ui out.2
  ∧ sheets out.2 = sheets w
  ∧ hnh_reason_text (session w) = Some "Soil was sampled."
  ∧ current_record_index (session w) = Some 0
  ∧ current_record_index (session out.2) = Some 1
  ∧ cleared (session out.2).
Proof.
  intros f w out. unfold cleared. conjuncts; try (vm_compute; reflexivity).
  vm_compute. do 3 right. left.
Qed.

End NavigationClaims.

(** ** The subcategories field, concretely *)

Module SubcategoryClaims.
Import Vocabulary WorkflowClaims Examples.

Lemma subcategories_field_witness :
  "Human" ≠ "Non-Human"
  ∧ dict_get "non_human_subcategories"
      (build_response "ann" "2024-05-01 10:00:00" record_101
         ChangeClassification KeepOriginal "Human" "Original" drafting_session)
    = None
  ∧ dict_get "non_human_subcategories"
      (build_response "ann" "2024-05-01 10:00:00" record_101
         ChangeClassification KeepOriginal "Non-Human" "Original"
         drafting_session)
    = Some "Microbial".
Proof.
  split; [discriminate|].
  destruct (subcategories_field "ann" "2024-05-01 10:00:00" record_101
              ChangeClassification KeepOriginal "Human" "Original"
              drafting_session) as (_ & _ & Hother & _).
  destruct (subcategories_field "ann" "2024-05-01 10:00:00" record_101
              ChangeClassification KeepOriginal "Non-Human" "Original"
              drafting_session) as (_ & Hnon & _).
  split.
  - apply Hother. discriminate.
  - apply (Hnon ["Microbial"]); reflexivity.
Defined.

(** C5 as stated fails: record 101 is Non-Human in the dataset; a reviewer
    who has nothing drafted keeps both originals and saves.  The new value of
    the first axis is "Non-Human", and the row written to the new ledger has
    the fifteen columns without [non_human_subcategories]. *)
Lemma kept_non_human_has_no_subcategories :
  let w := world fresh_session None in
  let out := main (inputs SaveAndNext KeepOriginal KeepOriginal no_faults) w in
  let response :=
    build_response "ann" "2024-05-01 10:00:00" record_101 KeepOriginal
      KeepOriginal (original_hnh_class record_101)
      (original_type record_101) fresh_session in
  sheets out.2 !! "Validation_ann" = Some [response.*1; response.*2]
  ∧ response.*1 = ledger_header
  ∧ dict_get "hnh_new_classification" response = Some "Non-Human"
  ∧ ¬ (is_Some (dict_get "non_human_subcategories" response)
       ↔ original_hnh_class record_101 = "Non-Human").
Proof.
  intros w out response. conjuncts; try (vm_compute; reflexivity).
  intros [_ H]. destruct (H eq_refl) as [x Hx]. discriminate Hx.
Qed.

End SubcategoryClaims.

(** ** The page only grows *)

Module PageFacts.
Import Vocabulary.

Lemma grows_ret {A} (a : A) : grows (mret a).
Proof. intros w r w' [= <- <-]. exists []. by rewrite app_nil_r. Qed.

Lemma grows_raise {A} e : grows (@raise A e).
Proof. intros w r w' [= <- <-]. exists []. by rewrite app_nil_r. Qed.

Lemma grows_bind {A B} (m : M A) (k : A → M B) :
  grows m → (∀ a, grows (k a)) → grows (m ≫= k).
Proof.
  intros Hm Hk w r w'. unfold mbind, M_bind.
  destruct (m w) as [[a|e] w1] eqn:E.
  - intros Hk'. destruct (Hm _ _ _ E) as [t1 H1].
    destruct (Hk a _ _ _ Hk') as [t2 H2].
    exists (t1 ++ t2). by rewrite H2, H1, app_assoc.
  - intros [= <- <-]. by apply (Hm _ _ _ E).
Qed.

Lemma grows_attempt {A} (m : M A) : grows m → grows (attempt m).
Proof.
  intros Hm w r w'. unfold attempt.
  destruct (m w) as [[a|e] w1] eqn:E; [|destruct (is_Exception e)];
    intros [= <- <-]; by apply (Hm _ _ _ E).
Qed.

Lemma grows_emit o : grows (emit o).
Proof. intros w r w' [= <- <-]. by exists [o]. Qed.

Lemma grows_modify_session f : grows (modify_session f).
Proof. intros w r w' [= <- <-]. exists []. simpl. by rewrite app_nil_r. Qed.

Lemma grows_get_session : grows get_session.
Proof. intros w r w' [= <- <-]. exists []. by rewrite app_nil_r. Qed.

Lemma grows_when b m : grows m → grows (when b m).
Proof. destruct b; [done|]. intros _. apply grows_ret. Qed.

Lemma grows_values_get fails title width :
  grows (Sheets.values_get fails title width).
Proof.
  intros w r w'. unfold Sheets.values_get.
  repeat case_match; intros [= <- <-]; exists []; by rewrite app_nil_r.
Qed.

Lemma grows_values_append fails title new :
  grows (Sheets.values_append fails title new).
Proof.
  intros w r w'. unfold Sheets.values_append.
  repeat case_match; intros [= <- <-]; exists []; simpl; by rewrite app_nil_r.
Qed.

Lemma grows_add_sheet fails title n k : grows (Sheets.add_sheet fails title n k).
Proof.
  intros w r w'. unfold Sheets.add_sheet.
  repeat case_match; intros [= <- <-]; exists []; simpl; by rewrite app_nil_r.
Qed.

Lemma grows_values_update fails title new :
  grows (Sheets.values_update fails title new).
Proof.
  intros w r w'. unfold Sheets.values_update.
  repeat case_match; intros [= <- <-]; exists []; simpl; by rewrite app_nil_r.
Qed.

Ltac grows_step :=
  lazymatch goal with
  | |- grows (mbind _ _) => apply grows_bind; [|intros ?]
  | |- grows (mret _) => apply grows_ret
  | |- grows (raise _) => apply grows_raise
  | |- grows st_rerun => apply grows_raise
  | |- grows (attempt _) => apply grows_attempt
  | |- grows (when _ _) => apply grows_when
  | |- grows (emit _) => apply grows_emit
  | |- grows (st_info _) => apply grows_emit
  | |- grows (st_success _) => apply grows_emit
  | |- grows (st_warning _) => apply grows_emit
  | |- grows (st_error _) => apply grows_emit
  | |- grows (modify_session _) => apply grows_modify_session
  | |- grows get_session => apply grows_get_session
  | |- grows (Sheets.values_get _ _ _) => apply grows_values_get
  | |- grows (Sheets.values_append _ _ _) => apply grows_values_append
  | |- grows (Sheets.add_sheet _ _ _ _) => apply grows_add_sheet
  | |- grows (Sheets.values_update _ _ _) => apply grows_values_update
  | |- grows (match ?x with _ => _ end) => destruct x
  | |- grows (let _ := _ in _) => cbv zeta
  end.

Lemma grows_writer f df name : grows (add_new_worksheet_and_write f df name).
Proof.
  unfold add_new_worksheet_and_write, create_and_write, append_new_rows.
  repeat grows_step.
Qed.

Lemma grows_on_save inp u c hnh_new type_new name total_records :
  grows (on_save inp u c hnh_new type_new name total_records).
Proof.
  unfold on_save, the_index.
  repeat first [apply grows_writer | grows_step].
Qed.

(** Whatever the rest of the run does, what is on the page stays. *)
Lemma grows_review_record inp u full_df name total_records :
  grows (review_record inp u full_df name total_records).
Proof.
  unfold review_record, nav_previous, nav_next, the_index, render_hnh,
    render_type, add_hnh_sentence, add_type_sentence, navigate.
  repeat first [apply grows_on_save | grows_step].
Qed.

End PageFacts.

(** ** Progress counts and the read of the judged PMIDs *)

Module ProgressClaims.
Import Vocabulary Examples.

Lemma get_validated_pmids_eq fails name w :
  get_validated_pmids fails name w
  = match (if fails then None else sheets w !! name) with
    | Some g => (Ret (list_to_set (ledger_pmids g)), w)
    | None =>
        (Ret ∅,
         say [Notice warning ("Could not read worksheet " +:+ name +:+ ": "
                              +:+ exn_text HttpError)] w)
    end.
Proof.
  unfold get_validated_pmids, Sheets.values_get. run.
  destruct fails; simpl; [reflexivity|].
  destruct (sheets w !! name) as [g|]; simpl; [|reflexivity].
  unfold ledger_pmids, pmid_column, view. simpl.
  destruct (take 26 <$> g) as [|header body]; simpl; [reflexivity|].
  destruct (index_of "PMID" header); reflexivity.
Qed.

(** C10.  The read of the judged PMIDs returns on every worksheet name,
    every state of the spreadsheet and every failure of the call; it never
    raises and changes neither the spreadsheet nor the session.  When the
    read fails or the worksheet does not exist it returns the empty set
    after a warning; on a worksheet without rows or without [PMID] in its
    first row it returns the empty set; otherwise the set of the PMID cells.
    The counts are then computed from whatever set it returned: every run
    of [main] with a reviewer logged in and a dataset loaded, its rows as
    long as its header, puts the three tiles, total, completed and their
    difference, on the page. *)
Theorem get_validated_pmids_total (fails : bool) (name : string) (w : World) :
  ∃ pmids notices,
    get_validated_pmids fails name w = (Ret pmids, say notices w)
    ∧ (fails = true ∨ sheets w !! name = None →
       pmids = ∅ ∧ ∃ msg, notices = [Notice warning msg])
    ∧ (fails = false → sheets w !! name = Some [] → pmids = ∅)
    ∧ (∀ g, fails = false → sheets w !! name = Some g →
            pmid_column g = None → pmids = ∅)
    ∧ (∀ g, fails = false → sheets w !! name = Some g →
            pmids = list_to_set (ledger_pmids g) ∧ notices = [])
    ∧ (∀ full_df,
         progress_counts full_df pmids
         = (Z.of_nat (len full_df), Z.of_nat (size pmids),
            Z.of_nat (len full_df) - Z.of_nat (size pmids)))
    ∧ (∀ inp u data,
         user (session w) = Some u → load_fails inp = false →
         sheets w !! SHEET_NAME = Some data → rectangular data →
         Frame.empty (from_values data) = false →
         ∃ before total completed after,
           ui (main inp w).2
           = ui w ++ before
             ++ [Metric "Total Records" total; Metric "Completed" completed;
                 Metric "Remaining" (total - completed)]
             ++ after).
Proof.
  assert (Hmain : ∀ inp u data,
    user (session w) = Some u → load_fails inp = false →
    sheets w !! SHEET_NAME = Some data → rectangular data →
    Frame.empty (from_values data) = false →
    ∃ before total completed after,
      ui (main inp w).2
      = ui w ++ before
        ++ [Metric "Total Records" total; Metric "Completed" completed;
            Metric "Remaining" (total - completed)]
        ++ after).
  { intros inp u data Hu Hload Hdata _ Hne.
    unfold main, load_data, show_counts, progress_counts, Sheets.values_get.
    unfold mbind, M_bind, get_session, mret, M_ret, emit. simpl.
    rewrite Hu, Hload, Hdata. simpl. rewrite Hne.
    rewrite get_validated_pmids_eq.
    set (total := Z.of_nat (len (from_values data))).
    destruct (if progress_fails inp then None
              else sheets w !! ("Validation_" +:+ u)) as [g|]; simpl;
      match goal with
      | |- context [review_record ?i ?v ?d ?n ?t ?w0] =>
          destruct (review_record i v d n t w0) as [r w'] eqn:E
      end;
      apply PageFacts.grows_review_record in E as [tail E];
      simpl in *; rewrite E; rewrite <- !app_assoc; simpl.
    - by exists [], total, (Z.of_nat (size (list_to_set (ledger_pmids g)
                                            : gset string))), tail.
    - eexists [_], total, (Z.of_nat (size (∅ : gset string))), tail.
      reflexivity. }
  rewrite get_validated_pmids_eq.
  destruct fails; simpl.
  - eexists _, _. split; [reflexivity|].
    repeat split; try done. eauto.
  - destruct (sheets w !! name) as [g|] eqn:Hg.
    + exists (list_to_set (ledger_pmids g)), [].
      rewrite WriterFacts.say_nil. split; [reflexivity|].
      split; [by intros [|]|]. split; [by intros _ [= ->]|].
      split; [|split; [|done]].
      * intros g' _ [= <-] Hcol. unfold ledger_pmids. by rewrite Hcol.
      * intros g' _ [= <-]. done.
    + eexists _, _. split; [reflexivity|].
      repeat split; try done. eauto.
Qed.

Lemma get_validated_pmids_total_witness :
  let w := world fresh_session (Some [["reviewer"; "note"]; ["ann"; "later"]]) in
  (get_validated_pmids false "Validation_ann" w).1 = Ret ∅
  ∧ (get_validated_pmids true "Validation_ann" w).1 = Ret ∅
  ∧ (get_validated_pmids false "Validation_bob" w).1 = Ret ∅
  ∧ rectangular dataset
  ∧ ∃ before total completed after,
      ui (main (inputs NoClick KeepOriginal KeepOriginal no_faults) w).2
      = ui w ++ before
        ++ [Metric "Total Records" total; Metric "Completed" completed;
            Metric "Remaining" (total - completed)]
        ++ after.
Proof.
  intros w.
  assert (Hrect : rectangular dataset) by repeat constructor.
  destruct (get_validated_pmids_total false "Validation_ann" w)
    as (p1 & n1 & E1 & _ & _ & H1 & _ & _ & Hmain).
  specialize (Hmain (inputs NoClick KeepOriginal KeepOriginal no_faults)
                "ann" dataset eq_refl eq_refl eq_refl Hrect eq_refl).
  destruct (get_validated_pmids_total true "Validation_ann" w)
    as (p2 & n2 & E2 & H2 & _).
  destruct (get_validated_pmids_total false "Validation_bob" w)
    as (p3 & n3 & E3 & H3 & _).
  rewrite E1, E2, E3. simpl.
  rewrite (H1 [["reviewer"; "note"]; ["ann"; "later"]]);
    [|reflexivity|reflexivity|reflexivity].
  destruct H2 as [-> _]; [left; reflexivity|].
  destruct H3 as [-> _]; [right; reflexivity|].
  repeat split; [exact Hrect|exact Hmain].
Defined.

(** C6, as the code has it.  The total is the number of rows of the
    dataset, the completed count is the number of distinct PMIDs read from
    the ledger, whether they are PMIDs of the dataset or not, and the
    remaining count is the difference.  When every PMID of the ledger is a
    PMID of the dataset, the completed count is the size of the
    intersection.  With a total of 10 and 3 completed, 7 remain; with none
    completed, all remain. *)
Theorem progress_counts_spec (full_df : DataFrame) (validated_pmids : gset string) :
  ∃ total completed remaining,
    progress_counts full_df validated_pmids = (total, completed, remaining)
    ∧ total = Z.of_nat (len full_df)
    ∧ completed = Z.of_nat (size validated_pmids)
    ∧ remaining = total - completed
    ∧ (validated_pmids ⊆ dataset_pmids full_df →
       completed = Z.of_nat (size (validated_pmids ∩ dataset_pmids full_df)))
    ∧ (total = 10 → completed = 3 → remaining = 7)
    ∧ (completed = 0 → remaining = total).
Proof.
  eexists _, _, _. split; [reflexivity|].
  repeat split; try lia.
  intros Hsub. by rewrite (subseteq_intersection_1_L _ _ Hsub).
Qed.

Lemma progress_counts_spec_witness :
  let full_df := from_values dataset in
  let validated : gset string := {["102"]} in
  validated ⊆ dataset_pmids full_df
  ∧ progress_counts full_df validated = (2, 1, 1)
  ∧ size (validated ∩ dataset_pmids full_df) = 1%nat.
Proof.
  intros full_df validated.
  assert (Hsub : validated ⊆ dataset_pmids full_df).
  { intros x ->%elem_of_singleton. vm_compute. reflexivity. }
  destruct (progress_counts_spec full_df validated)
    as (t & c & r & E & Ht & Hc & Hr & Hcap & _).
  split; [exact Hsub|]. split; [reflexivity|].
  specialize (Hcap Hsub). rewrite Hc in Hcap.
  apply Nat2Z.inj in Hcap. rewrite <- Hcap. reflexivity.
Defined.

(** C6 as stated fails: the ledger holds the judgments of record 102 and of
    a record 555 that is not in the dataset of two records.  The page shows
    2 completed and 0 remaining, where the ledger and the dataset share one
    PMID. *)
Lemma completed_counts_foreign_pmids :
  let ledger := [ledger_header; judgment_row "102"; judgment_row "555"] in
  let w := world fresh_session (Some ledger) in
  let out := main (inputs NoClick KeepOriginal KeepOriginal no_faults) w in
  ui out.2 = [Metric "Total Records" 2; Metric "Completed" 2;
              Metric "Remaining" 0]
  ∧ ledger_pmids ledger = ["102"; "555"]
  ∧ size (list_to_set (ledger_pmids ledger)
          ∩ dataset_pmids (from_values dataset)) = 1%nat.
Proof. intros ledger w out. conjuncts; vm_compute; reflexivity. Qed.

End ProgressClaims.

(** ** The ledger under saves *)

Module LedgerFacts.
Import Vocabulary WriterFacts.

Lemma index_of_cons x y l :
  index_of x (y :: l)
  = if decide (y = x) then Some 0%nat else S <$> index_of x l.
Proof.
  unfold index_of. simpl. case_decide; [done|].
  by destruct (list_find (λ z, z = x) l) as [[i z]|].
Qed.

Lemma index_of_take n x l i :
  index_of x (take n l) = Some i → index_of x l = Some i.
Proof.
  revert n i. induction l as [|y l IH]; intros [|n] i; simpl; try done.
  rewrite !index_of_cons. case_decide; [done|].
  destruct (index_of x (take n l)) as [k|] eqn:E; [|done].
  by rewrite (IH n k E).
Qed.

Lemma cells_at_app idx (a b : grid) :
  cells_at idx (a ++ b) = cells_at idx a ++ cells_at idx b.
Proof. apply omap_app. Qed.

(** A PMID read through the first 26 columns is the PMID of its row. *)
Lemma cells_at_view idx (rows : grid) v :
  v ∈ cells_at idx (take 26 <$> rows) → ∃ row, row ∈ rows ∧ cell row idx = v.
Proof.
  unfold cells_at. rewrite list_elem_of_omap.
  intros (r & (row & -> & Hin)%list_elem_of_fmap & Hv).
  exists row. split; [done|].
  apply lookup_take_Some in Hv as [Hv _]. unfold cell. by rewrite Hv.
Qed.

Lemma cells_at_view_NoDup idx (rows : grid) :
  NoDup ((λ row, cell row idx) <$> rows) →
  NoDup (cells_at idx (take 26 <$> rows)).
Proof.
  induction rows as [|row rows IH]; simpl; [constructor|].
  intros [Hnin Hnd]%NoDup_cons. specialize (IH Hnd).
  unfold cells_at in *. simpl.
  destruct (take 26 row !! idx) as [v|] eqn:Hv; [|exact IH].
  apply NoDup_cons. split; [|exact IH].
  intros (row' & Hin & Hc)%cells_at_view. apply Hnin.
  apply lookup_take_Some in Hv as [Hv _].
  apply list_elem_of_fmap. exists row'. split; [|done].
  unfold cell at 1. rewrite Hv. simpl. by rewrite Hc.
Qed.

Lemma fmap_filter_NoDup {A B} (f : A → B) (P : A → Prop)
    `{∀ a, Decision (P a)} (l : list A) :
  NoDup (f <$> l) → NoDup (f <$> filter P l).
Proof.
  induction l as [|a l IH]; [done|]. simpl.
  intros [Hnin Hnd]%NoDup_cons. rewrite filter_cons.
  case_decide; [|by apply IH]. simpl. apply NoDup_cons. split; [|by apply IH].
  intros (a' & Ha & [_ Hin]%list_elem_of_filter)%list_elem_of_fmap.
  apply Hnin. apply list_elem_of_fmap. eauto.
Qed.

Lemma filter_none {A} (P : A → Prop) `{∀ a, Decision (P a)} (l : list A) :
  (∀ a, a ∈ l → ¬ P a) → filter P l = [].
Proof.
  induction l as [|a l IH]; [done|]. intros Hl. rewrite filter_cons.
  rewrite decide_False by (apply Hl; left).
  apply IH. intros a' Ha'. apply Hl. by right.
Qed.

(** The ledger grows at the end and keeps its identity column. *)
Lemma view_app (g rows : grid) : view (g ++ rows) = view g ++ (take 26 <$> rows).
Proof. unfold view. simpl. apply fmap_app. Qed.

Lemma pmid_column_app g rows idx :
  pmid_column g = Some idx → pmid_column (g ++ rows) = Some idx.
Proof.
  unfold pmid_column. rewrite view_app. by destruct (view g).
Qed.

Lemma ledger_pmids_app g rows idx :
  pmid_column g = Some idx →
  ledger_pmids (g ++ rows)
  = ledger_pmids g ++ cells_at idx (take 26 <$> rows).
Proof.
  intros Hcol. unfold ledger_pmids.
  rewrite (pmid_column_app g rows idx Hcol), Hcol, view_app.
  unfold pmid_column in Hcol. destruct (view g) as [|header body]; [done|].
  simpl. apply cells_at_app.
Qed.

Lemma new_rows_for_spec df g row :
  row ∈ new_rows_for df g →
  row ∈ values df
  ∧ ∀ j, index_of "PMID" (columns df) = Some j → cell row j ∉ ledger_pmids g.
Proof.
  unfold new_rows_for. destruct (pmid_column g); [|by intros ?%elem_of_nil].
  destruct (index_of "PMID" (columns df)) as [j|]; [|by intros ?%elem_of_nil].
  intros [Hnew Hin]%list_elem_of_filter. split; [done|].
  intros j' [= <-]. by rewrite elem_of_list_to_set in Hnew.
Qed.

Lemma new_rows_for_all_known df g :
  (∀ y, y ∈ pending_pmids df → y ∈ ledger_pmids g) → new_rows_for df g = [].
Proof.
  intros Hall. unfold new_rows_for. destruct (pmid_column g); [|done].
  unfold pending_pmids in Hall.
  destruct (index_of "PMID" (columns df)) as [j|]; [|done].
  apply filter_none. intros row Hin Hnew. apply Hnew.
  apply elem_of_list_to_set, Hall, list_elem_of_fmap. eauto.
Qed.

(** The effect of the writer on the worksheet of the reviewer. *)
Lemma writer_ledger f df name w :
  sheets (add_new_worksheet_and_write f df name w).2 !! name
  = ledger_after f df (sheets w !! name).
Proof.
  destruct (sheets w !! name) as [g|] eqn:Hg; simpl.
  - destruct (read_fails f) eqn:Hrf; simpl.
    { rewrite (writer_unrecognised f df name w g); auto. }
    destruct (pmid_column g) as [idx|] eqn:Hcol.
    + rewrite (writer_recognised f df name w g idx) by done.
      unfold new_rows_for, without_pmids. rewrite Hcol.
      destruct (index_of "PMID" (columns df)) as [j|] eqn:Hj; simpl.
      * unfold Frame.empty. simpl.
        assert (columns df ≠ []) as Hne by (by destruct (columns df)).
        rewrite (bool_decide_eq_false_2 _ Hne). simpl.
        case_bool_decide as He; simpl.
        { rewrite He, app_nil_r. by destruct (append_fails f). }
        destruct (append_fails f); simpl; [done|]. apply lookup_insert_eq.
      * rewrite app_nil_r. by destruct (append_fails f).
    + rewrite (writer_unrecognised f df name w g) by auto. simpl.
      unfold new_rows_for. rewrite Hcol, app_nil_r.
      by destruct (append_fails f).
  - rewrite writer_absent by done.
    destruct (add_sheet_fails f), (update_fails f); simpl; try done;
      apply lookup_insert_eq.
Qed.

Lemma writer_other_sheets f df name w other :
  other ≠ name →
  sheets (add_new_worksheet_and_write f df name w).2 !! other
  = sheets w !! other.
Proof.
  intros Hne.
  destruct (sheets w !! name) as [g|] eqn:Hg.
  - destruct (read_fails f) eqn:Hrf.
    { rewrite (writer_unrecognised f df name w g); auto. }
    destruct (pmid_column g) as [idx|] eqn:Hcol.
    + rewrite (writer_recognised f df name w g idx) by done.
      repeat case_match; simpl; try done; by apply lookup_insert_ne.
    + rewrite (writer_unrecognised f df name w g); auto.
  - rewrite writer_absent by done.
    repeat case_match; simpl; try done; by apply lookup_insert_ne.
Qed.

(** One save keeps the invariants of the ledger. *)
Lemma ledger_after_agrees f df o g' :
  (∀ g, o = Some g → schema_agrees df g) →
  ledger_after f df o = Some g' → schema_agrees df g'.
Proof.
  intros Hag. destruct o as [g|]; simpl.
  - specialize (Hag g eq_refl).
    destruct (read_fails f || append_fails f); intros [= <-]; [done|].
    intros idx Hcol. apply Hag.
    destruct (pmid_column g) as [i|] eqn:Hg.
    + rewrite (pmid_column_app g _ i Hg) in Hcol. done.
    + unfold new_rows_for in Hcol. rewrite Hg, app_nil_r in Hcol. congruence.
  - destruct (add_sheet_fails f); [done|].
    destruct (update_fails f); intros [= <-]; [by intros idx [=]|].
    intros idx Hcol. unfold pmid_column, view in Hcol. simpl in Hcol.
    by apply index_of_take in Hcol.
Qed.

Lemma ledger_after_NoDup f df o g' :
  (∀ g, o = Some g → schema_agrees df g) →
  NoDup (pending_pmids df) →
  (∀ g, o = Some g → NoDup (ledger_pmids g)) →
  ledger_after f df o = Some g' → NoDup (ledger_pmids g').
Proof.
  intros Hag Hpend Hnd. destruct o as [g|]; simpl.
  - specialize (Hag g eq_refl). specialize (Hnd g eq_refl).
    destruct (read_fails f || append_fails f); intros [= <-]; [done|].
    destruct (pmid_column g) as [idx|] eqn:Hcol.
    + rewrite (ledger_pmids_app g _ idx Hcol).
      pose proof (Hag idx Hcol) as Hj.
      apply NoDup_app. split; [done|]. split.
      * intros v Hv (row & Hrow & <-)%cells_at_view.
        by apply new_rows_for_spec in Hrow as [_ Hrow]; eapply Hrow.
      * apply cells_at_view_NoDup. unfold new_rows_for. rewrite Hcol, Hj.
        apply fmap_filter_NoDup. unfold pending_pmids in Hpend.
        by rewrite Hj in Hpend.
    + unfold new_rows_for. by rewrite Hcol, app_nil_r.
  - destruct (add_sheet_fails f); [done|].
    destruct (update_fails f); intros [= <-]; [constructor|].
    unfold ledger_pmids, pmid_column, view. simpl.
    destruct (index_of "PMID" (take 26 (columns df))) as [idx|] eqn:Hcol;
      [|constructor].
    apply index_of_take in Hcol. apply cells_at_view_NoDup.
    unfold pending_pmids in Hpend. by rewrite Hcol in Hpend.
Qed.

Lemma ledger_after_count f df g x :
  schema_agrees df g → x ∈ ledger_pmids g →
  ∃ g', ledger_after f df (Some g) = Some g'
        ∧ count_pmid x g' = count_pmid x g ∧ x ∈ ledger_pmids g'.
Proof.
  intros Hag Hx. simpl.
  destruct (read_fails f || append_fails f); [by exists g|].
  eexists. split; [reflexivity|].
  destruct (pmid_column g) as [idx|] eqn:Hcol.
  - unfold count_pmid. rewrite (ledger_pmids_app g _ idx Hcol).
    split; [|apply elem_of_app; by left].
    rewrite filter_app, length_app.
    rewrite (filter_none _ (cells_at idx _)); [simpl; lia|].
    intros v (row & Hrow & <-)%cells_at_view Heq.
    apply new_rows_for_spec in Hrow as [_ Hrow].
    apply (Hrow idx (Hag idx Hcol)). by rewrite Heq.
  - unfold new_rows_for. by rewrite Hcol, app_nil_r.
Qed.

(** The retries, by induction on their number. *)
Lemma retry_saves_invariants fs df name w :
  ledger_agrees df name w →
  ledger_agrees df name (retry_saves fs df name w)
  ∧ (NoDup (pending_pmids df) → at_most_one name w →
     at_most_one name (retry_saves fs df name w))
  ∧ (∀ g x, sheets w !! name = Some g → x ∈ ledger_pmids g →
       ∃ g', sheets (retry_saves fs df name w) !! name = Some g'
             ∧ count_pmid x g' = count_pmid x g ∧ x ∈ ledger_pmids g').
Proof.
  revert w. induction fs as [|f fs IH]; intros w Hag; simpl.
  - split; [done|]. split; [done|]. intros g x Hg Hx. by exists g.
  - set (w1 := (add_new_worksheet_and_write f df name w).2).
    assert (Hw1 : sheets w1 !! name = ledger_after f df (sheets w !! name))
      by apply writer_ledger.
    assert (Hag1 : ledger_agrees df name w1).
    { intros g1 Hg1. rewrite Hw1 in Hg1.
      eapply ledger_after_agrees; [|exact Hg1]. intros g Hg. by apply Hag. }
    destruct (IH w1 Hag1) as (IHa & IHn & IHc).
    split; [exact IHa|]. split.
    + intros Hpend Hone. apply IHn; [done|].
      intros g1 Hg1. rewrite Hw1 in Hg1.
      eapply ledger_after_NoDup; [|exact Hpend| |exact Hg1].
      * intros g Hg. by apply Hag.
      * intros g Hg. by apply Hone.
    + intros g x Hg Hx.
      destruct (ledger_after_count f df g x (Hag g Hg) Hx)
        as (g1 & Hg1 & Hc1 & Hx1).
      rewrite Hg in Hw1. rewrite Hg1 in Hw1.
      destruct (IHc g1 x Hw1 Hx1) as (g' & Hg' & Hc' & Hx').
      exists g'. split; [done|]. split; [congruence|done].
Qed.

(** Saves whose batches have their PMIDs in column [k], on a ledger that
    has them there too. *)
Lemma run_saves_invariants saves k name w :
  Forall (λ fd, index_of "PMID" (columns fd.2) = Some k
                ∧ NoDup (pending_pmids fd.2)) saves →
  (∀ g idx, sheets w !! name = Some g → pmid_column g = Some idx → idx = k) →
  at_most_one name w →
  at_most_one name (run_saves saves name w).
Proof.
  revert w. induction saves as [|[f df] saves IH]; intros w Hall Hk Hone;
    simpl; [done|].
  apply Forall_cons in Hall as [[Hj Hpend] Hall]. simpl in Hj, Hpend.
  set (w1 := (add_new_worksheet_and_write f df name w).2).
  assert (Hw1 : sheets w1 !! name = ledger_after f df (sheets w !! name))
    by apply writer_ledger.
  assert (Hag : ∀ g, sheets w !! name = Some g → schema_agrees df g).
  { intros g Hg idx Hcol. by rewrite (Hk g idx Hg Hcol). }
  apply IH; [done| |].
  - intros g1 idx Hg1 Hcol. rewrite Hw1 in Hg1.
    pose proof (ledger_after_agrees f df _ g1 Hag Hg1 idx Hcol) as Hidx.
    congruence.
  - intros g1 Hg1. rewrite Hw1 in Hg1.
    eapply ledger_after_NoDup; [exact Hag|exact Hpend| |exact Hg1].
    intros g Hg. by apply Hone.
Qed.

(** The batch of a save: the one judgment, its PMID in the third column. *)
Lemma response_batch u ts c ha ta hnh_new type_new s :
  let df := from_record (build_response u ts c ha ta hnh_new type_new s) in
  index_of "PMID" (columns df) = Some 2%nat ∧ pending_pmids df = [PMID c].
Proof.
  unfold pending_pmids, build_response, from_record. simpl.
  split; reflexivity.
Qed.

End LedgerFacts.

Module LedgerClaims.
Import Vocabulary WriterFacts LedgerFacts Examples.

(** C1.  For every worksheet state, every batch and every pattern of
    failures: when the ledger has a row with the PMID of a pending judgment,
    a save appends no row with that PMID (the ledger after the save is the
    ledger before followed by rows of the batch whose PMID is another one);
    when the read succeeds and every pending PMID is in the ledger, the save
    changes nothing, returns and reports "No new responses to add", which is
    an info notice.  Under any number of retried saves of the batch, each
    with its own failures, on a ledger that keeps its PMIDs in the column
    where the batch has them: the number of rows of a PMID that the ledger
    has stays what it was, and a ledger with at most one row per PMID stays
    so when the PMIDs of the batch are pairwise distinct.  The batch of a
    save is one judgment with its PMID in the third column, so it is such a
    batch; and a ledger that did not exist and is built by saves only, each
    with its own judgment and its own failures, has at most one row per
    PMID after any number of them. *)
Theorem idempotent_append (df : DataFrame) (name : string) (w : World) :
  (∀ f g x,
     sheets w !! name = Some g → x ∈ ledger_pmids g → x ∈ pending_pmids df →
     ∃ rows,
       sheets (add_new_worksheet_and_write f df name w).2 !! name
       = Some (g ++ rows)
       ∧ ∀ row, row ∈ rows →
           row ∈ values df
           ∧ ∀ j, index_of "PMID" (columns df) = Some j → cell row j ≠ x)
  ∧ (∀ f g,
       sheets w !! name = Some g → read_fails f = false →
       pending_pmids df ≠ [] →
       (∀ y, y ∈ pending_pmids df → y ∈ ledger_pmids g) →
       add_new_worksheet_and_write f df name w
       = (Ret tt, say [nothing_to_add name] w))
  ∧ (ledger_agrees df name w →
     ∀ fs,
       (∀ g x, sheets w !! name = Some g → x ∈ ledger_pmids g →
          ∃ g', sheets (retry_saves fs df name w) !! name = Some g'
                ∧ count_pmid x g' = count_pmid x g)
       ∧ (NoDup (pending_pmids df) → at_most_one name w →
          at_most_one name (retry_saves fs df name w)))
  ∧ (∀ u ts c ha ta hnh_new type_new s,
       let batch := from_record (build_response u ts c ha ta hnh_new type_new s) in
       index_of "PMID" (columns batch) = Some 2%nat
       ∧ pending_pmids batch = [PMID c] ∧ NoDup (pending_pmids batch))
  ∧ (∀ saves,
       sheets w !! name = None → Forall (λ fd, is_judgment fd.2) saves →
       at_most_one name (run_saves saves name w)).
Proof.
  split; [|split; [|split; [|split]]].
  - intros f g x Hg Hx _. rewrite writer_ledger, Hg. simpl.
    destruct (read_fails f || append_fails f).
    + exists []. rewrite app_nil_r. split; [done|]. by intros row ?%elem_of_nil.
    + exists (new_rows_for df g). split; [done|].
      intros row [Hin Hnew]%new_rows_for_spec. split; [done|].
      intros j Hj Heq. apply (Hnew j Hj). by rewrite Heq.
  - intros f g Hg Hrf Hne Hall.
    destruct (pending_pmids df) as [|y ys] eqn:Hp; [done|].
    assert (Hy : y ∈ ledger_pmids g) by (apply Hall; left).
    destruct (pmid_column g) as [idx|] eqn:Hcol;
      [|unfold ledger_pmids in Hy; rewrite Hcol in Hy; by apply elem_of_nil in Hy].
    rewrite (writer_recognised f df name w g idx) by done.
    pose proof (new_rows_for_all_known df g) as Hnone.
    rewrite Hp in Hnone. specialize (Hnone Hall).
    unfold new_rows_for in Hnone. rewrite Hcol in Hnone.
    unfold without_pmids. unfold pending_pmids in Hp.
    destruct (index_of "PMID" (columns df)) as [j|]; [|done]. simpl.
    rewrite Hnone. unfold Frame.empty. simpl.
    by rewrite orb_true_r.
  - intros Hag fs.
    destruct (retry_saves_invariants fs df name w Hag) as (_ & Hone & Hcount).
    split; [|exact Hone].
    intros g x Hg Hx. destruct (Hcount g x Hg Hx) as (g' & Hg' & Hc & _).
    by exists g'.
  - intros u ts c ha ta hnh_new type_new s batch.
    destruct (response_batch u ts c ha ta hnh_new type_new s) as [Hi Hp].
    fold batch in Hi, Hp. rewrite Hp.
    split; [done|]. split; [done|]. apply NoDup_singleton.
  - intros saves Hno Hall.
    apply (run_saves_invariants saves 2%nat).
    + eapply Forall_impl; [exact Hall|].
      intros [f batch] (u & ts & c & ha & ta & h & t & s & ->). simpl.
      destruct (response_batch u ts c ha ta h t s) as [Hi Hp].
      split; [exact Hi|]. rewrite Hp. apply NoDup_singleton.
    + intros g idx Hg. congruence.
    + intros g Hg. congruence.
Qed.

Lemma idempotent_append_witness :
  let df := from_record
              (build_response "ann" "2024-05-01 10:00:00" record_102
                 KeepOriginal KeepOriginal "Human" "Used" fresh_session) in
  let w := world fresh_session (Some [ledger_header; judgment_102]) in
  let flaky := {| read_fails := true; append_fails := false;
                  add_sheet_fails := false; update_fails := false |} in
  sheets w !! "Validation_ann" = Some [ledger_header; judgment_102]
  ∧ add_new_worksheet_and_write no_faults df "Validation_ann" w
    = (Ret tt, say [nothing_to_add "Validation_ann"] w)
  ∧ at_most_one "Validation_ann"
      (retry_saves [no_faults; flaky; no_faults] df "Validation_ann" w).
Proof.
  intros df w flaky.
  destruct (idempotent_append df "Validation_ann" w)
    as (_ & Hnoop & Hretry & _ & _).
  split; [reflexivity|]. split.
  - apply (Hnoop no_faults [ledger_header; judgment_102]);
      [reflexivity|reflexivity|discriminate|].
    intros y Hy. vm_compute in Hy. vm_compute. exact Hy.
  - apply Hretry.
    + intros g Hg. vm_compute in Hg. injection Hg as <-.
      intros idx Hcol. vm_compute in Hcol. injection Hcol as <-. reflexivity.
    + vm_compute. apply NoDup_singleton.
    + intros g Hg. vm_compute in Hg. injection Hg as <-.
      vm_compute. apply NoDup_singleton.
Defined.

(** C8, as the code has it.  On a worksheet that exists and has no [PMID]
    in its first row (or no rows), the read of the judged PMIDs gives the
    empty set, but a save appends nothing: the writer takes the creation
    path, the creation is refused because the title is taken, the writer
    reports "Sheet creation error" as an error notice and returns, and the
    spreadsheet is as it was. *)
Theorem unrecognised_ledger_refused (f : Faults) (df : DataFrame)
    (name : string) (w : World) (g : grid) :
  sheets w !! name = Some g → pmid_column g = None →
  let out := add_new_worksheet_and_write f df name w in
  (get_validated_pmids false name w).1 = Ret ∅
  ∧ out = (Ret tt,
           say ((if read_fails f then [could_not_read name HttpError] else [])
                ++ [creation_error HttpError]) w)
  ∧ sheets out.2 = sheets w
  ∧ creation_error HttpError ∈ ui out.2.
Proof.
  intros Hg Hcol out. unfold out.
  rewrite (writer_unrecognised f df name w g) by auto.
  split; [|split; [done|split; [done|]]].
  - rewrite ProgressClaims.get_validated_pmids_eq, Hg. simpl.
    unfold ledger_pmids. by rewrite Hcol.
  - simpl. rewrite !elem_of_app. right. right. by apply list_elem_of_singleton.
Qed.

Lemma unrecognised_ledger_refused_witness :
  let df := from_record
              (build_response "ann" "2024-05-01 10:00:00" record_101
                 KeepOriginal KeepOriginal "Non-Human" "Original"
                 fresh_session) in
  let w := world fresh_session (Some notes_sheet) in
  sheets w !! "Validation_ann" = Some notes_sheet
  ∧ pmid_column notes_sheet = None
  ∧ sheets (add_new_worksheet_and_write no_faults df "Validation_ann" w).2
    = sheets w.
Proof.
  intros df w. split; [reflexivity|]. split; [reflexivity|].
  apply (unrecognised_ledger_refused no_faults df "Validation_ann" w notes_sheet);
    reflexivity.
Defined.

(** C8 as stated fails: the reviewer's worksheet exists with the header
    [reviewer, note]; the save of a judgment for record 101 ends with the
    error notice and the worksheet as it was, without the judgment. *)
Lemma malformed_ledger_save_fails :
  let w := world drafting_session (Some notes_sheet) in
  let out :=
    main (inputs SaveAndNext ChangeClassification ChangeClassification
            no_faults) w in
  pmid_column notes_sheet = None
  ∧ ui out.2 = [Metric "Total Records" 2; Metric "Completed" 0;
                Metric "Remaining" 2; creation_error HttpError]
  ∧ sheets out.2 !! "Validation_ann" = Some notes_sheet
  ∧ sheets out.2 = sheets w.
Proof. intros w out. conjuncts; vm_compute; reflexivity. Qed.

End LedgerClaims.

(** * Further properties of the program *)

(** ** The cursor stays on a record *)

Module CursorLaws.
Import Vocabulary Laws WriterFacts NavigationClaims.

Lemma keeps_ret total {A} (a : A) : keeps_cursor total (mret a).
Proof. by intros w r w' H [= <- <-]. Qed.

Lemma keeps_raise total {A} e : keeps_cursor total (@raise A e).
Proof. by intros w r w' H [= <- <-]. Qed.

Lemma keeps_bind total {A B} (m : M A) (k : A → M B) :
  keeps_cursor total m → (∀ a, keeps_cursor total (k a)) →
  keeps_cursor total (m ≫= k).
Proof.
  intros Hm Hk w r w' Hw. unfold mbind, M_bind.
  destruct (m w) as [[a|e] w1] eqn:E.
  - intros Hk'. eapply Hk; [|exact Hk']. by eapply Hm.
  - intros [= <- <-]. by eapply Hm.
Qed.

(** What [the_index] returns is the cursor, so it is on a record. *)
Lemma keeps_index_bind total {B} (k : Z → M B) :
  (∀ i, 0 ≤ i < total → keeps_cursor total (k i)) →
  keeps_cursor total (the_index ≫= k).
Proof.
  intros Hk w r w' Hw. unfold the_index. run.
  destruct Hw as (i & Hi & Hr). rewrite Hi. intros Hk'.
  eapply (Hk i Hr); [|exact Hk']. by exists i.
Qed.

Lemma keeps_when total b m :
  (b = true → keeps_cursor total m) → keeps_cursor total (when b m).
Proof. destruct b; [auto|]. intros _. apply keeps_ret. Qed.

Lemma keeps_emit total o : keeps_cursor total (emit o).
Proof. by intros w r w' H [= <- <-]. Qed.

Lemma keeps_get_session total : keeps_cursor total get_session.
Proof. by intros w r w' H [= <- <-]. Qed.

Lemma keeps_modify_set total j :
  0 ≤ j < total →
  keeps_cursor total (modify_session (set_current_record_index (Some j))).
Proof. intros Hj w r w' _ [= <- <-]. by exists j. Qed.

Lemma keeps_modify_same total f :
  (∀ s, current_record_index (f s) = current_record_index s) →
  keeps_cursor total (modify_session f).
Proof.
  intros Hf w r w' (i & Hi & Hr) [= <- <-]. exists i. simpl.
  by rewrite Hf.
Qed.

Ltac same_index :=
  let s := fresh "s" in
  intros s; destruct s as [? ? [?|] [?|] [?|] [?|] [?|] ?]; reflexivity.

Ltac keeps_step :=
  lazymatch goal with
  | |- keeps_cursor _ (mbind _ _) => apply keeps_bind; [|intros ?]
  | |- keeps_cursor _ (mret _) => apply keeps_ret
  | |- keeps_cursor _ (raise _) => apply keeps_raise
  | |- keeps_cursor _ st_rerun => apply keeps_raise
  | |- keeps_cursor _ (when _ _) => apply keeps_when; intros ?
  | |- keeps_cursor _ (emit _) => apply keeps_emit
  | |- keeps_cursor _ (st_info _) => apply keeps_emit
  | |- keeps_cursor _ (st_warning _) => apply keeps_emit
  | |- keeps_cursor _ (st_error _) => apply keeps_emit
  | |- keeps_cursor _ get_session => apply keeps_get_session
  | |- keeps_cursor _ (modify_session _) =>
      apply keeps_modify_same; same_index
  | |- keeps_cursor _ (match ?x with _ => _ end) => destruct x
  | |- keeps_cursor _ (let _ := _ in _) => cbv zeta
  end.

Lemma keeps_nav_previous total inp : keeps_cursor total (nav_previous inp).
Proof.
  unfold nav_previous. apply keeps_index_bind. intros i Hi.
  apply keeps_when. intros [_ Hz%negb_true_iff]%andb_prop.
  apply Z.eqb_neq in Hz.
  apply keeps_bind; [apply keeps_modify_set; lia|intros ?].
  repeat keeps_step.
Qed.

Lemma keeps_nav_next total inp : keeps_cursor total (nav_next inp total).
Proof.
  unfold nav_next. apply keeps_index_bind. intros i Hi.
  apply keeps_when. intros [_ Hz%negb_true_iff]%andb_prop.
  apply Z.leb_gt in Hz.
  apply keeps_bind; [apply keeps_modify_set; lia|intros ?].
  repeat keeps_step.
Qed.

Lemma keeps_render_hnh total inp c : keeps_cursor total (render_hnh inp c).
Proof. unfold render_hnh, add_hnh_sentence. repeat keeps_step. Qed.

Lemma keeps_render_type total inp c : keeps_cursor total (render_type inp c).
Proof. unfold render_type, add_type_sentence. repeat keeps_step. Qed.

Lemma advance_in_range total index :
  0 ≤ index < total → 0 ≤ advance total index < total.
Proof.
  intros H. unfold advance.
  destruct (Z.leb_spec total (index + 1)); [|lia].
  destruct (Z.ltb_spec 0 total); lia.
Qed.

Lemma keeps_on_save total inp u c hnh_new type_new name :
  keeps_cursor total (on_save inp u c hnh_new type_new name total).
Proof.
  intros w r w' (i & Hi & Hr). rewrite on_save_eq.
  pose proof (writer_session (save_faults inp)
    (from_record (build_response u (now inp) c (hnh_action_radio inp)
       (type_action_radio inp) hnh_new type_new (session w))) name w) as Hs.
  destruct (add_new_worksheet_and_write _ _ _ w) as [[[]|e] w1]; simpl in *.
  - rewrite Hi. intros [= <- <-]. exists (advance total i). simpl.
    split; [reflexivity|]. by apply advance_in_range.
  - intros [= <- <-]. rewrite Hs. by exists i.
Qed.

(** The jump lands on a row of the dataset. *)
Lemma keeps_navigate full_df :
  keeps_cursor (Z.of_nat (len full_df)) (navigate full_df).
Proof.
  unfold navigate. apply keeps_bind; [apply keeps_get_session|intros s].
  destruct (navigate_to_pmid s) as [target|]; [|apply keeps_ret].
  destruct (index_of "PMID" (columns full_df)) as [j|]; [|apply keeps_raise].
  destruct (list_find _ (values full_df)) as [[i row]|] eqn:E.
  - apply list_find_Some in E as (Hrow & _).
    apply lookup_lt_Some in Hrow.
    apply keeps_bind; [|intros ?; repeat keeps_step].
    apply keeps_modify_set. unfold len. lia.
  - repeat keeps_step.
Qed.

Lemma clamp_index_ok total s : 0 < total → cursor_ok total (clamp_index total s).
Proof.
  intros Ht. unfold clamp_index. eexists. split; [reflexivity|].
  destruct (current_record_index s) as [i|]; simpl;
    repeat match goal with
           | |- context [?a <=? ?b] => destruct (Z.leb_spec a b)
           | |- context [?a <? ?b] => destruct (Z.ltb_spec a b)
           end; lia.
Qed.

Lemma review_record_cursor inp u full_df name w :
  0 < Z.of_nat (len full_df) →
  cursor_ok (Z.of_nat (len full_df))
    (session (review_record inp u full_df name (Z.of_nat (len full_df)) w).2).
Proof.
  intros Hlen. set (total := Z.of_nat (len full_df)).
  unfold review_record.
  change (modify_session (clamp_index total);; ?k)
    with (mbind (λ _ : unit, k) (modify_session (clamp_index total))).
  unfold mbind at 1, M_bind at 1. simpl.
  match goal with
  | |- cursor_ok _ (session (?m ?w0).2) =>
      destruct (m w0) as [r w'] eqn:E;
      assert (Hk : keeps_cursor total m)
  end.
  { apply keeps_bind; [apply keeps_nav_previous|intros ?].
    apply keeps_bind; [apply keeps_nav_next|intros ?].
    apply keeps_index_bind. intros i Hi.
    destruct (current_record full_df i); [|apply keeps_raise].
    apply keeps_bind; [keeps_step|intros ?].
    apply keeps_bind; [apply keeps_render_hnh|intros ?].
    apply keeps_bind; [apply keeps_render_type|intros ?].
    apply keeps_bind; [|intros ?; apply keeps_navigate].
    apply keeps_when. intros _. apply keeps_on_save. }
  simpl. eapply Hk; [|exact E]. simpl. by apply clamp_index_ok.
Qed.

(** X1.  Whatever the session held before (no cursor, a cursor left from a
    longer dataset, a negative one) and whatever the reviewer does in the
    run (Previous, Next, a save, a jump to a PMID, adding a sentence), once
    the dataset is loaded, with rows as long as its header, and has rows,
    the run ends with the cursor on a row of the dataset: it is never
    negative and never at or past the number of records. *)
Theorem cursor_always_on_a_record (inp : Inputs) (w : World) (u : string)
    (data : grid) :
  user (session w) = Some u → load_fails inp = false →
  sheets w !! SHEET_NAME = Some data → rectangular data →
  Frame.empty (from_values data) = false →
  cursor_ok (Z.of_nat (len (from_values data))) (session (main inp w).2).
Proof.
  intros Hu Hload Hdata _ Hne.
  assert (Hlen : 0 < Z.of_nat (len (from_values data))).
  { unfold Frame.empty in Hne. apply orb_false_elim in Hne as [_ Hv].
    apply bool_decide_eq_false in Hv. unfold len.
    destruct (values (from_values data)); [done|simpl; lia]. }
  unfold main, load_data, show_counts, progress_counts, Sheets.values_get.
  unfold mbind, M_bind, get_session, mret, M_ret, emit. simpl.
  rewrite Hu, Hload, Hdata. simpl. rewrite Hne.
  rewrite ProgressClaims.get_validated_pmids_eq.
  destruct (if progress_fails inp then None
            else sheets w !! ("Validation_" +:+ u)) as [g|]; simpl;
    apply review_record_cursor; exact Hlen.
Qed.

Lemma cursor_always_on_a_record_witness :
  let stale := set_current_record_index (Some 7) Examples.drafting_session in
  let w := Examples.world stale None in
  let inp := Examples.inputs Next ChangeClassification KeepOriginal no_faults in
  user (session w) = Some "ann"
  ∧ cursor_ok 2 (session (main inp w).2).
Proof.
  intros stale w inp. split; [reflexivity|].
  apply (cursor_always_on_a_record inp w "ann" Examples.dataset);
    try reflexivity.
  repeat constructor.
Defined.

End CursorLaws.

(** ** The navigation buttons, the jump and the end of the dataset *)

Module NavigationLaws.
Import Vocabulary Laws WriterFacts NavigationClaims.

(** X2.  Previous does nothing at the first record and Next nothing at the
    last one, whatever was clicked, and neither does anything in a run that
    another button triggered; otherwise Previous moves the cursor back by
    exactly one and Next forward by exactly one, both discard the drafts of
    the record left and ask for a rerun. *)
Theorem navigation_buttons (inp : Inputs) (w : World) (index total_records : Z) :
  current_record_index (session w) = Some index →
  (index = 0 ∨ clicked inp ≠ Previous → nav_previous inp w = (Ret tt, w))
  ∧ (total_records - 1 ≤ index ∨ clicked inp ≠ Next →
     nav_next inp total_records w = (Ret tt, w))
  ∧ (clicked inp = Previous → index ≠ 0 →
     nav_previous inp w
     = (Raise RerunException,
        with_session
          (clear_record_state
             (set_current_record_index (Some (index - 1)) (session w))) w))
  ∧ (clicked inp = Next → index < total_records - 1 →
     nav_next inp total_records w
     = (Raise RerunException,
        with_session
          (clear_record_state
             (set_current_record_index (Some (index + 1)) (session w))) w)).
Proof.
  intros Hi. split; [|split; [|split]].
  - intros H. unfold nav_previous, the_index. run. rewrite Hi. simpl.
    destruct H as [->|H]; [by rewrite andb_false_r|].
    by rewrite (bool_decide_eq_false_2 _ H).
  - intros H. unfold nav_next, the_index. run. rewrite Hi. simpl.
    destruct H as [H|H].
    + destruct (Z.leb_spec (total_records - 1) index); [|lia].
      by rewrite andb_false_r.
    + by rewrite (bool_decide_eq_false_2 _ H).
  - intros Hc Hne. by apply nav_previous_clears.
  - intros Hc Hlt. by apply nav_next_clears.
Qed.

Lemma navigation_buttons_witness :
  let w := Examples.world Examples.drafting_session None in
  current_record_index (session w) = Some 0
  ∧ nav_previous (Examples.inputs Previous KeepOriginal KeepOriginal no_faults) w
    = (Ret tt, w)
  ∧ current_record_index
      (session (nav_next (Examples.inputs Next KeepOriginal KeepOriginal
                            no_faults) 2 w).2) = Some 1.
Proof.
  intros w. split; [reflexivity|].
  destruct (navigation_buttons
              (Examples.inputs Previous KeepOriginal KeepOriginal no_faults)
              w 0 2 eq_refl) as (Hfirst & _).
  destruct (navigation_buttons
              (Examples.inputs Next KeepOriginal KeepOriginal no_faults)
              w 0 2 eq_refl) as (_ & _ & _ & Hnext).
  split.
  - apply Hfirst. left. reflexivity.
  - rewrite Hnext; [reflexivity|reflexivity|lia].
Defined.

(** X3.  A pending jump to a PMID: when rows of the dataset have that PMID,
    the cursor goes to the first of them, the request is reset and the run
    asks for a rerun; when no row has it, the page shows the warning "Could
    not find PMID", the request is reset and the cursor and everything else
    stay; without a request nothing happens. *)
Theorem jump_to_pmid (full_df : DataFrame) (w : World) (j : nat) :
  index_of "PMID" (columns full_df) = Some j →
  (navigate_to_pmid (session w) = None → navigate full_df w = (Ret tt, w))
  ∧ (∀ target i row,
       navigate_to_pmid (session w) = Some target →
       values full_df !! i = Some row → cell row j = target →
       (∀ k row', values full_df !! k = Some row' → (k < i)%nat →
                  cell row' j ≠ target) →
       navigate full_df w
       = (Raise RerunException,
          with_session
            (set_navigate_to_pmid None
               (set_current_record_index (Some (Z.of_nat i)) (session w))) w))
  ∧ (∀ target,
       navigate_to_pmid (session w) = Some target →
       (∀ row, row ∈ values full_df → cell row j ≠ target) →
       navigate full_df w
       = (Ret tt,
          with_session (set_navigate_to_pmid None (session w))
            (say [Notice warning ("Could not find PMID " +:+ target
                                  +:+ " in the dataset")] w))).
Proof.
  intros Hj. split; [|split].
  - intros Hn. unfold navigate. run. by rewrite Hn.
  - intros target i row Hn Hrow Hc Hfirst. unfold navigate. run.
    rewrite Hn, Hj.
    assert (E : list_find (λ r, cell r j = target) (values full_df)
                = Some (i, row)).
    { apply list_find_Some. split; [done|]. split; [done|].
      intros k row' Hk Hlt. by apply (Hfirst k row'). }
    rewrite E. reflexivity.
  - intros target Hn Hnone. unfold navigate. run. rewrite Hn, Hj.
    assert (E : list_find (λ r, cell r j = target) (values full_df) = None).
    { apply list_find_None. apply Forall_forall. intros row Hin.
      by apply Hnone. }
    rewrite E. reflexivity.
Qed.

Lemma jump_to_pmid_witness :
  let full_df := from_values Examples.dataset in
  let w := Examples.world
             (set_navigate_to_pmid (Some "999") Examples.drafting_session)
             None in
  index_of "PMID" (columns full_df) = Some 0%nat
  ∧ current_record_index (session (navigate full_df w).2) = Some 0
  ∧ navigate_to_pmid (session (navigate full_df w).2) = None.
Proof.
  intros full_df w. split; [reflexivity|].
  destruct (jump_to_pmid full_df w 0 eq_refl) as (_ & _ & Hmiss).
  rewrite (Hmiss "999"); [split; reflexivity|reflexivity|].
  intros row Hin. vm_compute in Hin.
  apply elem_of_cons in Hin as [->|Hin]; [discriminate|].
  apply elem_of_cons in Hin as [->|Hin]; [discriminate|].
  by apply elem_of_nil in Hin.
Defined.

(** X4.  A save that the writer returned from, with the cursor on a record:
    before the last record the cursor moves to the next one and nothing is
    said about the end; on the last record the cursor stays where it is and
    the page gets, after the notices of the writer, "You have reached the
    end of the records."  In both cases the run asks for a rerun. *)
Theorem save_moves_to_next_or_stays (inp : Inputs) (u : string) (c : Current)
    (hnh_new type_new name : string) (total_records index : Z) (w : World) :
  current_record_index (session w) = Some index →
  0 ≤ index < total_records →
  let df := from_record
              (build_response u (now inp) c (hnh_action_radio inp)
                 (type_action_radio inp) hnh_new type_new (session w)) in
  let written := add_new_worksheet_and_write (save_faults inp) df name w in
  let saved := on_save inp u c hnh_new type_new name total_records w in
  written.1 = Ret tt →
  saved.1 = Raise RerunException
  ∧ (index < total_records - 1 →
     current_record_index (session saved.2) = Some (index + 1)
     ∧ ui saved.2 = ui written.2)
  ∧ (index = total_records - 1 →
     current_record_index (session saved.2) = Some index
     ∧ ui saved.2
       = ui written.2
         ++ [Notice info "You have reached the end of the records."]).
Proof.
  intros Hi Hr df written saved Hw. unfold saved.
  rewrite on_save_eq. fold df. fold written. rewrite Hw, Hi. simpl.
  split; [reflexivity|]. unfold advance. split; intros H.
  - destruct (Z.leb_spec total_records (index + 1)); [lia|]. simpl.
    split; [reflexivity|]. apply app_nil_r.
  - destruct (Z.leb_spec total_records (index + 1)); [|lia].
    destruct (Z.ltb_spec 0 total_records); [|lia]. simpl.
    split; [f_equal; lia|reflexivity].
Qed.

Lemma save_moves_to_next_or_stays_witness :
  let s := set_current_record_index (Some 1) Examples.drafting_session in
  let w := Examples.world s None in
  let inp := Examples.inputs SaveAndNext KeepOriginal KeepOriginal no_faults in
  current_record_index (session w) = Some 1
  ∧ current_record_index
      (session (on_save inp "ann" Examples.record_102 "Human" "Used"
                  "Validation_ann" 2 w).2) = Some 1.
Proof.
  intros s w inp. split; [reflexivity|].
  destruct (save_moves_to_next_or_stays inp "ann" Examples.record_102
              "Human" "Used" "Validation_ann" 2 1 w eq_refl)
    as (_ & _ & Hlast); [lia|vm_compute; reflexivity|].
  apply Hlast. reflexivity.
Defined.

End NavigationLaws.

(** ** The spreadsheet under the runs of the page *)

Module SheetLaws.
Import Vocabulary Laws WriterFacts LedgerFacts.

Section Respects.
Variable R : World → World → Prop.
Hypothesis R_refl : ∀ w, R w w.
Hypothesis R_trans : ∀ w1 w2 w3, R w1 w2 → R w2 w3 → R w1 w3.
Hypothesis R_page : ∀ w s o,
  R w {| session := s; sheets := sheets w; ui := o |}.

Lemma respects_ret {A} (a : A) : respects R (mret a).
Proof using R_refl. intros w r w' [= <- <-]. apply R_refl. Qed.

Lemma respects_raise {A} e : respects R (@raise A e).
Proof using R_refl. intros w r w' [= <- <-]. apply R_refl. Qed.

Lemma respects_bind {A B} (m : M A) (k : A → M B) :
  respects R m → (∀ a, respects R (k a)) → respects R (m ≫= k).
Proof using R_trans.
  intros Hm Hk w r w'. unfold mbind, M_bind.
  destruct (m w) as [[a|e] w1] eqn:E.
  - intros Hk'. eapply R_trans; [by eapply Hm|by eapply Hk].
  - intros [= <- <-]. by eapply Hm.
Qed.

Lemma respects_attempt {A} (m : M A) : respects R m → respects R (attempt m).
Proof.
  intros Hm w r w'. unfold attempt.
  destruct (m w) as [[a|e] w1] eqn:E; [|destruct (is_Exception e)];
    intros [= <- <-]; by eapply Hm.
Qed.

Lemma respects_when b m : respects R m → respects R (when b m).
Proof using R_refl. destruct b; [done|]. intros _. apply respects_ret. Qed.

Lemma respects_emit o : respects R (emit o).
Proof using R_page. intros w r w' [= <- <-]. apply R_page. Qed.

Lemma respects_modify_session f : respects R (modify_session f).
Proof using R_page. intros w r w' [= <- <-]. apply R_page. Qed.

Lemma respects_get_session : respects R get_session.
Proof using R_refl. intros w r w' [= <- <-]. apply R_refl. Qed.

Lemma respects_values_get fails title width :
  respects R (Sheets.values_get fails title width).
Proof using R_refl.
  intros w r w'. unfold Sheets.values_get.
  repeat case_match; intros [= <- <-]; apply R_refl.
Qed.
End Respects.

Lemma only_appends_refl name w : only_appends name w w.
Proof.
  split; [done|]. intros g Hg. exists []. by rewrite app_nil_r.
Qed.

Lemma only_appends_trans name w1 w2 w3 :
  only_appends name w1 w2 → only_appends name w2 w3 → only_appends name w1 w3.
Proof.
  intros [Ho1 Ha1] [Ho2 Ha2]. split.
  - intros other Hne. by rewrite Ho2, Ho1.
  - intros g Hg. destruct (Ha1 g Hg) as [r1 H1].
    destruct (Ha2 _ H1) as [r2 H2]. exists (r1 ++ r2). by rewrite app_assoc.
Qed.

Lemma only_appends_page name w s o :
  only_appends name w {| session := s; sheets := sheets w; ui := o |}.
Proof.
  split; [done|]. intros g Hg. exists []. by rewrite app_nil_r.
Qed.

(** The writer only appends to its worksheet. *)
Lemma writer_only_appends f df name :
  respects (only_appends name) (add_new_worksheet_and_write f df name).
Proof.
  intros w r w' E.
  assert (w' = (add_new_worksheet_and_write f df name w).2) as ->
    by (by rewrite E).
  split.
  - intros other Hne. by apply writer_other_sheets.
  - intros g Hg. rewrite writer_ledger, Hg. simpl.
    destruct (read_fails f || append_fails f).
    + exists []. by rewrite app_nil_r.
    + by eexists.
Qed.

Ltac respects_step name :=
  lazymatch goal with
  | |- respects _ (add_new_worksheet_and_write _ _ _) =>
      apply writer_only_appends
  | |- respects _ (mbind _ _) =>
      apply respects_bind; [apply only_appends_trans| |intros ?]
  | |- respects _ (mret _) => apply respects_ret, only_appends_refl
  | |- respects _ (raise _) => apply respects_raise, only_appends_refl
  | |- respects _ st_rerun => apply respects_raise, only_appends_refl
  | |- respects _ (attempt _) => apply respects_attempt
  | |- respects _ (when _ _) => apply respects_when; [apply only_appends_refl|]
  | |- respects _ (emit _) => apply respects_emit, only_appends_page
  | |- respects _ (st_info _) => apply respects_emit, only_appends_page
  | |- respects _ (st_success _) => apply respects_emit, only_appends_page
  | |- respects _ (st_warning _) => apply respects_emit, only_appends_page
  | |- respects _ (st_error _) => apply respects_emit, only_appends_page
  | |- respects _ (modify_session _) =>
      apply respects_modify_session, only_appends_page
  | |- respects _ get_session => apply respects_get_session, only_appends_refl
  | |- respects _ (Sheets.values_get _ _ _) =>
      apply respects_values_get, only_appends_refl
  | |- respects _ (match ?x with _ => _ end) => destruct x
  | |- respects _ (let _ := _ in _) => cbv zeta
  end.

Lemma on_save_only_appends inp u c hnh_new type_new name total_records :
  respects (only_appends name)
    (on_save inp u c hnh_new type_new name total_records).
Proof. unfold on_save, the_index. repeat respects_step name. Qed.

Lemma review_record_only_appends inp u full_df name total_records :
  respects (only_appends name)
    (review_record inp u full_df name total_records).
Proof.
  unfold review_record, nav_previous, nav_next, the_index, render_hnh,
    render_type, add_hnh_sentence, add_type_sentence, navigate.
  repeat first [apply on_save_only_appends | respects_step name].
Qed.

Lemma bind_get_session {A} (k : SessionState → M A) w :
  (get_session ≫= k) w = k (session w) w.
Proof. reflexivity. Qed.

Lemma main_only_appends inp u w :
  user (session w) = Some u →
  only_appends ("Validation_" +:+ u) w (main inp w).2.
Proof.
  intros Hu. unfold main. rewrite bind_get_session, Hu. cbv zeta.
  match goal with
  | |- only_appends ?n _ (?m w).2 =>
      assert (H : respects (only_appends n) m);
      [|destruct (m w) as [r w'] eqn:E; exact (H _ _ _ E)]
  end.
  unfold load_data, get_validated_pmids, show_counts.
  repeat first [apply review_record_only_appends
               | respects_step ("Validation_" +:+ u)].
Qed.

(** X5.  A run of the page for a reviewer changes no worksheet but the one
    named after the reviewer, and that one it creates or extends at its end:
    the rows it had stay the same rows in the same places.  The dataset
    sheet in particular is never written.  Without a reviewer logged in the
    run does nothing at all. *)
Theorem runs_only_append (inp : Inputs) (w : World) :
  match user (session w) with
  | None => main inp w = (Ret tt, w)
  | Some u =>
      only_appends ("Validation_" +:+ u) w (main inp w).2
      ∧ sheets (main inp w).2 !! SHEET_NAME = sheets w !! SHEET_NAME
  end.
Proof.
  destruct (user (session w)) as [u|] eqn:Hu.
  - pose proof (main_only_appends inp u w Hu) as H. split; [exact H|].
    apply H. discriminate.
  - unfold main. by rewrite bind_get_session, Hu.
Qed.

End SheetLaws.

(** ** A judgment saved is a judgment read; a ledger that can not be written *)

Module LedgerLaws.
Import Vocabulary Laws WriterFacts LedgerFacts.

(** X6.  A save that meets no failure, on a worksheet that does not exist
    or that has its PMIDs in the third column, as every ledger made by a
    save has: the PMIDs read back afterwards are those read before and the
    PMID of the record saved.  So the completed count goes up by one when
    the record was not judged before and stays when it was. *)
Theorem saved_judgment_is_read_back (u ts : string) (c : Current)
    (ha ta : action) (hnh_new type_new : string) (s : SessionState)
    (name : string) (w : World) :
  (∀ g, sheets w !! name = Some g → pmid_column g = Some 2%nat) →
  let df := from_record (build_response u ts c ha ta hnh_new type_new s) in
  let w' := (add_new_worksheet_and_write no_faults df name w).2 in
  ∃ before : gset string,
    (get_validated_pmids false name w).1 = Ret before
    ∧ (get_validated_pmids false name w').1 = Ret ({[PMID c]} ∪ before)
    ∧ size ({[PMID c]} ∪ before)
      = if decide (PMID c ∈ before) then size before else S (size before).
Proof.
  intros Hcol df w'.
  rewrite !ProgressClaims.get_validated_pmids_eq.
  assert (Hw' : sheets w' !! name = ledger_after no_faults df (sheets w !! name))
    by apply writer_ledger.
  rewrite Hw'.
  assert (Hsize : ∀ before : gset string,
    size ({[PMID c]} ∪ before)
    = if decide (PMID c ∈ before) then size before else S (size before)).
  { intros before. case_decide as Hin.
    - f_equal. apply subseteq_union_1_L. by apply singleton_subseteq_l.
    - rewrite size_union by (by apply disjoint_singleton_l).
      by rewrite size_singleton. }
  destruct (sheets w !! name) as [g|] eqn:Hg; simpl.
  - exists (list_to_set (ledger_pmids g)). split; [done|]. split; [|done].
    f_equal. specialize (Hcol g eq_refl).
    rewrite (ledger_pmids_app g _ 2 Hcol).
    unfold new_rows_for. rewrite Hcol.
    destruct (response_batch u ts c ha ta hnh_new type_new s) as [Hj _].
    fold df in Hj. rewrite Hj.
    change (values df) with [(build_response u ts c ha ta hnh_new type_new s).*2].
    rewrite filter_cons, filter_nil.
    change (cell (build_response u ts c ha ta hnh_new type_new s).*2 2)
      with (PMID c).
    case_decide as Hnew.
    + rewrite list_to_set_app_L.
      change (cells_at 2 (take 26 <$> [(build_response u ts c ha ta hnh_new
                                          type_new s).*2]))
        with [PMID c].
      simpl. by rewrite (right_id_L ∅ (∪)), (comm_L (∪)).
    + simpl. rewrite app_nil_r. symmetry.
      apply subseteq_union_1_L, singleton_subseteq_l. exact Hnew.
  - exists ∅. split; [done|]. split; [reflexivity|done].
Qed.

Lemma saved_judgment_is_read_back_witness :
  let w := Examples.world Examples.fresh_session
             (Some [Examples.ledger_header; Examples.judgment_102]) in
  let df := from_record
              (build_response "ann" "2024-05-01 10:00:00" Examples.record_101
                 KeepOriginal KeepOriginal "Non-Human" "Original"
                 Examples.fresh_session) in
  let w' := (add_new_worksheet_and_write no_faults df "Validation_ann" w).2 in
  (∀ g, sheets w !! "Validation_ann" = Some g → pmid_column g = Some 2%nat)
  ∧ ∃ before : gset string,
      (get_validated_pmids false "Validation_ann" w').1
      = Ret ({["101"]} ∪ before).
Proof.
  intros w df w'.
  assert (H : ∀ g, sheets w !! "Validation_ann" = Some g →
                   pmid_column g = Some 2%nat).
  { intros g Hg. vm_compute in Hg. injection Hg as <-. reflexivity. }
  split; [exact H|].
  destruct (saved_judgment_is_read_back "ann" "2024-05-01 10:00:00"
              Examples.record_101 KeepOriginal KeepOriginal "Non-Human"
              "Original" Examples.fresh_session "Validation_ann" w H)
    as (before & _ & Hafter & _).
  exists before. exact Hafter.
Defined.

Lemma empty_sheet_unrecognised : pmid_column [] = None.
Proof. reflexivity. Qed.

(** X7.  When the worksheet of the reviewer does not exist, its creation
    succeeds and the write of the header and the rows then fails, the save
    raises and leaves the worksheet there without any row.  From then on no
    save writes anything, whatever its batch and whether or not any of its
    calls fails: each one returns after the notice "Sheet creation error",
    the worksheet stays without rows and the PMIDs read from it stay none. *)
Theorem ledger_stuck_after_failed_first_write (name : string) (w : World) :
  (∀ f df, sheets w !! name = None →
           add_sheet_fails f = false → update_fails f = true →
           (add_new_worksheet_and_write f df name w).1 = Raise HttpError
           ∧ sheets (add_new_worksheet_and_write f df name w).2 !! name
             = Some [])
  ∧ (sheets w !! name = Some [] →
     (∀ f df,
        add_new_worksheet_and_write f df name w
        = (Ret tt,
           say ((if read_fails f then [could_not_read name HttpError] else [])
                ++ [creation_error HttpError]) w))
     ∧ (∀ saves, sheets (run_saves saves name w) !! name = Some [])
     ∧ (get_validated_pmids false name w).1 = Ret ∅).
Proof.
  split.
  - intros f df Hno Ha Hu. rewrite writer_absent by done.
    rewrite Ha, Hu. simpl. split; [reflexivity|]. apply lookup_insert_eq.
  - intros Hempty. split; [|split].
    + intros f df. apply (writer_unrecognised f df name w []); auto.
    + intros saves. revert w Hempty.
      induction saves as [|[f df] saves IH]; intros w Hempty; [done|].
      simpl. apply IH. rewrite writer_ledger, Hempty. simpl.
      destruct (read_fails f || append_fails f); [done|].
      unfold new_rows_for. by rewrite empty_sheet_unrecognised.
    + by rewrite ProgressClaims.get_validated_pmids_eq, Hempty.
Qed.

Lemma ledger_stuck_after_failed_first_write_witness :
  let broken := {| read_fails := false; append_fails := false;
                   add_sheet_fails := false; update_fails := true |} in
  let df := from_record
              (build_response "ann" "2024-05-01 10:00:00" Examples.record_101
                 KeepOriginal KeepOriginal "Non-Human" "Original"
                 Examples.fresh_session) in
  let w := Examples.world Examples.fresh_session None in
  let w1 := (add_new_worksheet_and_write broken df "Validation_ann" w).2 in
  sheets w !! "Validation_ann" = None
  ∧ sheets w1 !! "Validation_ann" = Some []
  ∧ sheets (run_saves [(no_faults, df); (no_faults, df)] "Validation_ann" w1)
      !! "Validation_ann" = Some [].
Proof.
  intros broken df w w1.
  destruct (ledger_stuck_after_failed_first_write "Validation_ann" w)
    as [Hfirst _].
  destruct (Hfirst broken df eq_refl eq_refl eq_refl) as [_ Hw1].
  destruct (ledger_stuck_after_failed_first_write "Validation_ann" w1)
    as [_ Hthen].
  destruct (Hthen Hw1) as (_ & Hsaves & _).
  split; [reflexivity|]. split; [exact Hw1|]. apply Hsaves.
Defined.

End LedgerLaws.

(** ** Drafts built from sentences *)

Module SelectionLaws.
Import Vocabulary Laws SelectionClaims.

Lemma str_app_assoc a b c : (a +:+ b) +:+ c = a +:+ b +:+ c.
Proof.
  induction a as [|x a IH]; [reflexivity|].
  change (String x ((a +:+ b) +:+ c) = String x (a +:+ b +:+ c)).
  by rewrite IH.
Qed.

Lemma concat_snoc sep l s :
  l ≠ [] → String.concat sep (l ++ [s]) = String.concat sep l +:+ sep +:+ s.
Proof.
  induction l as [|x l IH]; [done|]. intros _.
  destruct l as [|y l]; [reflexivity|].
  change (x +:+ sep +:+ String.concat sep ((y :: l) ++ [s])
          = (x +:+ sep +:+ String.concat sep (y :: l)) +:+ sep +:+ s).
  rewrite IH by done. by rewrite !str_app_assoc.
Qed.

Lemma concat_nonempty sep l :
  l ≠ [] → Forall (λ s, s ≠ "") l → String.concat sep l ≠ "".
Proof.
  destruct l as [|x l]; [done|]. intros _ [Hx _]%Forall_cons.
  destruct x as [|c x]; [done|]. by destruct l.
Qed.

Lemma same_but_axis_refl ax s : same_but_axis ax s s.
Proof. by destruct ax. Qed.

Lemma add_all_snoc ax l s w :
  add_all ax (l ++ [s]) w = (add_sentence ax (Some s) (add_all ax l w)).2.
Proof. unfold add_all. by rewrite foldl_app. Qed.

(** X8.  Adding sentences one click after the other to an axis whose draft
    is empty and whose used set is empty, the sentences being non-empty and
    pairwise different: the draft is then the sentences in the order of the
    clicks, joined by newlines, the used set is the set of these sentences,
    and nothing else in the session, the other axis included, the
    spreadsheet or the page has changed. *)
Theorem drafts_accumulate (ax : axis) (sentences : list string) (w : World) :
  used_sentences ax (session w) = Some ∅ →
  reason_text ax (session w) = Some "" →
  Forall (λ s, s ≠ "") sentences → NoDup sentences →
  let w' := add_all ax sentences w in
  reason_text ax (session w') = Some (String.concat newline sentences)
  ∧ used_sentences ax (session w') = Some (list_to_set sentences)
  ∧ same_but_axis ax (session w) (session w')
  ∧ sheets w' = sheets w ∧ ui w' = ui w.
Proof.
  intros Hu Ht. induction sentences as [|s l IH] using rev_ind;
    intros Hne Hnd w'.
  - unfold w'. simpl. repeat split; try done. apply same_but_axis_refl.
  - apply Forall_app in Hne as [Hne [Hs _]%Forall_cons].
    apply NoDup_app in Hnd as (Hnd & Hnin & _).
    destruct (IH Hne Hnd) as (IHt & IHu & IHsame & IHsh & IHui).
    unfold w'. rewrite add_all_snoc.
    set (w1 := add_all ax l w) in *.
    assert (Hnew : s ∉ (list_to_set l : gset string)).
    { rewrite elem_of_list_to_set. intros Hin. apply (Hnin s Hin). left. }
    rewrite (add_sentence_new ax s (list_to_set l) (String.concat newline l) w1)
      by done.
    simpl. split; [|split; [|split]].
    + destruct ax; simpl; f_equal.
      * destruct l as [|x l']; [reflexivity|].
        rewrite bool_decide_eq_false_2
          by (apply concat_nonempty; [done|exact Hne]).
        by rewrite concat_snoc.
      * destruct l as [|x l']; [reflexivity|].
        rewrite bool_decide_eq_false_2
          by (apply concat_nonempty; [done|exact Hne]).
        by rewrite concat_snoc.
    + destruct ax; simpl; f_equal; rewrite list_to_set_app_L; simpl;
        by rewrite (right_id_L ∅ (∪)), (comm_L (∪)).
    + destruct IHsame as (H1 & H2 & H3 & H4 & H5).
      destruct ax; simpl; repeat split; try done; apply H5.
    + by destruct ax.
Qed.

Lemma drafts_accumulate_witness :
  let s0 := {| user := Some "ann"; current_record_index := Some 0;
               hnh_reason_text := Some ""; hnh_used_sentences := Some ∅;
               type_reason_text := Some "kept";
               type_used_sentences := Some {["kept"]};
               non_human_subcategories := None; navigate_to_pmid := None |} in
  let w := {| session := s0; sheets := ∅; ui := [] |} in
  let w' := add_all AxisHNH ["Soil was sampled."; "Microbes were sequenced."] w in
  used_sentences AxisHNH (session w) = Some ∅
  ∧ hnh_reason_text (session w')
    = Some ("Soil was sampled." +:+ newline +:+ "Microbes were sequenced.")
  ∧ type_reason_text (session w') = Some "kept".
Proof.
  intros s0 w w'.
  destruct (drafts_accumulate AxisHNH
              ["Soil was sampled."; "Microbes were sequenced."] w)
    as (Ht & _ & Hsame & _); [reflexivity|reflexivity| | |].
  - repeat constructor; discriminate.
  - apply NoDup_cons. split; [|apply NoDup_singleton].
    intros H%list_elem_of_singleton. discriminate H.
  - split; [reflexivity|]. split; [exact Ht|].
    destruct Hsame as (_ & _ & _ & _ & Hother & _). exact Hother.
Defined.

End SelectionLaws.

(** ** The two axes under Change Classification *)

Module WorkflowLaws.
Import Vocabulary Laws WorkflowClaims.

Lemma render_hnh_change inp c w :
  hnh_action_radio inp = ChangeClassification →
  clicked inp ≠ AddHnhSentence →
  render_hnh inp c w
  = (Ret (hnh_label (hnh_new_class inp)),
     with_session
       (init_hnh_reason_text
          (if bool_decide (hnh_label (hnh_new_class inp) = "Non-Human")
           then multiselect_non_human (session w) else session w)) w).
Proof.
  intros Ha Hc. unfold render_hnh. rewrite Ha. run.
  rewrite (bool_decide_eq_false_2 _ Hc).
  by destruct (bool_decide (hnh_label (hnh_new_class inp) = "Non-Human")).
Qed.

Lemma render_type_change inp c w :
  type_action_radio inp = ChangeClassification →
  clicked inp ≠ AddTypeSentence →
  render_type inp c w
  = (Ret (type_label (type_new_class inp)),
     with_session (init_type_reason_text (session w)) w).
Proof.
  intros Ha Hc. unfold render_type. rewrite Ha. run.
  by rewrite (bool_decide_eq_false_2 _ Hc).
Qed.

End WorkflowLaws.

(** ** Runs that stop before the page *)

Module PageLaws.
Import Vocabulary Laws SheetLaws.

(** X11.  Without a reviewer logged in a run does nothing.  With one, a
    failure of the read of the dataset, or a spreadsheet without the dataset
    sheet, ends the run with the exception of the read and nothing changed;
    a dataset sheet without values or with a header row only ends it after
    the one notice "No data found in the spreadsheet", an error, with no
    count shown and nothing else changed. *)
Theorem main_stops_early (inp : Inputs) (w : World) :
  (user (session w) = None → main inp w = (Ret tt, w))
  ∧ (∀ u, user (session w) = Some u →
          load_fails inp = true ∨ sheets w !! SHEET_NAME = None →
          main inp w = (Raise HttpError, w))
  ∧ (∀ u header,
       user (session w) = Some u → load_fails inp = false →
       sheets w !! SHEET_NAME = Some [] ∨ sheets w !! SHEET_NAME = Some [header] →
       main inp w
       = (Ret tt, say [Notice error "No data found in the spreadsheet"] w)).
Proof.
  split; [|split].
  - intros Hu. unfold main. by rewrite bind_get_session, Hu.
  - intros u Hu H. unfold main. rewrite bind_get_session, Hu.
    unfold load_data, Sheets.values_get. run.
    destruct H as [->| ->]; [reflexivity|]. by destruct (load_fails inp).
  - intros u header Hu Hl H. unfold main. rewrite bind_get_session, Hu.
    unfold load_data, Sheets.values_get. run. rewrite Hl.
    destruct H as [-> | ->]; simpl; [reflexivity|].
    unfold Frame.empty. simpl. by rewrite orb_true_r.
Qed.

Lemma main_stops_early_witness :
  let w := {| session := Examples.fresh_session;
              sheets := {[ SHEET_NAME := [["PMID"; "Title"; "Abstract"]] ]};
              ui := [] |} in
  let inp := Examples.inputs Next KeepOriginal KeepOriginal no_faults in
  user (session w) = Some "ann"
  ∧ main inp w
    = (Ret tt, say [Notice error "No data found in the spreadsheet"] w).
Proof.
  intros w inp. split; [reflexivity|].
  destruct (main_stops_early inp w) as (_ & _ & H).
  apply (H "ann" ["PMID"; "Title"; "Abstract"]);
    [reflexivity|reflexivity|right; reflexivity].
Defined.

End PageLaws.

(** ** Accounts: the login form and [manage_users.py] *)

Module UserLaws.
Import Vocabulary Laws Users SheetLaws.

Lemma login_eq checkpw file lin w :
  login checkpw file lin w
  = match user (session w) with
    | None =>
        if bool_decide (login_clicked lin = LoginButton) then
          match load_users file !! username_input lin with
          | Some hashed =>
              if checkpw (password_input lin) hashed
              then (Raise RerunException,
                    with_session
                      (set_user (Some (username_input lin)) (session w)) w)
              else (Ret tt, say [Notice error "Invalid username or password"] w)
          | None => (Ret tt, say [Notice error "Invalid username or password"] w)
          end
        else (Ret tt, w)
    | Some _ =>
        if bool_decide (login_clicked lin = LogoutButton)
        then (Raise RerunException, with_session (set_user None (session w)) w)
        else (Ret tt, w)
    end.
Proof.
  unfold login. rewrite bind_get_session.
  destruct (user (session w)); case_bool_decide; simpl; try reflexivity.
  destruct (load_users file !! username_input lin) as [hashed|]; [|reflexivity].
  by destruct (checkpw (password_input lin) hashed).
Qed.

(** X12.  With nobody logged in and the Login button clicked, the login
    succeeds exactly when the user name is in the accounts file and the
    password checks against its hash: the session then holds the user name
    and the run asks for a rerun; otherwise the page shows "Invalid username
    or password" and the session is as it was.  A user name that is not in
    the file, or any name when there is no file, never gets in, whatever the
    check would say.  The Logout button resets the user and nothing else:
    the cursor and the drafts stay in the session. *)
Theorem login_outcomes (checkpw : string → string → bool)
    (file : option (gmap string string)) (lin : LoginInputs) (w : World) :
  (user (session w) = None → login_clicked lin = LoginButton →
   login checkpw file lin w
   = match load_users file !! username_input lin with
     | Some hashed =>
         if checkpw (password_input lin) hashed
         then (Raise RerunException,
               with_session (set_user (Some (username_input lin)) (session w)) w)
         else (Ret tt, say [Notice error "Invalid username or password"] w)
     | None => (Ret tt, say [Notice error "Invalid username or password"] w)
     end)
  ∧ (user (session w) = None → login_clicked lin = LoginButton →
     file = None ∨ load_users file !! username_input lin = None →
     login checkpw file lin w
     = (Ret tt, say [Notice error "Invalid username or password"] w))
  ∧ (user (session w) = None → login_clicked lin ≠ LoginButton →
     login checkpw file lin w = (Ret tt, w))
  ∧ (∀ u, user (session w) = Some u →
          login checkpw file lin w
          = if bool_decide (login_clicked lin = LogoutButton)
            then (Raise RerunException,
                  with_session (set_user None (session w)) w)
            else (Ret tt, w)).
Proof.
  rewrite !login_eq. split; [|split; [|split]].
  - intros -> Hc. by rewrite (bool_decide_eq_true_2 _ Hc).
  - intros -> Hc Hno. rewrite (bool_decide_eq_true_2 _ Hc).
    destruct Hno as [-> | ->]; [|done]. simpl. by rewrite lookup_empty.
  - intros -> Hc. by rewrite (bool_decide_eq_false_2 _ Hc).
  - by intros u ->.
Qed.

Lemma login_outcomes_witness :
  let lin := {| username_input := "eve"; password_input := "guess";
                login_clicked := LoginButton |} in
  let w := {| session := set_user None Examples.drafting_session;
              sheets := ∅; ui := [] |} in
  user (session w) = None
  ∧ login (λ _ _, true) (Some {[ "ann" := "s1$secret" ]}) lin w
    = (Ret tt, say [Notice error "Invalid username or password"] w).
Proof.
  intros lin w. split; [reflexivity|].
  destruct (login_outcomes (λ _ _, true) (Some {[ "ann" := "s1$secret" ]})
              lin w) as (_ & Hno & _).
  apply Hno; [reflexivity|reflexivity|]. right. reflexivity.
Defined.

(** X13.  The account script and the login form together.  When the check
    accepts a password against the hash made from it: after [add_user] for
    a name and a password, that name logs in with that password, whether
    the file existed before or not and whether the name was in it or not;
    a password that the check rejects against the new hash does not log
    in; the accounts of the other names are as they were; and adding the
    same name again replaces its hash, the last one standing. *)
Theorem added_user_can_log_in (hashpw : string → string → string)
    (checkpw : string → string → bool) (salt u p : string)
    (file : option (gmap string string)) (w : World) :
  checkpw p (hashpw p salt) = true →
  user (session w) = None →
  let file' := (add_user hashpw salt u p file).1 in
  login checkpw file'
    {| username_input := u; password_input := p; login_clicked := LoginButton |}
    w
  = (Raise RerunException, with_session (set_user (Some u) (session w)) w)
  ∧ (∀ p', checkpw p' (hashpw p salt) = false →
       login checkpw file'
         {| username_input := u; password_input := p';
            login_clicked := LoginButton |} w
       = (Ret tt, say [Notice error "Invalid username or password"] w))
  ∧ (∀ v, v ≠ u → load_users file' !! v = load_users file !! v)
  ∧ (∀ salt' p2,
       (add_user hashpw salt' u p2 file').1
       = (add_user hashpw salt' u p2 file).1).
Proof.
  intros Hcheck Hu file'.
  assert (Hfile : load_users file' !! u = Some (hashpw p salt)).
  { unfold file', add_user. simpl. apply lookup_insert_eq. }
  split; [|split; [|split]].
  - rewrite login_eq, Hu. simpl. change (<[u:=hashpw p salt]> (load_users file))
      with (load_users file'). by rewrite Hfile, Hcheck.
  - intros p' Hbad. rewrite login_eq, Hu. simpl.
    change (<[u:=hashpw p salt]> (load_users file)) with (load_users file').
    by rewrite Hfile, Hbad.
  - intros v Hne. unfold file', add_user. simpl. by apply lookup_insert_ne.
  - intros salt' p2. unfold file', add_user. simpl.
    by rewrite insert_insert_eq.
Qed.

Lemma added_user_can_log_in_witness :
  let w := {| session := set_user None Examples.fresh_session;
              sheets := ∅; ui := [] |} in
  let file' := (add_user toy_hashpw "s1" "bob" "secret" None).1 in
  toy_checkpw "secret" (toy_hashpw "secret" "s1") = true
  ∧ user (session
            (login toy_checkpw file'
               {| username_input := "bob"; password_input := "secret";
                  login_clicked := LoginButton |} w).2) = Some "bob".
Proof.
  intros w file'. split; [reflexivity|].
  destruct (added_user_can_log_in toy_hashpw toy_checkpw "s1" "bob" "secret"
              None w eq_refl eq_refl) as [Hin _].
  unfold file'. rewrite Hin. reflexivity.
Defined.

(** X14.  Before a login succeeds nothing of the page runs: with nobody
    logged in, a run of [main] from its first line is the run of the login
    form alone.  The inputs of the page are not looked at, no worksheet is
    read or written and no count is shown; and the run in which the login
    succeeds stops at the rerun, before the page. *)
Theorem no_page_before_login (checkpw : string → string → bool)
    (file : option (gmap string string)) (lin : LoginInputs) (inp : Inputs)
    (w : World) :
  user (session w) = None →
  main_with_login checkpw file lin inp w = login checkpw file lin w
  ∧ sheets (main_with_login checkpw file lin inp w).2 = sheets w
  ∧ (ui (main_with_login checkpw file lin inp w).2 = ui w
     ∨ ui (main_with_login checkpw file lin inp w).2
       = ui w ++ [Notice error "Invalid username or password"]).
Proof.
  intros Hu.
  assert (Hcases :
    login checkpw file lin w = (Ret tt, w)
    ∨ login checkpw file lin w
      = (Ret tt, say [Notice error "Invalid username or password"] w)
    ∨ login checkpw file lin w
      = (Raise RerunException,
         with_session (set_user (Some (username_input lin)) (session w)) w)).
  { rewrite login_eq, Hu. case_bool_decide; [|auto].
    destruct (load_users file !! username_input lin) as [hashed|]; [|auto].
    destruct (checkpw (password_input lin) hashed); auto. }
  assert (Hmain : ∀ w1, user (session w1) = None → main inp w1 = (Ret tt, w1)).
  { intros w1 H1. unfold main. by rewrite bind_get_session, H1. }
  assert (Heq : main_with_login checkpw file lin inp w
                = login checkpw file lin w).
  { unfold main_with_login. unfold mbind at 1, M_bind at 1.
    destruct Hcases as [E|[E|E]]; rewrite E; [by apply Hmain|by apply Hmain|
                                                reflexivity]. }
  split; [exact Heq|]. rewrite Heq.
  destruct Hcases as [E|[E|E]]; rewrite E; simpl; auto.
Qed.

Lemma no_page_before_login_witness :
  let lin := {| username_input := "eve"; password_input := "guess";
                login_clicked := LoginButton |} in
  let inp := Examples.inputs SaveAndNext ChangeClassification
               ChangeClassification no_faults in
  let w := Examples.world (set_user None Examples.drafting_session) None in
  user (session w) = None
  ∧ sheets (main_with_login toy_checkpw (Some {[ "ann" := "s1$secret" ]})
              lin inp w).2 = sheets w.
Proof.
  intros lin inp w. split; [reflexivity|].
  apply (no_page_before_login toy_checkpw (Some {[ "ann" := "s1$secret" ]})
           lin inp w). reflexivity.
Defined.

End UserLaws.

(** ** The links of the progress view *)

Module LinkLaws.
Import Vocabulary Laws Links.

Lemma prefix_cons a s1 b s2 :
  String.prefix (String a s1) (String b s2)
  = if Ascii.ascii_dec a b then String.prefix s1 s2 else false.
Proof. reflexivity. Qed.

Lemma no_P_no_prefix d : has_char "P" d = false → String.prefix "PMC" d = false.
Proof.
  destruct d as [|c d]; [reflexivity|].
  change (has_char "P" (String c d))
    with (bool_decide (c = "P"%char) || has_char "P" d).
  intros [Hc _]%orb_false_elim. apply bool_decide_eq_false in Hc.
  rewrite prefix_cons.
  destruct (Ascii.ascii_dec "P" c) as [<-|_]; [done|reflexivity].
Qed.

Lemma replace_scan_keeps d :
  has_char "P" d = false → replace_scan "PMC" "" 0 d = d.
Proof.
  induction d as [|c d IH]; [reflexivity|]. intros H.
  change (replace_scan "PMC" "" 0 (String c d))
    with (if String.prefix "PMC" (String c d)
          then "" +:+ replace_scan "PMC" "" 2 d
          else String c (replace_scan "PMC" "" 0 d)).
  rewrite (no_P_no_prefix _ H).
  change (has_char "P" (String c d))
    with (bool_decide (c = "P"%char) || has_char "P" d) in H.
  apply orb_false_elim in H as [_ H]. by rewrite IH.
Qed.

Lemma replace_scan_app a rest :
  has_char "P" a = false →
  replace_scan "PMC" "" 0 (a +:+ rest) = a +:+ replace_scan "PMC" "" 0 rest.
Proof.
  induction a as [|c a IH]; [reflexivity|]. intros H.
  change (String c a +:+ rest) with (String c (a +:+ rest)).
  change (replace_scan "PMC" "" 0 (String c (a +:+ rest)))
    with (if String.prefix "PMC" (String c (a +:+ rest))
          then "" +:+ replace_scan "PMC" "" 2 (a +:+ rest)
          else String c (replace_scan "PMC" "" 0 (a +:+ rest))).
  change (has_char "P" (String c a))
    with (bool_decide (c = "P"%char) || has_char "P" a) in H.
  apply orb_false_elim in H as [Hc H].
  apply bool_decide_eq_false in Hc.
  assert (String.prefix "PMC" (String c (a +:+ rest)) = false) as ->.
  { rewrite prefix_cons.
    destruct (Ascii.ascii_dec "P" c) as [<-|_]; [done|reflexivity]. }
  by rewrite IH.
Qed.

Lemma replace_scan_PMC rest :
  replace_scan "PMC" "" 0 ("PMC" +:+ rest) = replace_scan "PMC" "" 0 rest.
Proof. by destruct rest. Qed.

Lemma prefix_PMC rest : String.prefix "PMC" ("PMC" +:+ rest) = true.
Proof. by destruct rest. Qed.

(** X15.  The link of a PMCID cell: the empty cell gives the empty text;
    "PMC" followed by an id without the letter P, digits for one, gives the
    link to the PubMed page of that id with the whole cell as its text; a
    cell that does not start with "PMC" gives the link to the page of the
    cell as it is.  The id is the cell without every "PMC" in it, not only
    the one in front. *)
Theorem pmcid_link :
  create_clickable_pmcid "" = ""
  ∧ (∀ d, has_char "P" d = false →
       create_clickable_pmcid ("PMC" +:+ d) = pubmed_link d ("PMC" +:+ d))
  ∧ (∀ cell, cell ≠ "" → String.prefix "PMC" cell = false →
       create_clickable_pmcid cell = pubmed_link cell cell)
  ∧ (∀ a b, has_char "P" a = false → has_char "P" b = false →
       create_clickable_pmcid ("PMC" +:+ a +:+ "PMC" +:+ b)
       = pubmed_link (a +:+ b) ("PMC" +:+ a +:+ "PMC" +:+ b)).
Proof.
  split; [reflexivity|]. split; [|split].
  - intros d Hd. unfold create_clickable_pmcid, pubmed_link, str_replace.
    rewrite bool_decide_eq_false_2 by done.
    rewrite prefix_PMC.
    by rewrite replace_scan_PMC, replace_scan_keeps.
  - intros cell Hne Hp. unfold create_clickable_pmcid, pubmed_link.
    by rewrite (bool_decide_eq_false_2 _ Hne), Hp.
  - intros a b Ha Hb. unfold create_clickable_pmcid, pubmed_link, str_replace.
    rewrite bool_decide_eq_false_2 by done.
    rewrite prefix_PMC.
    by rewrite replace_scan_PMC, replace_scan_app, replace_scan_PMC,
      replace_scan_keeps.
Qed.

Lemma pmcid_link_witness :
  has_char "P" "7654321" = false
  ∧ create_clickable_pmcid "PMC7654321"
    = pubmed_link "7654321" "PMC7654321"
  ∧ create_clickable_pmcid "31415" = pubmed_link "31415" "31415".
Proof.
  destruct pmcid_link as (_ & Hpmc & Hplain & _).
  split; [reflexivity|]. split.
  - apply (Hpmc "7654321"). reflexivity.
  - apply Hplain; [discriminate|reflexivity].
Defined.

End LinkLaws.

(** ** The highlighted abstract *)

Module HighlightLaws.
Import Text TextSpec TextFacts SplitterClaims Vocabulary Laws Highlight.

Lemma lower_char_space c : isspace (lower_char c) = isspace c.
Proof. destruct c as [[] [] [] [] [] [] [] []]; reflexivity. Qed.

Lemma lower_char_terminal c : is_terminal (lower_char c) = is_terminal c.
Proof. destruct c as [[] [] [] [] [] [] [] []]; reflexivity. Qed.

Lemma lower_boundary s : has_boundary (lower s) = has_boundary s.
Proof.
  induction s as [|c s IH]; [reflexivity|].
  destruct s as [|d s']; [reflexivity|].
  change (has_boundary (lower (String c (String d s'))))
    with ((is_terminal (lower_char c) && isspace (lower_char d))
          || has_boundary (lower (String d s'))).
  change (has_boundary (String c (String d s')))
    with ((is_terminal c && isspace d) || has_boundary (String d s')).
  by rewrite IH, lower_char_space, lower_char_terminal.
Qed.

Lemma lower_starts_space s : starts_space (lower s) = starts_space s.
Proof. destruct s; [reflexivity|]. apply lower_char_space. Qed.

Lemma lower_last_char s : last_char (lower s) = lower_char <$> last_char s.
Proof.
  induction s as [|c s IH]; [reflexivity|]. simpl. rewrite IH.
  by destruct (last_char s).
Qed.

Lemma lower_ends_space s : ends_space (lower s) = ends_space s.
Proof.
  unfold ends_space. rewrite lower_last_char.
  destruct (last_char s); [apply lower_char_space|reflexivity].
Qed.

Lemma lower_empty s : lower s = "" → s = "".
Proof. by destruct s. Qed.

(** The sentences of an abstract, as the splitter leaves them. *)
Lemma sentence_shape a s :
  s ∈ abstract_sentences a →
  s ≠ "" ∧ starts_space s = false ∧ ends_space s = false
  ∧ has_boundary s = false.
Proof.
  intros (piece & Hin & Hne & ->)%abstract_sentences_spec.
  destruct (strip_trimmed piece) as [Hl Hr].
  repeat split; try done.
  eapply has_boundary_strip, split_scan_pieces, Hin.
Qed.

(** X16.  How a sentence of the abstract is shown.  A sentence in the used
    set of either axis is bold, whatever the original reasons are.  An
    original reason that is empty, that begins or ends with whitespace, or
    that holds a terminal character followed by whitespace, as every reason
    of two sentences does, colours no sentence of any abstract: a sentence
    that is not used is then shown as if there were no such reason, green
    when it is the other original reason up to case and plain otherwise. *)
Theorem highlight_rules (hnh_used type_used : gset string)
    (original_hnh_reason original_type_reason : string) :
  (∀ sentence, sentence ∈ hnh_used ∨ sentence ∈ type_used →
     highlight_sentence hnh_used type_used original_hnh_reason
       original_type_reason sentence
     = "**" +:+ sentence +:+ ".** ")
  ∧ (∀ a sentence,
       sentence ∈ abstract_sentences a →
       original_hnh_reason = "" ∨ starts_space original_hnh_reason = true
       ∨ ends_space original_hnh_reason = true
       ∨ has_boundary original_hnh_reason = true →
       lower sentence ≠ lower original_hnh_reason
       ∧ (sentence ∉ hnh_used → sentence ∉ type_used →
          highlight_sentence hnh_used type_used original_hnh_reason
            original_type_reason sentence
          = if bool_decide (lower sentence = lower original_type_reason)
            then "<span style=" +:+ Links.dq +:+ "color:green;" +:+ Links.dq
                 +:+ ">" +:+ sentence +:+ ".</span> "
            else sentence +:+ ". ")).
Proof.
  split.
  - intros sentence Hin. unfold highlight_sentence.
    destruct Hin as [Hin|Hin].
    + by rewrite (bool_decide_eq_true_2 _ Hin).
    + by rewrite (bool_decide_eq_true_2 _ Hin), orb_true_r.
  - intros a sentence Hs Hbad.
    destruct (sentence_shape a sentence Hs) as (Hne & Hl & Hr & Hb).
    assert (Hdiff : lower sentence ≠ lower original_hnh_reason).
    { intros Heq. destruct Hbad as [->|[H|[H|H]]].
      - by apply lower_empty in Heq.
      - rewrite <- lower_starts_space, <- Heq, lower_starts_space in H.
        congruence.
      - rewrite <- lower_ends_space, <- Heq, lower_ends_space in H.
        congruence.
      - rewrite <- lower_boundary, <- Heq, lower_boundary in H. congruence. }
    split; [exact Hdiff|]. intros Hh Ht. unfold highlight_sentence.
    by rewrite (bool_decide_eq_false_2 _ Hh), (bool_decide_eq_false_2 _ Ht),
      (bool_decide_eq_false_2 _ Hdiff).
Qed.

Lemma highlight_rules_witness :
  let a := "Soil was sampled. Microbes were sequenced." in
  let reason := "Soil was sampled. Microbes were sequenced." in
  "Soil was sampled." ∈ abstract_sentences a
  ∧ has_boundary reason = true
  ∧ highlight_sentence ∅ ∅ reason "" "Soil was sampled."
    = "Soil was sampled.. ".
Proof.
  intros a reason.
  assert (Hin : "Soil was sampled." ∈ abstract_sentences a)
    by (vm_compute; left).
  destruct (highlight_rules ∅ ∅ reason "") as [_ H].
  destruct (H a "Soil was sampled." Hin) as [_ Hshow];
    [do 3 right; reflexivity|].
  split; [exact Hin|]. split; [reflexivity|].
  rewrite Hshow; [reflexivity| |]; apply not_elem_of_empty.
Defined.

End HighlightLaws.

(** ** The records left *)

Module ProgressViewLaws.
Import Vocabulary Laws ProgressView.

Lemma length_filter_fmap {A B} (f : A → B) (P : B → Prop)
    `{!∀ y, Decision (P y)} (l : list A) :
  length (filter (λ x, P (f x)) l) = length (filter P (f <$> l)).
Proof.
  induction l as [|x l IH]; [reflexivity|].
  rewrite fmap_cons, !filter_cons. by destruct (decide (P (f x))); simpl; rewrite IH.
Qed.

Lemma length_filter_split {A} (P : A → Prop) `{!∀ x, Decision (P x)}
    (l : list A) :
  (length (filter P l) + length (filter (λ x, ¬ P x) l) = length l)%nat.
Proof.
  induction l as [|x l IH]; [reflexivity|].
  rewrite !filter_cons.
  destruct (decide (P x)), (decide (¬ P x)); simpl; try tauto; lia.
Qed.

Lemma size_of_known (V : gset string) (l : list string) :
  NoDup l → V ⊆ list_to_set l → size V = length (filter (λ x, x ∈ V) l).
Proof.
  intros Hnd Hsub.
  assert (HV : V = list_to_set (filter (λ x, x ∈ V) l)).
  { apply set_eq. intros x.
    rewrite elem_of_list_to_set, list_elem_of_filter. split; [|tauto].
    intros Hx. split; [exact Hx|].
    apply (elem_of_list_to_set (C:=gset string)), Hsub, Hx. }
  replace (size V)
    with (size (list_to_set (C:=gset string) (filter (λ x, x ∈ V) l)))
    by (f_equal; symmetry; exact HV).
  apply size_list_to_set, NoDup_filter, Hnd.
Qed.

(** X17.  The list of the records left and the Remaining count.  For a
    dataset with a PMID column, a PMID cell in every row and no PMID twice,
    and a ledger whose PMIDs are PMIDs of the dataset: the list has the
    columns of the dataset and exactly its rows whose PMID is not in the
    ledger, and as many rows as the Remaining count says; so it has a row
    exactly when that count is positive. *)
Theorem remaining_list_matches_count (full_df : DataFrame)
    (validated_pmids : gset string) (j : nat) :
  index_of "PMID" (columns full_df) = Some j →
  Forall (λ row, (j < length row)%nat) (values full_df) →
  NoDup (pending_pmids full_df) →
  validated_pmids ⊆ dataset_pmids full_df →
  ∃ df, remaining_records full_df validated_pmids = Some df
    ∧ columns df = columns full_df
    ∧ (∀ row, row ∈ values df
              ↔ row ∈ values full_df ∧ cell row j ∉ validated_pmids)
    ∧ Z.of_nat (len df) = (progress_counts full_df validated_pmids).2
    ∧ (values df ≠ [] ↔ 0 < (progress_counts full_df validated_pmids).2).
Proof.
  intros Hj _ Hnd Hsub.
  unfold remaining_records, without_pmids. rewrite Hj. simpl.
  eexists. split; [reflexivity|]. split; [reflexivity|]. simpl.
  split; [intros row; rewrite list_elem_of_filter; tauto|].
  unfold dataset_pmids, pending_pmids in *. rewrite Hj in *.
  set (rows := values full_df) in *.
  pose proof (size_of_known validated_pmids _ Hnd Hsub) as Hsize.
  rewrite <- (length_filter_fmap (λ row, cell row j) (λ x, x ∈ validated_pmids))
    in Hsize.
  pose proof (length_filter_split (λ row, cell row j ∈ validated_pmids) rows)
    as Hsplit.
  cbv beta in Hsplit. unfold len, progress_counts. simpl. fold rows.
  change (filter (λ x : list string, cell x j ∉ validated_pmids) rows)
    with (filter (λ x : list string, ¬ cell x j ∈ validated_pmids) rows).
  destruct (filter (λ x : list string, ¬ cell x j ∈ validated_pmids) rows)
    as [|row left]; simpl in *; (split; [lia|]); split; intros; try done; lia.
Qed.

Lemma remaining_list_matches_count_witness :
  let validated_pmids : gset string := {["101"]} in
  index_of "PMID" (columns (from_values Examples.dataset)) = Some 0%nat
  ∧ ∃ df, remaining_records (from_values Examples.dataset) validated_pmids
          = Some df
        ∧ Z.of_nat (len df) = 1.
Proof.
  intros validated_pmids.
  assert (Hj : index_of "PMID" (columns (from_values Examples.dataset))
               = Some 0%nat) by reflexivity.
  split; [exact Hj|].
  destruct (remaining_list_matches_count (from_values Examples.dataset)
              validated_pmids 0 Hj) as (df & Hdf & _ & _ & Hlen & _).
  - repeat constructor.
  - apply (bool_decide_unpack _). vm_compute. reflexivity.
  - apply (bool_decide_unpack _). vm_compute. reflexivity.
  - exists df. split; [exact Hdf|]. rewrite Hlen. reflexivity.
Defined.

End ProgressViewLaws.

(** * One run of the page, step by step *)

(** ** Session properties along a run *)

Module RunFacts.
Import Vocabulary Laws WriterFacts NavigationClaims WorkflowClaims
  WorkflowLaws CursorLaws.

Lemma hoare_bind P R Q {A B} (m : M A) (k : A → M B) :
  hoare P m R → (∀ s, R s → Q s) → (∀ a, hoare R (k a) Q) →
  hoare P (m ≫= k) Q.
Proof.
  intros Hm HRQ Hk w r w' Hw. unfold mbind, M_bind.
  destruct (m w) as [[a|e] w1] eqn:E.
  - intros Hk'. eapply Hk; [|exact Hk']. by eapply Hm.
  - intros [= <- <-]. apply HRQ. by eapply Hm.
Qed.

Lemma hoare_weaken P Q {A} (m : M A) :
  preserves P m → (∀ s, P s → Q s) → hoare P m Q.
Proof. intros Hm HPQ w r w' Hw E. apply HPQ. by eapply Hm. Qed.

Lemma hoare_when P Q b m :
  (∀ s, P s → Q s) → (b = true → hoare P m Q) → hoare P (when b m) Q.
Proof.
  intros HPQ Hm. destruct b; [by apply Hm|].
  intros w r w' Hw [= <- <-]. by apply HPQ.
Qed.

Lemma preserves_ret P {A} (a : A) : preserves P (mret a).
Proof. by intros w r w' Hw [= <- <-]. Qed.

Lemma preserves_raise P {A} e : preserves P (@raise A e).
Proof. by intros w r w' Hw [= <- <-]. Qed.

Lemma preserves_bind P {A B} (m : M A) (k : A → M B) :
  preserves P m → (∀ a, preserves P (k a)) → preserves P (m ≫= k).
Proof. intros Hm Hk. by apply (hoare_bind P P P). Qed.

Lemma preserves_when P b m :
  (b = true → preserves P m) → preserves P (when b m).
Proof. intros Hm. by apply hoare_when. Qed.

Lemma preserves_emit P o : preserves P (emit o).
Proof. by intros w r w' Hw [= <- <-]. Qed.

Lemma preserves_get_session P : preserves P get_session.
Proof. by intros w r w' Hw [= <- <-]. Qed.

Lemma preserves_modify P f :
  (∀ s, P s → P (f s)) → preserves P (modify_session f).
Proof. intros Hf w r w' Hw [= <- <-]. by apply Hf. Qed.

(** A computation that leaves the session state alone. *)
Lemma preserves_same P {A} (m : M A) :
  (∀ w, session (m w).2 = session w) → preserves P m.
Proof.
  intros Hm w r w' Hw E. specialize (Hm w). rewrite E in Hm. simpl in Hm.
  by rewrite Hm.
Qed.

Lemma preserves_writer P f df name :
  preserves P (add_new_worksheet_and_write f df name).
Proof. apply preserves_same. intros w. apply writer_session. Qed.

Lemma preserves_load_data P fails : preserves P (load_data fails).
Proof.
  apply preserves_same. intros w. unfold load_data, Sheets.values_get. run.
  destruct fails; [done|]. by destruct (sheets w !! SHEET_NAME).
Qed.

Lemma preserves_get_validated_pmids P fails name :
  preserves P (get_validated_pmids fails name).
Proof.
  apply preserves_same. intros w.
  rewrite ProgressClaims.get_validated_pmids_eq. by repeat case_match.
Qed.

Ltac session_fact :=
  let s := fresh "s" in
  intros s; destruct s as [? ? [?|] [?|] [?|] [?|] [?|] ?];
  unfold at_record, at_record_or_cleared, no_draft, empty_draft, cleared,
    clamp_index;
  simpl; intuition (try done; try congruence).

Ltac preserves_step :=
  lazymatch goal with
  | |- preserves _ (mbind _ _) => apply preserves_bind; [|intros ?]
  | |- preserves _ (mret _) => apply preserves_ret
  | |- preserves _ (raise _) => apply preserves_raise
  | |- preserves _ st_rerun => apply preserves_raise
  | |- preserves _ (when _ _) =>
      apply preserves_when;
      let H := fresh in
      intros H; try (exfalso; by apply bool_decide_eq_true in H)
  | |- preserves _ (emit _) => apply preserves_emit
  | |- preserves _ (st_info _) => apply preserves_emit
  | |- preserves _ (st_success _) => apply preserves_emit
  | |- preserves _ (st_warning _) => apply preserves_emit
  | |- preserves _ (st_error _) => apply preserves_emit
  | |- preserves _ get_session => apply preserves_get_session
  | |- preserves _ (modify_session _) => apply preserves_modify; session_fact
  | |- preserves _ (add_new_worksheet_and_write _ _ _) =>
      apply preserves_writer
  | |- preserves _ (load_data _) => apply preserves_load_data
  | |- preserves _ (get_validated_pmids _ _) =>
      apply preserves_get_validated_pmids
  | |- preserves _ (match ?x with _ => _ end) => destruct x
  | |- preserves _ (let _ := _ in _) => cbv zeta
  end.

Lemma preserves_show_counts P full_df validated_pmids :
  preserves P (show_counts full_df validated_pmids).
Proof.
  unfold show_counts, progress_counts. cbv beta iota zeta.
  repeat preserves_step.
Qed.

Ltac preserves_run :=
  unfold review_record, record_page, nav_previous, nav_next, render_hnh,
    render_type, add_hnh_sentence, add_type_sentence, on_save, navigate,
    the_index;
  repeat first [apply preserves_show_counts | preserves_step].

Lemma preserves_result P {A} (m : M A) w :
  preserves P m → P (session w) → P (session (m w).2).
Proof. intros Hm Hw. destruct (m w) as [r w'] eqn:E. by eapply Hm. Qed.

(** ** The run as equations *)

Lemma bind_modify {B} f (k : unit → M B) w :
  (modify_session f ≫= k) w = k tt (with_session (f (session w)) w).
Proof. reflexivity. Qed.

Lemma bind_returned {A B} (m : M A) (k : A → M B) w a w' :
  m w = (Ret a, w') → (m ≫= k) w = k a w'.
Proof. intros E. unfold mbind, M_bind. by rewrite E. Qed.

(** A run with a reviewer and a dataset goes on to the record after the
    three tiles, with the session and the spreadsheet as they were. *)
Lemma main_eq inp w u data :
  user (session w) = Some u → load_fails inp = false →
  sheets w !! SHEET_NAME = Some data →
  Frame.empty (from_values data) = false →
  ∃ notices,
    main inp w
    = review_record inp u (from_values data) ("Validation_" +:+ u)
        (Z.of_nat (len (from_values data))) (say notices w).
Proof.
  intros Hu Hload Hdata Hne.
  unfold main, load_data, show_counts, progress_counts, Sheets.values_get.
  unfold mbind, M_bind, get_session, mret, M_ret, emit. simpl.
  rewrite Hu, Hload, Hdata. simpl. rewrite Hne.
  rewrite ProgressClaims.get_validated_pmids_eq.
  destruct (if progress_fails inp then None
            else sheets w !! ("Validation_" +:+ u)) as [g|]; simpl.
  - eexists [_; _; _]. unfold say. simpl. by rewrite <- !app_assoc.
  - eexists [_; _; _; _]. unfold say. simpl. by rewrite <- !app_assoc.
Qed.

Lemma frame_has_rows full_df :
  Frame.empty full_df = false → 0 < Z.of_nat (len full_df).
Proof.
  unfold Frame.empty. intros [_ Hv]%orb_false_elim.
  apply bool_decide_eq_false in Hv. unfold len.
  destruct (values full_df); [done|simpl; lia].
Qed.

Lemma current_record_some full_df index :
  0 ≤ index < Z.of_nat (len full_df) →
  is_Some (current_record full_df index).
Proof.
  intros H. unfold current_record, iloc.
  destruct (Z.leb_spec 0 index); [|lia].
  destruct (values full_df !! Z.to_nat index) eqn:E; [by eexists|].
  apply lookup_ge_None in E. unfold len in H. lia.
Qed.

(** The navigation buttons and the read of the current record. *)
Lemma review_record_eq inp u full_df name total w index :
  current_record_index (clamp_index total (session w)) = Some index →
  review_record inp u full_df name total w
  = if bool_decide (clicked inp = Previous) && negb (index =? 0) then
      (Raise RerunException,
       with_session
         (clear_record_state
            (set_current_record_index (Some (index - 1))
               (clamp_index total (session w)))) w)
    else if bool_decide (clicked inp = Next) && negb (total - 1 <=? index) then
      (Raise RerunException,
       with_session
         (clear_record_state
            (set_current_record_index (Some (index + 1))
               (clamp_index total (session w)))) w)
    else
      match current_record full_df index with
      | None =>
          (Raise IndexError, with_session (clamp_index total (session w)) w)
      | Some c =>
          record_page inp u full_df name total c
            (with_session (clamp_index total (session w)) w)
      end.
Proof.
  intros Hi. unfold review_record, record_page.
  rewrite bind_modify.
  set (w1 := with_session (clamp_index total (session w)) w).
  assert (Hi1 : current_record_index (session w1) = Some index) by exact Hi.
  assert (Hidx : ∀ w2, current_record_index (session w2) = Some index →
                       the_index w2 = (Ret index, w2)).
  { intros w2 H2. unfold the_index. run. by rewrite H2. }
  unfold nav_previous at 1.
  unfold mbind at 1, M_bind at 1. unfold mbind at 1, M_bind at 1.
  rewrite (Hidx w1 Hi1).
  destruct (bool_decide (clicked inp = Previous) && negb (index =? 0)).
  { reflexivity. }
  simpl when. unfold mret at 1, M_ret at 1.
  unfold nav_next at 1.
  unfold mbind at 1, M_bind at 1. unfold mbind at 1, M_bind at 1.
  rewrite (Hidx w1 Hi1).
  destruct (bool_decide (clicked inp = Next) && negb (total - 1 <=? index)).
  { reflexivity. }
  simpl when. unfold mret at 1, M_ret at 1.
  unfold mbind at 1, M_bind at 1. rewrite (Hidx w1 Hi1).
  by destruct (current_record full_df index).
Qed.

(** The save handler never returns: it raises or asks for a rerun. *)
Lemma on_save_then inp u c h t name total (k : unit → M unit) w :
  (on_save inp u c h t name total ≫= k) w = on_save inp u c h t name total w.
Proof.
  unfold mbind at 1, M_bind at 1. rewrite on_save_eq.
  destruct (add_new_worksheet_and_write _ _ _ w) as [[[]|e] w1]; simpl;
    [|reflexivity].
  by destruct (current_record_index (session w)).
Qed.

Lemma on_save_sheets inp u c h t name total w :
  sheets (on_save inp u c h t name total w).2
  = sheets (add_new_worksheet_and_write (save_faults inp)
              (from_record
                 (build_response u (now inp) c (hnh_action_radio inp)
                    (type_action_radio inp) h t (session w))) name w).2.
Proof.
  rewrite on_save_eq.
  destruct (add_new_worksheet_and_write _ _ _ w) as [[[]|e] w1]; simpl;
    [|reflexivity].
  by destruct (current_record_index (session w)).
Qed.

(** What the writer does to the spreadsheet depends on the spreadsheet
    only. *)
Lemma writer_sheets f df name w w0 :
  sheets w0 = sheets w →
  sheets (add_new_worksheet_and_write f df name w0).2
  = sheets (add_new_worksheet_and_write f df name w).2.
Proof.
  intros Hs. destruct (sheets w !! name) as [g|] eqn:Hg.
  - assert (Hg0 : sheets w0 !! name = Some g) by (by rewrite Hs).
    destruct (read_fails f) eqn:Hrf.
    + rewrite (writer_unrecognised f df name w g),
        (writer_unrecognised f df name w0 g); auto.
    + destruct (pmid_column g) as [idx|] eqn:Hcol.
      * rewrite (writer_recognised f df name w g idx),
          (writer_recognised f df name w0 g idx) by done.
        repeat case_match; simpl; by rewrite ?Hs.
      * rewrite (writer_unrecognised f df name w g),
          (writer_unrecognised f df name w0 g); auto.
  - assert (Hg0 : sheets w0 !! name = None) by (by rewrite Hs).
    rewrite !writer_absent by done.
    repeat case_match; simpl; by rewrite ?Hs.
Qed.

(** The run of a save, up to the call of the handler. *)
Lemma main_save inp w u data index c :
  user (session w) = Some u → load_fails inp = false →
  sheets w !! SHEET_NAME = Some data →
  Frame.empty (from_values data) = false →
  current_record_index
    (clamp_index (Z.of_nat (len (from_values data))) (session w))
  = Some index →
  current_record (from_values data) index = Some c →
  clicked inp = SaveAndNext →
  ∃ w4,
    main inp w
    = on_save inp u c (hnh_new_value inp c) (type_new_value inp c)
        ("Validation_" +:+ u) (Z.of_nat (len (from_values data))) w4
    ∧ sheets w4 = sheets w
    ∧ hnh_reason_text (session w4)
      = match hnh_action_radio inp with
        | KeepOriginal => None
        | ChangeClassification =>
            Some (default "" (hnh_reason_text (session w)))
        end
    ∧ type_reason_text (session w4)
      = match type_action_radio inp with
        | KeepOriginal => None
        | ChangeClassification =>
            Some (default "" (type_reason_text (session w)))
        end.
Proof.
  intros Hu Hload Hdata Hne Hi Hrec Hc.
  destruct (main_eq inp w u data Hu Hload Hdata Hne) as [notices ->].
  rewrite (review_record_eq _ _ _ _ _ _ index) by exact Hi.
  rewrite Hc, Hrec.
  rewrite !(bool_decide_eq_false_2 (SaveAndNext = _)) by done. simpl andb.
  cbv iota. unfold record_page. rewrite bind_modify.
  unfold hnh_new_value, type_new_value.
  assert (H1 : clicked inp ≠ AddHnhSentence) by (by rewrite Hc).
  assert (H2 : clicked inp ≠ AddTypeSentence) by (by rewrite Hc).
  destruct (hnh_action_radio inp) eqn:Ha, (type_action_radio inp) eqn:Hb.
  - erewrite bind_returned by (by apply render_hnh_keep).
    erewrite bind_returned by (by apply render_type_keep).
    rewrite Hc, bool_decide_eq_true_2 by done.
    change (when true ?m) with m. rewrite on_save_then.
    eexists. split; [reflexivity|]. simpl.
    destruct (session w) as [? ? [?|] [?|] [?|] [?|] [?|] ?]; done.
  - erewrite bind_returned by (by apply render_hnh_keep).
    erewrite bind_returned by (by apply render_type_change).
    rewrite Hc, bool_decide_eq_true_2 by done.
    change (when true ?m) with m. rewrite on_save_then.
    eexists. split; [reflexivity|]. simpl.
    destruct (session w) as [? ? [?|] [?|] [?|] [?|] [?|] ?]; done.
  - erewrite bind_returned by (by apply render_hnh_change).
    erewrite bind_returned by (by apply render_type_keep).
    rewrite Hc, bool_decide_eq_true_2 by done.
    change (when true ?m) with m. rewrite on_save_then.
    eexists. split; [reflexivity|]. simpl.
    destruct (session w) as [? ? [?|] [?|] [?|] [?|] [?|] ?];
      case_bool_decide; done.
  - erewrite bind_returned by (by apply render_hnh_change).
    erewrite bind_returned by (by apply render_type_change).
    rewrite Hc, bool_decide_eq_true_2 by done.
    change (when true ?m) with m. rewrite on_save_then.
    eexists. split; [reflexivity|]. simpl.
    destruct (session w) as [? ? [?|] [?|] [?|] [?|] [?|] ?];
      case_bool_decide; done.
Qed.

(** No run sets the key of the jump: it stays absent. *)
Lemma main_with_login_no_jump checkpw file lin inp :
  preserves (λ s, navigate_to_pmid s = None)
    (Users.main_with_login checkpw file lin inp).
Proof.
  unfold Users.main_with_login, Users.login, main. preserves_run.
Qed.

(** With no jump asked for, the part of the run after the read of the
    record leaves the cursor where it is, or the drafts cleared. *)
Lemma record_page_moves inp u full_df name total c index :
  hoare (at_record index) (record_page inp u full_df name total c)
    (at_record_or_cleared index).
Proof.
  assert (Hweak : ∀ s, at_record index s → at_record_or_cleared index s).
  { intros s [Hi Hn]. split; [exact Hn|by left]. }
  unfold record_page.
  apply (hoare_bind _ (at_record index)); [|exact Hweak|intros _].
  { change (preserves (at_record index) (modify_session init_used_sentences)).
    preserves_step. }
  apply (hoare_bind _ (at_record index)); [|exact Hweak|intros hnh_new].
  { change (preserves (at_record index) (render_hnh inp c)). preserves_run. }
  apply (hoare_bind _ (at_record index)); [|exact Hweak|intros type_new].
  { change (preserves (at_record index) (render_type inp c)). preserves_run. }
  apply (hoare_bind _ (at_record_or_cleared index)); [|done|intros _].
  - apply hoare_when; [exact Hweak|intros _].
    intros w r w' [Hi Hn]. rewrite on_save_eq.
    pose proof (writer_session (save_faults inp)
      (from_record (build_response u (now inp) c (hnh_action_radio inp)
         (type_action_radio inp) hnh_new type_new (session w))) name w) as Hs.
    destruct (add_new_worksheet_and_write _ _ _ w) as [[[]|e] w1]; simpl in *.
    + rewrite Hi. intros [= <- <-]. split; [exact Hn|right].
      apply clear_record_state_cleared.
    + intros [= <- <-]. rewrite Hs. by apply Hweak.
  - intros w r w' [Hn Hq]. unfold navigate. run. rewrite Hn.
    by intros [= <- <-].
Qed.

End RunFacts.

(** ** Navigation and the save, over a run of the page *)

Module RunClaims.
Import Vocabulary Laws WriterFacts NavigationClaims WorkflowClaims
  CursorLaws RunFacts.

(** C2.  The key of the jump, [navigate_to_pmid], is written by the program
    with nothing but [None] and belongs to no widget: a run of [main] from
    its first line, login form included, that starts without a jump asked
    for ends without one, whatever the inputs and the spreadsheet.  So the
    program is never in a state with a jump asked for, and the jump of
    lines 471-482 is never taken.  In a state without one, with a reviewer
    logged in and a dataset loaded whose rows are as long as its header,
    and whatever drafts, used sets and subcategories the session holds: a
    click on Previous away from the first record, and one on Next away from
    the last, end the run in a rerun with the cursor moved by one and the
    two drafts, the two used sets and the subcategory selection cleared;
    and every run that ends with the cursor off the record the bounds check
    of lines 220-227 put it on ends with all of them cleared. *)
Theorem navigation_clears (inp : Inputs) (w : World) (u : string)
    (data : grid) (index : Z) :
  user (session w) = Some u → load_fails inp = false →
  sheets w !! SHEET_NAME = Some data → rectangular data →
  Frame.empty (from_values data) = false →
  navigate_to_pmid (session w) = None →
  let total := Z.of_nat (len (from_values data)) in
  current_record_index (clamp_index total (session w)) = Some index →
  let out := main inp w in
  (clicked inp = Previous → index ≠ 0 →
   out.1 = Raise RerunException
   ∧ current_record_index (session out.2) = Some (index - 1)
   ∧ cleared (session out.2))
  ∧ (clicked inp = Next → index < total - 1 →
     out.1 = Raise RerunException
     ∧ current_record_index (session out.2) = Some (index + 1)
     ∧ cleared (session out.2))
  ∧ (current_record_index (session out.2) ≠ Some index →
     cleared (session out.2))
  ∧ navigate_to_pmid (session out.2) = None
  ∧ (∀ checkpw file lin inp0 w0,
       navigate_to_pmid (session w0) = None →
       navigate_to_pmid
         (session (Users.main_with_login checkpw file lin inp0 w0).2) = None).
Proof.
  intros Hu Hload Hdata _ Hne Hn total Hi out.
  destruct (main_eq inp w u data Hu Hload Hdata Hne) as [notices Hmain].
  unfold out. rewrite Hmain.
  rewrite (review_record_eq _ _ _ _ _ _ index) by exact Hi.
  fold total. change (session (say notices w)) with (session w).
  assert (Hn1 : navigate_to_pmid (clamp_index total (session w)) = None).
  { revert Hn. by destruct (session w). }
  assert (Hq : at_record_or_cleared index
                 (session
                    (if bool_decide (clicked inp = Previous)
                        && negb (index =? 0)
                     then
                       (Raise RerunException,
                        with_session
                          (clear_record_state
                             (set_current_record_index (Some (index - 1))
                                (clamp_index total (session w))))
                          (say notices w))
                     else if bool_decide (clicked inp = Next)
                             && negb (total - 1 <=? index)
                     then
                       (Raise RerunException,
                        with_session
                          (clear_record_state
                             (set_current_record_index (Some (index + 1))
                                (clamp_index total (session w))))
                          (say notices w))
                     else
                       match current_record (from_values data) index with
                       | Some c =>
                           record_page inp u (from_values data)
                             ("Validation_" +:+ u) total c
                             (with_session (clamp_index total (session w))
                                (say notices w))
                       | None =>
                           (@Raise unit IndexError,
                            with_session (clamp_index total (session w))
                              (say notices w))
                       end).2)).
  { repeat case_match; simpl;
      try (split; [exact Hn1|right; apply clear_record_state_cleared]);
      try (split; [exact Hn1|by left]).
    match goal with
    | |- context [record_page ?i ?v ?d ?n ?t ?c ?w1] =>
        destruct (record_page i v d n t c w1) as [r w'] eqn:E;
        apply (record_page_moves i v d n t c index) in E
    end; [exact E|by split]. }
  split; [|split; [|split; [|split]]].
  - intros Hc H0. rewrite Hc, bool_decide_eq_true_2 by done.
    destruct (Z.eqb_spec index 0); [done|]. simpl.
    split; [done|]. split; [done|]. apply clear_record_state_cleared.
  - intros Hc Hlt.
    rewrite Hc, (bool_decide_eq_false_2 (Next = Previous)) by done.
    rewrite bool_decide_eq_true_2 by done.
    destruct (Z.leb_spec (total - 1) index); [lia|]. simpl.
    split; [done|]. split; [done|]. apply clear_record_state_cleared.
  - intros Hmoved. destruct Hq as [_ [Hsame|Hcl]]; [|exact Hcl].
    by destruct Hmoved.
  - apply Hq.
  - intros checkpw file lin inp0 w0 H0.
    exact (preserves_result (λ s, navigate_to_pmid s = None) _ w0
             (main_with_login_no_jump checkpw file lin inp0) H0).
Qed.

Lemma navigation_clears_witness :
  let w := Examples.world Examples.drafting_session None in
  let inp := Examples.inputs Next ChangeClassification ChangeClassification
               no_faults in
  hnh_reason_text (session w) = Some "Soil was sampled."
  ∧ navigate_to_pmid (session w) = None
  ∧ rectangular Examples.dataset
  ∧ current_record_index (session (main inp w).2) = Some 1
  ∧ cleared (session (main inp w).2).
Proof.
  intros w inp.
  assert (Hrect : rectangular Examples.dataset) by repeat constructor.
  destruct (navigation_clears inp w "ann" Examples.dataset 0 eq_refl eq_refl
              eq_refl Hrect eq_refl eq_refl eq_refl) as (_ & Hnext & _).
  destruct Hnext as (_ & Hi & Hcl); [reflexivity|reflexivity|].
  split; [reflexivity|]. split; [reflexivity|].
  split; [exact Hrect|]. split; [exact Hi|exact Hcl].
Defined.


(** The ledger after a save into a worksheet that was not there, when
    nothing fails: the keys of the judgment and its values. *)
Lemma first_judgment_written f response name w :
  sheets w !! name = None →
  add_sheet_fails f = false → update_fails f = false →
  sheets (add_new_worksheet_and_write f (from_record response) name w).2
    !! name = Some [response.*1; response.*2].
Proof.
  intros Hno Ha Hu. rewrite writer_absent by done. rewrite Ha, Hu. simpl.
  apply lookup_insert_eq.
Qed.

(** C4.  A run of [main] in which Save and Next was clicked, with a
    reviewer logged in and a dataset loaded whose rows are as long as its
    header, leaves the spreadsheet as the writer leaves it when called with
    one judgment, the row that [build_response] makes for the record under
    the cursor; into a worksheet that was not there, when nothing fails,
    that row and its keys are what the worksheet then holds.  When the
    action of the Human/Non-Human axis is Keep Original, that judgment has
    the original class of the record as [hnh_new_classification] and its
    original reason as [hnh_new_reason], whatever draft, used sentences or
    other state the session held when the run began.  The same holds for
    the dataset type axis with [type_new_classification] and
    [type_new_reason]. *)
Theorem keep_original_judgment (inp : Inputs) (w : World) (u : string)
    (data : grid) (index : Z) (c : Current) :
  user (session w) = Some u → load_fails inp = false →
  sheets w !! SHEET_NAME = Some data → rectangular data →
  Frame.empty (from_values data) = false →
  current_record_index
    (clamp_index (Z.of_nat (len (from_values data))) (session w))
  = Some index →
  current_record (from_values data) index = Some c →
  clicked inp = SaveAndNext →
  ∃ hnh_new type_new s,
    let response :=
      build_response u (now inp) c (hnh_action_radio inp)
        (type_action_radio inp) hnh_new type_new s in
    let name := "Validation_" +:+ u in
    sheets (main inp w).2
    = sheets (add_new_worksheet_and_write (save_faults inp)
                (from_record response) name w).2
    ∧ (sheets w !! name = None →
       add_sheet_fails (save_faults inp) = false →
       update_fails (save_faults inp) = false →
       sheets (main inp w).2 !! name = Some [response.*1; response.*2])
    ∧ dict_get "PMID" response = Some (PMID c)
    ∧ (hnh_action_radio inp = KeepOriginal →
       dict_get "hnh_action" response = Some "Keep Original"
       ∧ dict_get "hnh_new_classification" response
         = Some (original_hnh_class c)
       ∧ dict_get "hnh_new_reason" response = Some (original_hnh_reason c))
    ∧ (type_action_radio inp = KeepOriginal →
       dict_get "type_action" response = Some "Keep Original"
       ∧ dict_get "type_new_classification" response
         = Some (original_type c)
       ∧ dict_get "type_new_reason" response
         = Some (original_type_reason c)).
Proof.
  intros Hu Hload Hdata _ Hne Hi Hrec Hc.
  destruct (main_save inp w u data index c Hu Hload Hdata Hne Hi Hrec Hc)
    as (w4 & Hmain & Hsh & _ & _).
  exists (hnh_new_value inp c), (type_new_value inp c), (session w4).
  intros response name.
  assert (Hsheets : sheets (main inp w).2
                    = sheets (add_new_worksheet_and_write (save_faults inp)
                                (from_record response) name w).2).
  { rewrite Hmain, on_save_sheets. by apply writer_sheets. }
  split; [exact Hsheets|]. split; [|split; [reflexivity|split]].
  - intros Hno Ha Hupd. rewrite Hsheets.
    by apply first_judgment_written.
  - intros Ha. unfold response, hnh_new_value. rewrite Ha.
    repeat split; reflexivity.
  - intros Hb. unfold response, type_new_value. rewrite Hb.
    repeat split; reflexivity.
Qed.

Lemma keep_original_judgment_witness :
  let stale := set_hnh_reason_text (Some "stale draft")
                 (set_type_reason_text (Some "old") Examples.drafting_session) in
  let w := Examples.world stale None in
  let inp := Examples.inputs SaveAndNext KeepOriginal KeepOriginal no_faults in
  hnh_reason_text (session w) = Some "stale draft"
  ∧ rectangular Examples.dataset
  ∧ current_record (from_values Examples.dataset) 0
    = Some Examples.record_101
  ∧ ∃ response,
      sheets (main inp w).2 !! "Validation_ann"
      = Some [response.*1; response.*2]
      ∧ dict_get "PMID" response = Some "101"
      ∧ dict_get "hnh_new_classification" response = Some "Non-Human"
      ∧ dict_get "hnh_new_reason" response = Some "Soil was sampled."
      ∧ dict_get "type_new_classification" response = Some "Original"
      ∧ dict_get "type_new_reason" response = Some "Microbes were sequenced.".
Proof.
  intros stale w inp.
  assert (Hrect : rectangular Examples.dataset) by repeat constructor.
  destruct (keep_original_judgment inp w "ann" Examples.dataset 0
              Examples.record_101 eq_refl eq_refl eq_refl Hrect eq_refl
              eq_refl eq_refl eq_refl)
    as (hnh_new & type_new & s & _ & Hrow & Hpmid & Hhnh & Htype).
  destruct (Hhnh eq_refl) as (_ & Hh1 & Hh2).
  destruct (Htype eq_refl) as (_ & Ht1 & Ht2).
  split; [reflexivity|]. split; [exact Hrect|]. split; [reflexivity|].
  eexists. split; [apply Hrow; vm_compute; reflexivity|].
  split; [exact Hpmid|]. split; [exact Hh1|]. split; [exact Hh2|].
  split; [exact Ht1|exact Ht2].
Defined.

End RunClaims.

(** ** The drafts over a run of the page *)

Module RunLaws.
Import Vocabulary Laws WriterFacts NavigationClaims WorkflowClaims
  WorkflowLaws CursorLaws RunFacts.

(** X9.  A run of [main] in which Save and Next was clicked, with a
    reviewer logged in and a dataset loaded whose rows are as long as its
    header, leaves the spreadsheet as the writer leaves it when called with
    one judgment for the record under the cursor.  For an axis on Change
    Classification that judgment has the action "Change Classification",
    the option chosen in the select box as the new value, and as the new
    reason the draft that the session held for the axis when the run
    began, the empty text when it held none: the original reason of the
    record is not what is saved. *)
Theorem change_saves_the_draft (inp : Inputs) (w : World) (u : string)
    (data : grid) (index : Z) (c : Current) :
  user (session w) = Some u → load_fails inp = false →
  sheets w !! SHEET_NAME = Some data → rectangular data →
  Frame.empty (from_values data) = false →
  current_record_index
    (clamp_index (Z.of_nat (len (from_values data))) (session w))
  = Some index →
  current_record (from_values data) index = Some c →
  clicked inp = SaveAndNext →
  ∃ hnh_new type_new s,
    let response :=
      build_response u (now inp) c (hnh_action_radio inp)
        (type_action_radio inp) hnh_new type_new s in
    let name := "Validation_" +:+ u in
    sheets (main inp w).2
    = sheets (add_new_worksheet_and_write (save_faults inp)
                (from_record response) name w).2
    ∧ (hnh_action_radio inp = ChangeClassification →
       dict_get "hnh_action" response = Some "Change Classification"
       ∧ dict_get "hnh_new_classification" response
         = Some (hnh_label (hnh_new_class inp))
       ∧ dict_get "hnh_new_reason" response
         = Some (default "" (hnh_reason_text (session w))))
    ∧ (type_action_radio inp = ChangeClassification →
       dict_get "type_action" response = Some "Change Classification"
       ∧ dict_get "type_new_classification" response
         = Some (type_label (type_new_class inp))
       ∧ dict_get "type_new_reason" response
         = Some (default "" (type_reason_text (session w)))).
Proof.
  intros Hu Hload Hdata _ Hne Hi Hrec Hc.
  destruct (main_save inp w u data index c Hu Hload Hdata Hne Hi Hrec Hc)
    as (w4 & Hmain & Hsh & Hhr & Htr).
  exists (hnh_new_value inp c), (type_new_value inp c), (session w4).
  intros response name. split; [|split].
  - rewrite Hmain, on_save_sheets. by apply writer_sheets.
  - intros Ha. unfold response, hnh_new_value, build_response.
    rewrite Ha in *. rewrite Hhr. repeat split; reflexivity.
  - intros Hb. unfold response, type_new_value, build_response.
    rewrite Hb in *. rewrite Htr. repeat split; reflexivity.
Qed.

Lemma change_saves_the_draft_witness :
  let w := Examples.world
             (set_hnh_reason_text (Some "Microbes were sequenced.")
                Examples.drafting_session) None in
  let inp := Examples.inputs SaveAndNext ChangeClassification KeepOriginal
               no_faults in
  rectangular Examples.dataset
  ∧ current_record (from_values Examples.dataset) 0
    = Some Examples.record_101
  ∧ ∃ response,
      sheets (main inp w).2
      = sheets (add_new_worksheet_and_write no_faults (from_record response)
                  "Validation_ann" w).2
      ∧ dict_get "hnh_new_classification" response = Some "Non-Human"
      ∧ dict_get "hnh_new_reason" response = Some "Microbes were sequenced.".
Proof.
  intros w inp.
  assert (Hrect : rectangular Examples.dataset) by repeat constructor.
  destruct (change_saves_the_draft inp w "ann" Examples.dataset 0
              Examples.record_101 eq_refl eq_refl eq_refl Hrect eq_refl
              eq_refl eq_refl eq_refl)
    as (hnh_new & type_new & s & Hsheets & Hhnh & _).
  destruct (Hhnh eq_refl) as (_ & Hh1 & Hh2).
  split; [exact Hrect|]. split; [reflexivity|].
  eexists. split; [exact Hsheets|]. split; [exact Hh1|exact Hh2].
Defined.

Lemma page_of_record inp w u data :
  user (session w) = Some u → load_fails inp = false →
  sheets w !! SHEET_NAME = Some data →
  Frame.empty (from_values data) = false →
  ∃ notices index c,
    let total := Z.of_nat (len (from_values data)) in
    let s1 := clamp_index total (session w) in
    current_record_index s1 = Some index
    ∧ main inp w
      = if bool_decide (clicked inp = Previous) && negb (index =? 0) then
          (Raise RerunException,
           with_session
             (clear_record_state
                (set_current_record_index (Some (index - 1)) s1))
             (say notices w))
        else if bool_decide (clicked inp = Next)
                && negb (total - 1 <=? index) then
          (Raise RerunException,
           with_session
             (clear_record_state
                (set_current_record_index (Some (index + 1)) s1))
             (say notices w))
        else
          record_page inp u (from_values data) ("Validation_" +:+ u) total c
            (with_session s1 (say notices w)).
Proof.
  intros Hu Hload Hdata Hne.
  destruct (main_eq inp w u data Hu Hload Hdata Hne) as [notices Hmain].
  pose proof (frame_has_rows _ Hne) as Hlen.
  destruct (clamp_index_ok (Z.of_nat (len (from_values data))) (session w)
              Hlen) as (index & Hi & Hrange).
  destruct (current_record_some (from_values data) index Hrange) as [c Hc].
  exists notices, index, c. intros total s1. split; [exact Hi|].
  rewrite Hmain, (review_record_eq _ _ _ _ _ _ index) by exact Hi.
  by rewrite Hc.
Qed.

(** X10.  A draft does not outlive a run with Keep Original.  After a run
    of [main] with a reviewer logged in and a dataset loaded whose rows are
    as long as its header, whatever was clicked: an axis on Keep Original
    has no draft and no used set in the session, for the dataset type axis
    unless the run stopped at the button that adds a sentence to the other
    axis.  And from a session without draft and used set for an axis, a run
    without a click that has the axis on Change Classification ends with
    the empty draft and the empty used set for it. *)
Theorem keep_original_discards_the_draft (inp : Inputs) (w : World)
    (u : string) (data : grid) :
  user (session w) = Some u → load_fails inp = false →
  sheets w !! SHEET_NAME = Some data → rectangular data →
  Frame.empty (from_values data) = false →
  let after := session (main inp w).2 in
  (hnh_action_radio inp = KeepOriginal → no_draft AxisHNH after)
  ∧ (type_action_radio inp = KeepOriginal → clicked inp ≠ AddHnhSentence →
     no_draft AxisType after)
  ∧ (clicked inp = NoClick → hnh_action_radio inp = ChangeClassification →
     no_draft AxisHNH (session w) → empty_draft AxisHNH after)
  ∧ (clicked inp = NoClick → type_action_radio inp = ChangeClassification →
     no_draft AxisType (session w) → empty_draft AxisType after).
Proof.
  intros Hu Hload Hdata _ Hne after. unfold after.
  destruct (page_of_record inp w u data Hu Hload Hdata Hne)
    as (notices & index & c & _ & ->).
  set (total := Z.of_nat (len (from_values data))).
  set (s1 := clamp_index total (session w)).
  split; [|split; [|split]].
  - intros Ha. repeat case_match; [done|done|].
    unfold record_page. rewrite bind_modify.
    erewrite bind_returned by (by apply render_hnh_keep).
    apply preserves_result; [|done]. preserves_run.
  - intros Hb Hclick. repeat case_match; [done|done|].
    unfold record_page. rewrite bind_modify.
    destruct (hnh_action_radio inp) eqn:Ha.
    + erewrite bind_returned by (by apply render_hnh_keep).
      erewrite bind_returned by (by apply render_type_keep).
      apply preserves_result; [|done]. preserves_run.
    + erewrite bind_returned by (by apply render_hnh_change).
      erewrite bind_returned by (by apply render_type_keep).
      apply preserves_result; [|done]. preserves_run.
  - intros Hc Ha Hnd. rewrite Hc.
    rewrite !(bool_decide_eq_false_2 (NoClick = _)) by done. simpl andb.
    cbv iota. unfold record_page. rewrite bind_modify.
    erewrite bind_returned by (apply render_hnh_change; [done|by rewrite Hc]).
    rewrite Hc. apply preserves_result; [preserves_run|].
    unfold s1, no_draft, empty_draft in *. simpl in *.
    destruct (session w) as [? ? hr hu [?|] [?|] [?|] ?]; simpl in *;
      destruct Hnd as [-> ->]; by case_bool_decide.
  - intros Hc Hb Hnd. rewrite Hc.
    rewrite !(bool_decide_eq_false_2 (NoClick = _)) by done. simpl andb.
    cbv iota. unfold record_page. rewrite bind_modify.
    assert (H1 : clicked inp ≠ AddHnhSentence) by (by rewrite Hc).
    assert (H2 : clicked inp ≠ AddTypeSentence) by (by rewrite Hc).
    destruct (hnh_action_radio inp) eqn:Ha.
    + erewrite bind_returned by (by apply render_hnh_keep).
      erewrite bind_returned by (by apply render_type_change).
      rewrite Hc. apply preserves_result; [preserves_run|].
      unfold s1, no_draft, empty_draft in *. simpl in *.
      destruct (session w) as [? ? [?|] [?|] tr tu [?|] ?]; simpl in *;
        by destruct Hnd as [-> ->].
    + erewrite bind_returned by (by apply render_hnh_change).
      erewrite bind_returned by (by apply render_type_change).
      rewrite Hc. apply preserves_result; [preserves_run|].
      unfold s1, no_draft, empty_draft in *. simpl in *.
      destruct (session w) as [? ? [?|] [?|] tr tu [?|] ?]; simpl in *;
        destruct Hnd as [-> ->]; by case_bool_decide.
Qed.

Lemma keep_original_discards_the_draft_witness :
  let w := Examples.world Examples.drafting_session None in
  let keep := Examples.inputs NoClick KeepOriginal ChangeClassification
                no_faults in
  let change := Examples.inputs NoClick ChangeClassification
                  ChangeClassification no_faults in
  let w1 := (main keep w).2 in
  hnh_reason_text (session w) = Some "Soil was sampled."
  ∧ rectangular Examples.dataset
  ∧ no_draft AxisHNH (session w1)
  ∧ empty_draft AxisHNH (session (main change w1).2).
Proof.
  intros w keep change w1.
  assert (Hrect : rectangular Examples.dataset) by repeat constructor.
  destruct (keep_original_discards_the_draft keep w "ann" Examples.dataset
              eq_refl eq_refl eq_refl Hrect eq_refl) as (Hkeep & _).
  specialize (Hkeep eq_refl).
  assert (Hu1 : user (session w1) = Some "ann") by (vm_compute; reflexivity).
  assert (Hd1 : sheets w1 !! SHEET_NAME = Some Examples.dataset)
    by (vm_compute; reflexivity).
  destruct (keep_original_discards_the_draft change w1 "ann" Examples.dataset
              Hu1 eq_refl Hd1 Hrect eq_refl) as (_ & _ & Hchange & _).
  split; [reflexivity|]. split; [exact Hrect|]. split; [exact Hkeep|].
  by apply Hchange.
Defined.

End RunLaws.
